(** * Tool-invocation agent: sandboxed file operations, tool dispatch and the
      invocation loop

    A shallow embedding of the Python sources

    - [file_system_mcp_server.py]  (class [FileSystemMCPServer]),
    - [mcp_client_windows_fix.py]  (classes [WindowsMCPClient],
      [WindowsMCPIntegratedTools], [WindowsMCPToolsWrapper]),
    - [mcp_client.py]              (classes [MCPClient], [MCPIntegratedTools],
      [MCPToolsWrapper]),
    - [agent_tools.py]             (class [AgentTools]),
    - [enhanced_function_calling_agent.py]
                                   (class [EnhancedFunctionCallingAgent]),

    followed by the properties of the specification that are checked against
    them.

    Conventions of the embedding.

    - A Python [str] is a list of Unicode code points ([pystr]); a file holds a
      list of bytes.  Text files are opened with [encoding='utf-8'] and the
      default newline handling, both of which are written out below.
    - Python exceptions are values of [exn]; code that may raise lives in the
      monad [io], which threads the state of the outside [world] (directory
      tree, working directory, log of effects) and short-circuits on a raised
      exception.  [try_except] is Python's [try: ... except ...:].
    - What Python leaves to the interpreter, the operating system or a remote
      service (the text of built-in error messages, [str.lower] on the whole
      of Unicode, time stamps, the language model, web search, the remote MCP
      session, the JSON codec) is an operation of the class [Platform]: the
      definitions and theorems hold for every instance of it.
    - The file system is a POSIX one.  Paths follow the POSIX flavour of
      [pathlib]: the separator is [/], names are compared code point by code
      point, there are no drives.  What is said of
      [mcp_client_windows_fix.py] is said of its code run on such a system.
    - The process may read and write every directory and file of the tree;
      the tree holds what the file system can hold (names the kernel
      accepts, no path as long as [PATH_MAX]); the working directory is
      given as [os.getcwd] returns it, without symbolic links. *)

From Stdlib Require Import ZArith NArith Ascii String List Bool Lia.
From stdpp Require Import base option list gmap strings pretty.

#[local] Set Warnings "-register-all".

Local Open Scope N_scope.

(* ===================================================================== *)
(** * Python strings *)
(* ===================================================================== *)

(** A [str] is a sequence of code points, a [bytes] a sequence of octets. *)
Abbreviation pystr := (list N).
Abbreviation pybytes := (list N).

(** String literals of the sources (ASCII text) as code-point lists. *)
Definition py (s : string) : pystr :=
  map N_of_ascii (list_ascii_of_string s).
Arguments py : simpl never.

(** [str(n)] for a natural number. *)
Definition str_of_N (n : N) : pystr := py (pretty n).
Definition str_of_nat (n : nat) : pystr := str_of_N (N.of_nat n).
Definition len (s : pystr) : N := N.of_nat (length s).

Definition LF : N := 10.
Definition CR : N := 13.

Definition pystr_eqb (a b : pystr) : bool := bool_decide (a = b).

(** [s.startswith(p)]. *)
Fixpoint startswith (s p : pystr) : bool :=
  match p, s with
  | [], _ => true
  | _ :: _, [] => false
  | c :: p', d :: s' => (c =? d) && startswith s' p'
  end.

(** [s.endswith(p)]. *)
Definition endswith (s p : pystr) : bool := startswith (rev s) (rev p).

(** [needle in hay] for two strings: [needle] occurs as a contiguous run. *)
Fixpoint contains (hay needle : pystr) : bool :=
  startswith hay needle ||
  match hay with
  | [] => false
  | _ :: hay' => contains hay' needle
  end.

(** [s.replace(old, new)] for a non-empty [old]: the occurrences of [old] are
    replaced from left to right, without overlap.  [skip] counts the
    characters of a matched occurrence still to drop. *)
Fixpoint replace_go (old new : pystr) (skip : nat) (s : pystr) : pystr :=
  match s with
  | [] => []
  | c :: s' =>
      match skip with
      | S k => replace_go old new k s'
      | O =>
          if startswith s old
          then new ++ replace_go old new (pred (length old)) s'
          else c :: replace_go old new O s'
      end
  end.
Definition replace (s old new : pystr) : pystr := replace_go old new O s.

(** [s.split(sep)] for a one-character separator: never the empty list. *)
Fixpoint split_on (sep : N) (s : pystr) : list pystr :=
  match s with
  | [] => [[]]
  | c :: s' =>
      if c =? sep then [] :: split_on sep s'
      else match split_on sep s' with
           | [] => [[c]]
           | w :: ws => (c :: w) :: ws
           end
  end.

(** [sep.join(parts)]. *)
Fixpoint join (sep : pystr) (parts : list pystr) : pystr :=
  match parts with
  | [] => []
  | [p] => p
  | p :: ps => p ++ sep ++ join sep ps
  end.

(** The characters [str.strip()] removes: those for which [str.isspace]
    holds. *)
Definition isspace (c : N) : bool :=
  ((9 <=? c) && (c <=? 13)) || ((28 <=? c) && (c <=? 32)) ||
  (c =? 0x85) || (c =? 0xA0) || (c =? 0x1680) ||
  ((0x2000 <=? c) && (c <=? 0x200A)) ||
  (c =? 0x2028) || (c =? 0x2029) || (c =? 0x202F) || (c =? 0x205F) ||
  (c =? 0x3000).

Fixpoint lstrip (s : pystr) : pystr :=
  match s with
  | c :: s' => if isspace c then lstrip s' else s
  | [] => []
  end.
Definition rstrip (s : pystr) : pystr := rev (lstrip (rev s)).
Definition strip (s : pystr) : pystr := rstrip (lstrip s).

(** Lexicographic comparison of strings by code point, and [sorted]. *)
Fixpoint str_leb (a b : pystr) : bool :=
  match a, b with
  | [], _ => true
  | _ :: _, [] => false
  | c :: a', d :: b' => (c <? d) || ((c =? d) && str_leb a' b')
  end.

Fixpoint insert_sorted (x : pystr) (l : list pystr) : list pystr :=
  match l with
  | [] => [x]
  | y :: l' => if str_leb x y then x :: l else y :: insert_sorted x l'
  end.
Definition sorted (l : list pystr) : list pystr :=
  fold_right insert_sorted [] l.

(* ===================================================================== *)
(** * The UTF-8 codec and text-mode newline handling *)
(* ===================================================================== *)

(** Code points that [str.encode('utf-8')] accepts: the Unicode scalar
    values.  Surrogates raise [UnicodeEncodeError]. *)
Definition is_surrogate (c : N) : bool := (0xD800 <=? c) && (c <=? 0xDFFF).
Definition is_scalar (c : N) : bool := (c <=? 0x10FFFF) && negb (is_surrogate c).

Definition utf8_encode_cp (c : N) : pybytes :=
  if c <? 0x80 then [c]
  else if c <? 0x800 then [0xC0 + c / 64; 0x80 + c mod 64]
  else if c <? 0x10000 then
    [0xE0 + c / 4096; 0x80 + (c / 64) mod 64; 0x80 + c mod 64]
  else
    [0xF0 + c / 262144; 0x80 + (c / 4096) mod 64;
     0x80 + (c / 64) mod 64; 0x80 + c mod 64].

(** [s.encode('utf-8')]: [None] stands for [UnicodeEncodeError]. *)
Fixpoint utf8_encode (s : pystr) : option pybytes :=
  match s with
  | [] => Some []
  | c :: s' =>
      if is_scalar c
      then match utf8_encode s' with
           | Some bs => Some (utf8_encode_cp c ++ bs)
           | None => None
           end
      else None
  end.

Definition is_cont (b : N) : bool := (0x80 <=? b) && (b <? 0xC0).

(** [bs.decode('utf-8')], strict: [None] stands for [UnicodeDecodeError]
    (truncated or over-long sequences, stray continuation bytes, encoded
    surrogates, values above U+10FFFF). *)
Fixpoint utf8_decode (bs : pybytes) : option pystr :=
  match bs with
  | [] => Some []
  | b0 :: t0 =>
      if b0 <? 0x80 then cons b0 <$> utf8_decode t0
      else if (0xC2 <=? b0) && (b0 <? 0xE0) then
        match t0 with
        | b1 :: t1 =>
            if is_cont b1
            then cons ((b0 - 0xC0) * 64 + (b1 - 0x80)) <$> utf8_decode t1
            else None
        | _ => None
        end
      else if (0xE0 <=? b0) && (b0 <? 0xF0) then
        match t0 with
        | b1 :: b2 :: t2 =>
            let c := (b0 - 0xE0) * 4096 + (b1 - 0x80) * 64 + (b2 - 0x80) in
            if is_cont b1 && is_cont b2 && (0x800 <=? c) && negb (is_surrogate c)
            then cons c <$> utf8_decode t2
            else None
        | _ => None
        end
      else if (0xF0 <=? b0) && (b0 <? 0xF5) then
        match t0 with
        | b1 :: b2 :: b3 :: t3 =>
            let c := (b0 - 0xF0) * 262144 + (b1 - 0x80) * 4096
                     + (b2 - 0x80) * 64 + (b3 - 0x80) in
            if is_cont b1 && is_cont b2 && is_cont b3
               && (0x10000 <=? c) && (c <=? 0x10FFFF)
            then cons c <$> utf8_decode t3
            else None
        | _ => None
        end
      else None
  end.

(** Writing in text mode with the default [newline=None]: every ['\n'] becomes
    [os.linesep], which is ["\r\n"] on Windows and ["\n"] elsewhere. *)
Fixpoint newlines_out (crlf : bool) (s : pystr) : pystr :=
  match s with
  | [] => []
  | c :: s' =>
      if (c =? LF) && crlf then CR :: LF :: newlines_out crlf s'
      else c :: newlines_out crlf s'
  end.

(** Reading in text mode with the default [newline=None] (universal
    newlines): ["\r\n"] and a lone ["\r"] both become ["\n"]. *)
Fixpoint newlines_in (s : pystr) : pystr :=
  match s with
  | [] => []
  | c :: s' =>
      if c =? CR then
        match s' with
        | d :: s'' => if d =? LF then LF :: newlines_in s'' else LF :: newlines_in s'
        | [] => [LF]
        end
      else c :: newlines_in s'
  end.

(** [len(f.readlines())]: the number of lines of a text, a last line without
    terminator included. *)
Fixpoint count_lines_go (pending : bool) (s : pystr) : nat :=
  match s with
  | [] => if pending then 1%nat else 0%nat
  | c :: s' => if c =? LF then S (count_lines_go false s') else count_lines_go true s'
  end.
Definition count_lines (s : pystr) : nat := count_lines_go false s.

(* ===================================================================== *)
(** * Values, exceptions and the effect monad *)
(* ===================================================================== *)

(** What [json.loads] produces and [json.dumps] consumes; also the values of
    the keyword arguments of a tool call and of the result dictionaries. *)
Inductive json :=
| JNull
| JBool (b : bool)
| JNum (z : Z)
| JStr (s : pystr)
| JArr (items : list json)
| JObj (fields : list (pystr * json)).

(** A Python [dict] with string keys. *)
Abbreviation pydict := (gmap pystr json).

(** Python truthiness, as used by [if x:]. *)
Definition truthy (v : json) : bool :=
  match v with
  | JNull => false
  | JBool b => b
  | JNum z => negb (z =? 0)%Z
  | JStr s => negb (pystr_eqb s [])
  | JArr l => match l with [] => false | _ => true end
  | JObj l => match l with [] => false | _ => true end
  end.

(** The exception classes that occur.  All of them derive from [Exception];
    signals that derive from [BaseException] only ([KeyboardInterrupt],
    [SystemExit]) are not exceptions in the sense of [except Exception] and
    are not modelled. *)
Inductive exn_class :=
| PermissionError | ValueError | KeyError | TypeError | AttributeError
| UnicodeDecodeError | UnicodeEncodeError
| FileNotFoundError | IsADirectoryError | NotADirectoryError
| FileExistsError | OSError | RuntimeError | RecursionError | OtherException.

Global Instance exn_class_eq_dec : EqDecision exn_class.
Proof. solve_decision. Defined.

(** The classes that derive from [OSError]. *)
Definition is_os_error (c : exn_class) : bool :=
  match c with
  | PermissionError | FileNotFoundError | IsADirectoryError | NotADirectoryError
  | FileExistsError | OSError => true
  | _ => false
  end.

(** An exception object: its class and the text [str(e)]. *)
Record exn := Exn { exn_cls : exn_class; exn_str : pystr }.

Inductive res (A : Type) :=
| Ok (a : A)
| Raise (e : exn).
Arguments Ok {A} a.
Arguments Raise {A} e.

(** ** Conversation messages and tool calls *)

Record tool_call := ToolCall {
  tc_id : pystr;          (* tool_call.id *)
  tc_name : pystr;        (* tool_call.function.name *)
  tc_arguments : pystr    (* tool_call.function.arguments, a JSON text *)
}.

(** A tool descriptor of the catalog:
    [{"type": "function", "function": {"name", "description", "parameters"}}]. *)
Record tool_desc := ToolDesc {
  td_name : pystr;
  td_description : pystr;
  td_parameters : json
}.

Inductive message :=
| MsgSystem (content : pystr)
| MsgUser (content : pystr)
| MsgAssistant (content : pystr) (tool_calls : list tool_call)
| MsgTool (tool_call_id : pystr) (name : pystr) (content : pystr).

(** The arguments of one call of [litellm.completion]. *)
Record request := Request {
  rq_messages : list message;
  rq_tools : option (list tool_desc)    (* [tools=...], with [tool_choice="auto"] *)
}.

(** ** The outside world *)

(** The directory tree.  The order of the entries of a directory is the order
    in which the operating system lists them. *)
Inductive node :=
| File (data : pybytes)
| Dir (entries : list (pystr * node))
| Symlink (target : pystr).

(** An absolute path as the list of its components below the root. *)
Abbreviation abspath := (list pystr).

(** A [pathlib.Path] object as parsed from a string. *)
Record pypath := PyPath { pp_abs : bool; pp_parts : list pystr }.

Global Instance pypath_eq_dec : EqDecision pypath.
Proof. solve_decision. Defined.

Inductive fs_op :=
| OpExists | OpIsFile | OpIsDir | OpStat | OpGetSize
| OpOpenRead | OpOpenWrite | OpMakedirs | OpListdir | OpWalk.

Inductive cli_call :=
| PrintQuestion | PrintInfo | PrintSuccess | PrintWarning | PrintError
| PrintAnswer | LoadingAnimation | BuiltinPrint.

(** Effects, in the order in which they happened. *)
Inductive event :=
| EvResolve (p : pypath)              (* Path.resolve(): lstat/readlink along p *)
| EvFs (op : fs_op) (p : abspath)        (* an operation on the resolved location *)
| EvCli (call : cli_call) (text : pystr)
| EvCompletion (rq : request)
| EvToolDispatch (name : pystr) (kwargs : pydict)
| EvRemoteCall (name : pystr) (kwargs : pydict)
| EvTerminate (server : pystr)
| EvLoopNew
| EvLoopClose.

Record world := World {
  w_root : node;          (* the directory tree, a [Dir] *)
  w_cwd : abspath;           (* os.getcwd() *)
  w_log : list event
}.

Definition io (A : Type) : Type := world -> res A * world.

Definition ret {A} (a : A) : io A := fun w => (Ok a, w).
Definition raise {A} (e : exn) : io A := fun w => (Raise e, w).
Definition bind {A B} (m : io A) (k : A -> io B) : io B :=
  fun w => match m w with
           | (Ok a, w') => k a w'
           | (Raise e, w') => (Raise e, w')
           end.

(** [try: m  except Exception as e: h e]. *)
Definition try_except {A} (m : io A) (h : exn -> io A) : io A :=
  fun w => match m w with
           | (Ok a, w') => (Ok a, w')
           | (Raise e, w') => h e w'
           end.

Definition lift_res {A} (r : res A) : io A := fun w => (r, w).

Definition emit (e : event) : io unit :=
  fun w => (Ok tt, World (w_root w) (w_cwd w) (w_log w ++ [e])).

Declare Scope io_scope.
Delimit Scope io_scope with io.
Notation "x <- m ;; k" := (bind m (fun x => k))
  (at level 100, m at next level, right associativity) : io_scope.
Notation "m ;;; k" := (bind m (fun _ => k))
  (at level 100, right associativity) : io_scope.
Open Scope io_scope.

(** [for x in xs: body x], with the loop state [acc] passed along. *)
Fixpoint for_each {A S} (xs : list A) (body : A -> S -> io S) (acc : S) : io S :=
  match xs with
  | [] => ret acc
  | x :: xs' => acc' <- body x acc ;; for_each xs' body acc'
  end.

(** What the interpreter, the operating system and the collaborating services
    decide. *)
Class Platform := {
  (** [os.linesep] is ["\r\n"] *)
  crlf : bool;
  (** [str.lower] *)
  str_lower : pystr -> pystr;
  (** [str(e)] for an exception raised by the interpreter or a library, from
      its class and the object it is about *)
  lib_text : exn_class -> pystr -> pystr;
  (** [str(v)] for a value that is not a string *)
  py_str : json -> pystr;
  (** [str(stat.st_mtime)], [oct(stat.st_mode)] and the [st_size] of a
      directory *)
  stat_mtime : world -> abspath -> pystr;
  stat_mode_oct : world -> abspath -> pystr;
  stat_dir_size : world -> abspath -> N;
  (** [litellm.completion]: the assistant message of the first choice *)
  completion : list event -> request -> res (pystr * list tool_call);
  (** [json.loads] of the argument text of a tool call, [json.dumps] of a
      tool result *)
  json_loads : pystr -> res json;
  json_dumps : pydict -> res pystr;
  (** [VectorizeWrapper()] can be constructed (its environment variables are
      set), and the outcome of the bodies of [search_documents] and
      [search_web], each a [try] block that returns a dictionary on every
      path *)
  rag_configured : bool;
  documents_outcome : list event -> json -> json -> pydict;
  web_outcome : list event -> json -> json -> pydict;
  (** starting the server process and the MCP handshake: the tools the server
      lists, or the exception raised on the way *)
  remote_connect : list event -> pystr -> res (list tool_desc);
  (** [client.call_tool]: the content fragments of the answer, each with its
      [text] attribute if it has one *)
  remote_call_tool : list event -> pystr -> pydict -> res (list (option pystr));
  (** [NAME_MAX] of the file system and [PATH_MAX], in bytes *)
  name_max : N;
  path_max : N;
  (** the number of symbolic links the kernel follows in one walk along a
      path; one more is [ELOOP] *)
  link_max : nat;
  (** the nesting of symbolic links the recursion of [os.path.realpath] has
      stack for *)
  nesting_room : nat;
  (** what [Path.resolve()] answers when the walk of [os.path.realpath] is
      not brought to an end (a link met while it is being resolved, or the
      stack used up): the interpreters differ here, [pathlib] before 3.13
      raises [RuntimeError] unless the loop has gone from the path it puts
      together, later ones return a path with the loop left in; the answer
      is a matter of the directory tree, the working directory and the
      path *)
  resolve_gave_up : node -> abspath -> pypath -> res abspath;
  (** the number of nested calls of [os.makedirs], and of [Path.mkdir], the
      stack has room for *)
  mkdir_room : nat;
  (** [Path.exists], [Path.is_file] and [Path.is_dir] raise the errors of
      [os.stat] they do not know (as [pathlib] does before Python 3.14)
      instead of answering [False] *)
  pathlib_strict : bool;
  (** what a method of the [CLIInterface] object raises when it is called
      with a text, after the events so far, if it raises: the methods print
      to [sys.stdout], which refuses what it cannot encode *)
  cli_raises : list event -> cli_call -> pystr -> option exn
}.

Definition lib_raise `{Platform} {A} (c : exn_class) (about : pystr) : io A :=
  raise (Exn c (lib_text c about)).

(* ===================================================================== *)
(** * The file system *)
(* ===================================================================== *)

Definition SLASH : N := 47.

(** [Path(s)]: the components of [s], empty ones and ["."] dropped, [".."]
    kept. *)
Definition parse_path (s : pystr) : pypath :=
  PyPath (startswith s [SLASH])
         (List.filter (fun x => negb (pystr_eqb x []) && negb (pystr_eqb x (py ".")))
                      (split_on SLASH s)).

(** [a / b]. *)
Definition path_join (a b : pypath) : pypath :=
  if pp_abs b then b else PyPath (pp_abs a) (pp_parts a ++ pp_parts b).

(** [str(p)] for an absolute path and for a [Path]. *)
Definition path_str (p : abspath) : pystr := SLASH :: join [SLASH] p.
Definition pypath_str (p : pypath) : pystr :=
  if pp_abs p then path_str (pp_parts p)
  else match pp_parts p with [] => py "." | ps => join [SLASH] ps end.

(** [p.relative_to(base)] succeeds: [base] is [p] or an ancestor of it. *)
Fixpoint is_relative_to (p base : abspath) : bool :=
  match base, p with
  | [], _ => true
  | _ :: _, [] => false
  | b :: base', c :: p' => pystr_eqb b c && is_relative_to p' base'
  end.

(** What a call on a path fails with: an error number of the kernel, or the
    refusal of the path string by the interpreter before the kernel is
    asked. *)
Inductive fs_err :=
| ENOENT | ENOTDIR | EISDIR | EEXIST | ELOOP | ENAMETOOLONG
| Refused (c : exn_class).

Definition fs_err_class (e : fs_err) : exn_class :=
  match e with
  | ENOENT => FileNotFoundError
  | ENOTDIR => NotADirectoryError
  | EISDIR => IsADirectoryError
  | EEXIST => FileExistsError
  | ELOOP => OSError
  | ENAMETOOLONG => OSError
  | Refused c => c
  end.

(** ** File names *)

(** The file-system encoding is UTF-8 with the error handler
    [surrogateescape] ([os.fsencode]): a code point U+DC80..U+DCFF stands for
    one byte that is not UTF-8, every other surrogate has no encoding. *)
Definition is_escape (c : N) : bool := (0xDC80 <=? c) && (c <=? 0xDCFF).
Definition fs_char (c : N) : bool := is_scalar c || is_escape c.

(** What a function of [os] does with a path string before it asks the
    kernel: the string is encoded, which raises [UnicodeEncodeError] on a
    character without encoding, and then refused with
    [ValueError('embedded null byte')] if it holds a NUL. *)
Definition str_refused (s : pystr) : option exn_class :=
  if negb (forallb fs_char s) then Some UnicodeEncodeError
  else if existsb (N.eqb 0) s then Some ValueError
  else None.

(** The number of bytes of an encoded string. *)
Definition fs_len (s : pystr) : N :=
  fold_right (fun c n => (if is_escape c then 1 else len (utf8_encode_cp c)) + n) 0 s.

Definition path_refused (p : abspath) : option exn_class := str_refused (path_str p).
Definition path_bytes (p : abspath) : N := fs_len (path_str p).

(** Entries kept in order (the entries of a directory, a Python [dict] whose
    order of insertion matters): the value under a name, and the entry of a
    name replaced in place or added at the end. *)
Fixpoint assoc {V} (x : pystr) (es : list (pystr * V)) : option V :=
  match es with
  | [] => None
  | (n, c) :: es' => if pystr_eqb n x then Some c else assoc x es'
  end.

Fixpoint set_entry {V} (x : pystr) (c : V) (es : list (pystr * V))
  : list (pystr * V) :=
  match es with
  | [] => [(x, c)]
  | (n, d) :: es' => if pystr_eqb n x then (n, c) :: es' else (n, d) :: set_entry x c es'
  end.

(** The node at a path, no link followed ([lstat]). *)
Fixpoint find_node (t : node) (p : abspath) : fs_err + node :=
  match p with
  | [] => inr t
  | x :: p' =>
      match t with
      | Dir es => match assoc x es with
                  | Some c => find_node c p'
                  | None => inl ENOENT
                  end
      | _ => inl ENOTDIR
      end
  end.

Definition link_at (t : node) (p : abspath) : option pystr :=
  match find_node t p with
  | inr (Symlink target) => Some target
  | _ => None
  end.

Fixpoint count_links (t : node) : nat :=
  match t with
  | File _ => 0
  | Symlink _ => 1
  | Dir es =>
      (fix go (es : list (pystr * node)) : nat :=
         match es with
         | [] => 0
         | (_, c) :: es' => count_links c + go es'
         end) es
  end%nat.

(** ** [os.path.realpath] *)

(** How the walk of [os.path.realpath] ends: at a path, without an end, or
    with the exception [os.lstat] raises on a name. *)
Inductive walk :=
| Reached (p : abspath)
| GaveUp
| Raised (c : exn_class) (name : pystr).

(** [os.path.realpath], not strict: the components of [rest] are followed
    from the directory [cur]; [".."] drops the last component reached; every
    other component is handed to [os.lstat], which refuses a name it cannot
    encode or that holds a NUL; a symbolic link is replaced by the
    resolution of its target, anything else (a missing name included) is
    kept.  [fuel] bounds the nesting of links met while a link is being
    resolved. *)
Fixpoint realpath_from (fuel : nat) (t : node) : abspath -> list pystr -> walk :=
  match fuel with
  | O => fun _ _ => GaveUp
  | S f =>
      fix go (cur : abspath) (rest : list pystr) {struct rest} : walk :=
        match rest with
        | [] => Reached cur
        | name :: rest' =>
            if pystr_eqb name (py "..") then go (removelast cur) rest'
            else match str_refused name with
                 | Some c => Raised c name
                 | None =>
                     match link_at t (cur ++ [name]) with
                     | Some target =>
                         let tp := parse_path target in
                         match realpath_from f t (if pp_abs tp then [] else cur)
                                             (pp_parts tp) with
                         | Reached cur' => go cur' rest'
                         | GaveUp => GaveUp
                         | Raised c bad => Raised c bad
                         end
                     | None => go (cur ++ [name]) rest'
                     end
                 end
        end
  end.

(** ** The walk of the kernel along a path *)

(** The place the components of [rest] lead to from the directory [cur]:
    every component but the last has to be there and to be a directory (or a
    link to one), [".."] goes to the parent, a name longer than [nmax] bytes
    is refused, a symbolic link is replaced by its target, and the last
    component may be missing.  [links] is the number of links that may still
    be followed. *)
Fixpoint locate_from (nmax : N) (links : nat) (t : node)
  : abspath -> list pystr -> fs_err + abspath :=
  match links with
  | O => fun _ _ => inl ELOOP
  | S f =>
      fix go (cur : abspath) (rest : list pystr) {struct rest} : fs_err + abspath :=
        match rest with
        | [] => inr cur
        | name :: rest' =>
            match find_node t cur with
            | inr (Dir _) =>
                if pystr_eqb name (py "..") then go (removelast cur) rest'
                else if nmax <? fs_len name then inl ENAMETOOLONG
                else match link_at t (cur ++ [name]) with
                     | Some target =>
                         if pystr_eqb target [] then inl ENOENT
                         else
                           let tp := parse_path target in
                           locate_from nmax f t (if pp_abs tp then [] else cur)
                                       (pp_parts tp ++ rest')
                     | None => go (cur ++ [name]) rest'
                     end
            | inr _ => inl ENOTDIR
            | inl e => inl e
            end
        end
  end.

(** The place an absolute path string leads to, for a call that follows a
    link at the last name: the interpreter encodes the string, the kernel
    refuses one of [pmax] bytes or more and walks along the others, following
    up to [links] links. *)
Definition locate_with (nmax pmax : N) (links : nat) (root : node) (p : abspath)
  : fs_err + abspath :=
  match path_refused p with
  | Some c => inl (Refused c)
  | None =>
      if pmax <=? path_bytes p then inl ENAMETOOLONG
      else locate_from nmax (S links) root [] p
  end.

(** [os.mkdir] at a place: the directory it is made in has to be there, the
    name has to be free. *)
Fixpoint mkdir_at (t : node) (p : abspath) : fs_err + node :=
  match p with
  | [] => inl EEXIST
  | x :: p' =>
      match t with
      | Dir es =>
          match assoc x es, p' with
          | None, [] => inr (Dir (set_entry x (Dir []) es))
          | None, _ :: _ => inl ENOENT
          | Some c, _ =>
              match mkdir_at c p' with
              | inr c' => inr (Dir (set_entry x c' es))
              | inl e => inl e
              end
          end
      | _ => inl ENOTDIR
      end
  end.

(** [open(p, 'w')] followed by writing [data] and closing: the file is
    created in an existing directory or replaced. *)
Fixpoint write_at (t : node) (p : abspath) (data : pybytes) : fs_err + node :=
  match p with
  | [] => match t with
          | Dir _ => inl EISDIR
          | File _ => inr (File data)
          | Symlink _ => inl ELOOP
          end
  | x :: p' =>
      match t with
      | Dir es =>
          match assoc x es, p' with
          | None, [] => inr (Dir (set_entry x (File data) es))
          | None, _ :: _ => inl ENOENT
          | Some c, _ =>
              match write_at c p' data with
              | inr c' => inr (Dir (set_entry x c' es))
              | inl e => inl e
              end
          end
      | _ => inl ENOTDIR
      end
  end.

(** ** The primitives the sources call *)

Definition gets {A} (f : world -> A) : io A := fun w => (Ok (f w), w).
Definition set_root (t : node) : io unit :=
  fun w => (Ok tt, World t (w_cwd w) (w_log w)).

Section Primitives.
Context `{Platform}.

Definition fs_raise {A} (e : fs_err) (p : abspath) : io A :=
  lib_raise (fs_err_class e) (path_str p).

(** The place an absolute path string leads to, and the node there, links
    followed ([os.stat]). *)
Definition locate (w : world) (p : abspath) : fs_err + abspath :=
  locate_with name_max path_max link_max (w_root w) p.

Definition stat_node (w : world) (p : abspath) : fs_err + node :=
  match locate w p with
  | inr place => find_node (w_root w) place
  | inl e => inl e
  end.

(** ** [Path.resolve()] *)

(** [os.path.realpath] of the path, from the working directory when it is
    relative.  A nesting of links deeper than the number of links in the
    tree has met one of them while it was being resolved. *)
Definition realpath (w : world) (p : pypath) : walk :=
  realpath_from (S (Nat.min (count_links (w_root w)) nesting_room)) (w_root w)
                (if pp_abs p then [] else w_cwd w) (pp_parts p).

(** What [Path.resolve()] answers: the path [os.path.realpath] reaches,
    the exception [os.lstat] raised on the way, or what the interpreter
    makes of a walk without end. *)
Definition resolve_outcome (w : world) (p : pypath) : res abspath :=
  match realpath w p with
  | Reached rp => Ok rp
  | Raised c name => Raise (Exn c (lib_text c name))
  | GaveUp => resolve_gave_up (w_root w) (w_cwd w) p
  end.

Definition path_resolve (p : pypath) : io abspath :=
  emit (EvResolve p) ;;;
  r <- gets (fun w => resolve_outcome w p) ;;
  lift_res r.

(** [os.path.exists], [os.path.isfile], [os.path.isdir]
    ([Path.exists], [Path.is_file], [Path.is_dir]): [False] on every
    failure of [os.stat], a refused path string included. *)
Definition os_path_exists (p : abspath) : io bool :=
  emit (EvFs OpExists p) ;;;
  gets (fun w => match stat_node w p with inr _ => true | inl _ => false end).

Definition os_path_isfile (p : abspath) : io bool :=
  emit (EvFs OpIsFile p) ;;;
  gets (fun w => match stat_node w p with inr (File _) => true | _ => false end).

Definition os_path_isdir (p : abspath) : io bool :=
  emit (EvFs OpIsDir p) ;;;
  gets (fun w => match stat_node w p with inr (Dir _) => true | _ => false end).

(** [Path.exists], [Path.is_file], [Path.is_dir]: [False] when [os.stat]
    fails with [ENOENT], [ENOTDIR] or [ELOOP] or refuses the path string
    ([except ValueError]); every other error is raised by a strict
    [pathlib]. *)
Definition ignored (e : fs_err) : bool :=
  match e with
  | ENOENT | ENOTDIR | ELOOP | Refused _ => true
  | _ => false
  end.

Definition is_file_node (n : node) : bool :=
  match n with File _ => true | _ => false end.
Definition is_dir_node (n : node) : bool :=
  match n with Dir _ => true | _ => false end.

Definition path_test_now (test : node -> bool) (p : abspath) : io bool :=
  r <- gets (fun w => stat_node w p) ;;
  match r with
  | inr n => ret (test n)
  | inl e => if pathlib_strict && negb (ignored e) then fs_raise e p else ret false
  end.

Definition path_exists (p : abspath) : io bool :=
  emit (EvFs OpExists p) ;;; path_test_now (fun _ => true) p.
Definition path_is_file (p : abspath) : io bool :=
  emit (EvFs OpIsFile p) ;;; path_test_now is_file_node p.
Definition path_is_dir (p : abspath) : io bool :=
  emit (EvFs OpIsDir p) ;;; path_test_now is_dir_node p.

(** [st_size] of what [p] leads to. *)
Definition size_of (w : world) (p : abspath) (n : node) : N :=
  match n with
  | File d => len d
  | _ => stat_dir_size w p
  end.

(** [os.path.getsize(p)] ([p.stat().st_size]). *)
Definition os_path_getsize (p : abspath) : io N :=
  emit (EvFs OpGetSize p) ;;;
  r <- gets (fun w => match stat_node w p with
                      | inr n => inr (size_of w p n)
                      | inl e => inl e
                      end) ;;
  match r with
  | inr n => ret n
  | inl e => fs_raise e p
  end.

(** [with open(p, 'r', encoding='utf-8') as f: content = f.read()]. *)
Definition read_text (p : abspath) : io pystr :=
  emit (EvFs OpOpenRead p) ;;;
  r <- gets (fun w => stat_node w p) ;;
  match r with
  | inr (File d) =>
      match utf8_decode d with
      | Some s => ret (newlines_in s)
      | None => lib_raise UnicodeDecodeError (path_str p)
      end
  | inr (Dir _) => fs_raise EISDIR p
  | inr (Symlink _) => fs_raise ELOOP p
  | inl e => fs_raise e p
  end.

(** ** Creating directories *)

(** [os.mkdir(p)]: the parent is walked to, the last name is not followed;
    what is there already, a link to nothing included, is [EEXIST]. *)
Definition mkdir_tree (w : world) (p : abspath) : fs_err + node :=
  match path_refused p with
  | Some c => inl (Refused c)
  | None =>
      if path_max <=? path_bytes p then inl ENAMETOOLONG
      else
        match locate_from name_max (S link_max) (w_root w) [] (removelast p) with
        | inl e => inl e
        | inr parent =>
            match find_node (w_root w) parent with
            | inr (Dir _) =>
                match last p with
                | None => inl EEXIST
                | Some name =>
                    if pystr_eqb name (py "..") then inl EEXIST
                    else if name_max <? fs_len name then inl ENAMETOOLONG
                    else mkdir_at (w_root w) (parent ++ [name])
                end
            | inr _ => inl ENOTDIR
            | inl e => inl e
            end
        end
  end.

Definition os_mkdir (p : abspath) : io unit :=
  r <- gets (fun w => mkdir_tree w p) ;;
  match r with
  | inr t => set_root t
  | inl e => fs_raise e p
  end.

(** The tests [os.makedirs] makes on the way ([os.path.exists],
    [os.path.isdir]). *)
Definition exists_now (p : abspath) : io bool :=
  gets (fun w => match stat_node w p with inr _ => true | inl _ => false end).
Definition isdir_now (p : abspath) : io bool :=
  gets (fun w => match stat_node w p with inr (Dir _) => true | _ => false end).

(** The body of [os.makedirs(name, exist_ok=True)]:
    [head, tail = path.split(name)
     if head and tail and not path.exists(head):
         try: makedirs(head, exist_ok=exist_ok)
         except FileExistsError: pass
     try: mkdir(name, mode)
     except OSError:
         if not exist_ok or not path.isdir(name): raise].
    [room] is the number of nested calls the stack has room for. *)
Fixpoint makedirs (room : nat) (name : abspath) : io unit :=
  match room with
  | O => lib_raise RecursionError (py "makedirs")
  | S room' =>
      (match name with
       | [] => ret tt
       | _ :: _ =>
           let head := removelast name in
           there <- exists_now head ;;
           if there then ret tt
           else try_except (makedirs room' head)
                  (fun e => if decide (exn_cls e = FileExistsError) then ret tt
                            else raise e)
       end) ;;;
      try_except (os_mkdir name)
        (fun e =>
           if is_os_error (exn_cls e) then
             isd <- isdir_now name ;;
             if isd then ret tt else raise e
           else raise e)
  end.

(** [os.makedirs(p, exist_ok=True)]. *)
Definition os_makedirs (p : abspath) : io unit :=
  emit (EvFs OpMakedirs p) ;;;
  makedirs mkdir_room p.

(** The body of [Path.mkdir(mode, parents, exist_ok)]:
    [try: os.mkdir(self, mode)
     except FileNotFoundError:
         if not parents or self.parent == self: raise
         self.parent.mkdir(parents=True, exist_ok=True)
         self.mkdir(mode, parents=False, exist_ok=exist_ok)
     except OSError:
         if not exist_ok or not self.is_dir(): raise]. *)
Fixpoint mkdir (room : nat) (parents exist_ok : bool) (self : abspath) : io unit :=
  match room with
  | O => lib_raise RecursionError (py "mkdir")
  | S room' =>
      try_except (os_mkdir self)
        (fun e =>
           if decide (exn_cls e = FileNotFoundError) then
             if negb parents || bool_decide (self = []) then raise e
             else
               mkdir room' true true (removelast self) ;;;
               mkdir room' false exist_ok self
           else if is_os_error (exn_cls e) then
             if negb exist_ok then raise e
             else isd <- path_test_now is_dir_node self ;;
                  if isd then ret tt else raise e
           else raise e)
  end.

(** [p.mkdir(parents=True, exist_ok=True)]. *)
Definition path_mkdir (p : abspath) : io unit :=
  emit (EvFs OpMakedirs p) ;;;
  mkdir mkdir_room true true p.

(** The bytes [f.write(content)] hands to a file opened with
    [encoding='utf-8']. *)
Definition text_bytes (s : pystr) : option pybytes :=
  utf8_encode (newlines_out crlf s).

(** [with open(p, 'w', encoding='utf-8') as f: f.write(content)].
    Opening creates the file or empties it; [f.write] raises [TypeError]
    on anything but a [str] and [UnicodeEncodeError] on a string that
    cannot be encoded, both with the file left empty. *)
Definition write_text (p : abspath) (content : json) : io unit :=
  emit (EvFs OpOpenWrite p) ;;;
  r <- gets (fun w => locate w p) ;;
  match r with
  | inl e => fs_raise e p
  | inr place =>
      opened <- gets (fun w => write_at (w_root w) place []) ;;
      match opened with
      | inl e => fs_raise e p
      | inr t =>
          set_root t ;;;
          match content with
          | JStr s =>
              match text_bytes s with
              | None => lib_raise UnicodeEncodeError s
              | Some bs =>
                  closed <- gets (fun w => write_at (w_root w) place bs) ;;
                  match closed with
                  | inr t' => set_root t'
                  | inl e => fs_raise e p
                  end
              end
          | _ => lib_raise TypeError (py "write")
          end
      end
  end.

(** [os.listdir(p)] ([p.iterdir()]): the names in the directory. *)
Definition os_listdir (p : abspath) : io (list pystr) :=
  emit (EvFs OpListdir p) ;;;
  r <- gets (fun w => stat_node w p) ;;
  match r with
  | inr (Dir es) => ret (map fst es)
  | inr _ => fs_raise ENOTDIR p
  | inl e => fs_raise e p
  end.

(** [entry.is_dir()], links followed. *)
Definition entry_is_dir (w : world) (here : abspath) (e : pystr * node) : bool :=
  match snd e with
  | Dir _ => true
  | File _ => false
  | Symlink _ => match stat_node w (here ++ [fst e]) with
                 | inr (Dir _) => true
                 | _ => false
                 end
  end.

(** The directories below (and including) [here], parents first, links to
    directories not entered; each with its entries. *)
Fixpoint walk_tree (t : node) (here : abspath) : list (abspath * list (pystr * node)) :=
  match t with
  | Dir es =>
      (here, es) ::
      (fix sub (es : list (pystr * node)) : list (abspath * list (pystr * node)) :=
         match es with
         | [] => []
         | (n, c) :: es' =>
             match c with
             | Dir _ => walk_tree c (here ++ [n])
             | _ => []
             end ++ sub es'
         end) es
  | _ => []
  end.

(** [os.walk(top)]: for every directory, its path, the names of its
    sub-directories and the names of its other entries.  An error of
    [os.scandir] on [top] ends the walk without entries; a path string the
    interpreter refuses is no such error and is raised. *)
Definition os_walk (top : abspath) : io (list (abspath * list pystr * list pystr)) :=
  emit (EvFs OpWalk top) ;;;
  r <- gets (fun w =>
    match stat_node w top with
    | inr t =>
        inr (map (fun '(here, es) =>
                    (here,
                     map fst (List.filter (entry_is_dir w here) es),
                     map fst (List.filter (fun e => negb (entry_is_dir w here e)) es)))
                 (walk_tree t top))
    | inl (Refused c) => inl (Refused c)
    | inl _ => inr []
    end) ;;
  match r with
  | inr dirs => ret dirs
  | inl e => fs_raise e top
  end.

(** [top.rglob("*")]: every entry of every directory below [top]; nothing
    when [top.is_dir()] is [False]. *)
Definition path_rglob (top : abspath) : io (list abspath) :=
  emit (EvFs OpWalk top) ;;;
  r <- gets (fun w => stat_node w top) ;;
  match r with
  | inr t =>
      ret (flat_map (fun '(here, es) => map (fun e => here ++ [fst e]) es)
                    (walk_tree t top))
  | inl e => if pathlib_strict && negb (ignored e) then fs_raise e top else ret []
  end.

(** [os.stat(p)]: the fields the sources print. *)
Record stat_result := Stat {
  st_size : N;
  st_mtime : pystr;
  st_mode_oct : pystr
}.

Definition os_stat (p : abspath) : io stat_result :=
  emit (EvFs OpStat p) ;;;
  r <- gets (fun w => match stat_node w p with
                      | inr n => inr (Stat (size_of w p n) (stat_mtime w p)
                                           (stat_mode_oct w p))
                      | inl e => inl e
                      end) ;;
  match r with
  | inr s => ret s
  | inl e => fs_raise e p
  end.

(** [with open(p, 'r', encoding='utf-8') as f: lines = len(f.readlines())]. *)
Definition count_file_lines (p : abspath) : io nat :=
  content <- read_text p ;; ret (count_lines content).

End Primitives.

(* ===================================================================== *)
(** * Shared helpers of the translations *)
(* ===================================================================== *)

Section Helpers.
Context `{Platform}.

(** A call of a method of the [CLIInterface] object with its text: the
    method prints the text behind a mark of its own, and raises what the
    console raises. *)
Definition console (call : cli_call) (text : pystr) : io unit :=
  emit (EvCli call text) ;;;
  log <- gets w_log ;;
  match cli_raises log call text with
  | Some e => raise e
  | None => ret tt
  end.

(** [f"{v}"]. *)
Definition format_value (v : json) : pystr :=
  match v with
  | JStr s => s
  | _ => py_str v
  end.

(** [f"{len(content)}"] in the write handlers; reached only after
    [f.write(content)] accepted [content], a string. *)
Definition len_value (content : json) : pystr :=
  match content with
  | JStr s => str_of_N (len s)
  | _ => py_str content
  end.

(** [Path(v)]: only a string is accepted. *)
Definition as_path (v : json) : io pypath :=
  match v with
  | JStr s => ret (parse_path s)
  | _ => lib_raise TypeError (py "Path")
  end.

(** [v.lower()]: only a string has the method. *)
Definition lower_of (v : json) : io pystr :=
  match v with
  | JStr s => ret (str_lower s)
  | _ => lib_raise AttributeError (py "lower")
  end.

(** [name.endswith(v)]: [v] has to be a string. *)
Definition endswith_value (name : pystr) (v : json) : io bool :=
  match v with
  | JStr s => ret (endswith name s)
  | _ => lib_raise TypeError (py "endswith")
  end.

(** [d[key]]; [str(KeyError(key))] is the key in quotes. *)
Definition getitem (d : pydict) (key : string) : io json :=
  match d !! py key with
  | Some v => ret v
  | None => raise (Exn KeyError (py "'" ++ py key ++ py "'"))
  end.

(** [d.get(key, default)]. *)
Definition get_default (d : pydict) (key : string) (default : json) : json :=
  match d !! py key with
  | Some v => v
  | None => default
  end.

(** [enumerate(xs, 1)]. *)
Fixpoint enumerate_from {A} (i : nat) (xs : list A) : list (nat * A) :=
  match xs with
  | [] => []
  | x :: xs' => (i, x) :: enumerate_from (S i) xs'
  end.

(** The lines of [content] that contain the lowered search term, each with
    its number (from 1):
    [for i, line in enumerate(lines, 1): if search_term_lower in line.lower()]. *)
Definition matching_numbered (term_lower content : pystr) : list (nat * pystr) :=
  List.filter (fun il => contains (str_lower (snd il)) term_lower)
              (enumerate_from 1 (split_on LF content)).

(** [f"  Line {i}: {line.strip()}"]. *)
Definition render_line (il : nat * pystr) : pystr :=
  py "  Line " ++ str_of_nat (fst il) ++ py ": " ++ strip (snd il).

(** What one readable file adds to [matches]: nothing unless the lowered
    content contains the lowered term; otherwise a header with the
    relative path behind [marker], the first three matching lines, the
    number of further ones if there are any, and an empty separator
    line. *)
Definition file_block (marker term_lower rel content : pystr) : list pystr :=
  if contains (str_lower content) term_lower then
    let matching_lines := map render_line (matching_numbered term_lower content) in
    [marker ++ py " " ++ rel ++ py ":"]
    ++ firstn 3 matching_lines
    ++ (if (3 <? length matching_lines)%nat
        then [py "  ... and " ++ str_of_nat (length matching_lines - 3)
              ++ py " more matches"]
        else [])
    ++ [[]]
  else [].

(** The text a search returns for the collected [matches]. *)
Definition search_report (search_term directory_path : json) (matches : list pystr)
  : pystr :=
  match matches with
  | [] => py "No matches found for '" ++ format_value search_term
          ++ py "' in " ++ format_value directory_path
  | _ => py "Search results for '" ++ format_value search_term ++ py "' in "
         ++ format_value directory_path ++ py ":" ++ [LF] ++ py "---" ++ [LF]
         ++ join [LF] matches
  end.

(** [os.path.relpath(p, top)] ([p.relative_to(top)]) for [p] below [top]. *)
Definition relpath (p top : abspath) : pystr := join [SLASH] (drop (length top) p).

End Helpers.

(* ===================================================================== *)
(** * [mcp_client_windows_fix.py]: class [WindowsMCPClient] *)
(* ===================================================================== *)

Module WindowsMCPClient.
Section WindowsMCPClient.
Context `{Platform}.

Definition FOLDER : pystr := [0x1F4C1].
Definition PAGE : pystr := [0x1F4C4].

(** The failure and success dictionaries every handler returns. *)
Definition failure (error : pystr) : pydict :=
  {[ py "success" := JBool false; py "error" := JStr error; py "result" := JStr [] ]}.

Definition success (result : pystr) (tool_name : string) : pydict :=
  {[ py "success" := JBool true; py "result" := JStr result;
     py "tool_name" := JStr (py tool_name) ]}.

Definition ACCESS_DENIED : pystr := py "Access denied: Path outside base directory".

(** [_safe_path(path, base_directory=".")]. *)
Definition _safe_path (path : json) (base_directory : pystr) : io abspath :=
  target_path <- as_path path ;;
  let target_path :=
    if negb (pp_abs target_path)
    then path_join (parse_path base_directory) target_path
    else target_path in
  resolved_path <- path_resolve target_path ;;
  base_resolved <- path_resolve (parse_path base_directory) ;;
  if is_relative_to resolved_path base_resolved
  then ret resolved_path
  else raise (Exn PermissionError ACCESS_DENIED).

(** [_read_file_direct(file_path)]. *)
Definition _read_file_direct (file_path : json) : io pydict :=
  try_except
    (safe_path <- _safe_path file_path (py ".") ;;
     ex <- os_path_exists safe_path ;;
     if negb ex then
       ret (failure (py "File not found: " ++ format_value file_path))
     else
       isf <- os_path_isfile safe_path ;;
       if negb isf then
         ret (failure (py "Path is not a file: " ++ format_value file_path))
       else
         content <- read_text safe_path ;;
         ret (success (py "File: " ++ format_value file_path ++ [LF] ++ py "---"
                       ++ [LF] ++ content) "mcp_read_file"))
    (fun e =>
       if decide (exn_cls e = UnicodeDecodeError) then
         ret (failure (py "Unable to read file (binary or encoding issue): "
                       ++ format_value file_path))
       else ret (failure (py "Error reading file: " ++ exn_str e))).

(** [_write_file_direct(file_path, content)]. *)
Definition _write_file_direct (file_path content : json) : io pydict :=
  try_except
    (safe_path <- _safe_path file_path (py ".") ;;
     os_makedirs (removelast safe_path) ;;;
     write_text safe_path content ;;;
     ret (success (py "Successfully wrote " ++ len_value content
                   ++ py " characters to: " ++ format_value file_path)
                  "mcp_write_file"))
    (fun e => ret (failure (py "Error writing file: " ++ exn_str e))).

(** One line of a directory listing. *)
Definition list_item (safe_path : abspath) (item : pystr) : io pystr :=
  let item_path := safe_path ++ [item] in
  isd <- os_path_isdir item_path ;;
  let item_type := if isd then FOLDER else PAGE in
  isf <- os_path_isfile item_path ;;
  size <- (if isf
           then n <- os_path_getsize item_path ;;
                ret (py " (" ++ str_of_N n ++ py " bytes)")
           else ret []) ;;
  ret (item_type ++ py " " ++ item ++ size).

(** [_list_directory_direct(directory_path)]. *)
Definition _list_directory_direct (directory_path : json) : io pydict :=
  try_except
    (safe_path <- _safe_path directory_path (py ".") ;;
     ex <- os_path_exists safe_path ;;
     if negb ex then
       ret (failure (py "Directory not found: " ++ format_value directory_path))
     else
       isd <- os_path_isdir safe_path ;;
       if negb isd then
         ret (failure (py "Path is not a directory: " ++ format_value directory_path))
       else
         names <- os_listdir safe_path ;;
         items <- for_each (sorted names)
                    (fun item items => line <- list_item safe_path item ;;
                                       ret (items ++ [line])) [] ;;
         let content := py "Directory: " ++ format_value directory_path ++ [LF]
                        ++ py "---" ++ [LF] ++ join [LF] items in
         let content := match items with
                        | [] => content ++ py "(empty directory)"
                        | _ => content
                        end in
         ret (success content "mcp_list_directory"))
    (fun e => ret (failure (py "Error listing directory: " ++ exn_str e))).

(** The body of the inner loop of [_search_files_direct] for one file:
    the extension filter, then the [try] block that reads and scans the
    file and skips it on [UnicodeDecodeError] or [PermissionError]. *)
Definition search_one (safe_path : abspath) (search_term_lower : pystr)
    (file_extension : json) (root : abspath) (file : pystr)
    (matches : list pystr) : io (list pystr) :=
  skip <- (if truthy file_extension
           then e <- endswith_value file file_extension ;; ret (negb e)
           else ret false) ;;
  if skip then ret matches
  else
    let file_path := root ++ [file] in
    try_except
      (content <- read_text file_path ;;
       ret (matches ++ file_block PAGE search_term_lower
                         (relpath file_path safe_path) content))
      (fun e =>
         if decide (exn_cls e = UnicodeDecodeError) then ret matches
         else if decide (exn_cls e = PermissionError) then ret matches
         else raise e).

(** [_search_files_direct(search_term, directory_path, file_extension)]. *)
Definition _search_files_direct (search_term directory_path file_extension : json)
  : io pydict :=
  try_except
    (safe_path <- _safe_path directory_path (py ".") ;;
     ex <- os_path_exists safe_path ;;
     isd <- (if ex then os_path_isdir safe_path else ret false) ;;
     if negb ex || negb isd then
       ret (failure (py "Invalid directory: " ++ format_value directory_path))
     else
       search_term_lower <- lower_of search_term ;;
       dirs <- os_walk safe_path ;;
       matches <- for_each dirs
                    (fun d matches =>
                       for_each (snd d)
                         (search_one safe_path search_term_lower file_extension
                                     (fst (fst d)))
                         matches) [] ;;
       ret (success (search_report search_term directory_path matches)
                    "mcp_search_files"))
    (fun e => ret (failure (py "Error searching files: " ++ exn_str e))).

(** [_file_info_direct(path)]. *)
Definition _file_info_direct (path : json) : io pydict :=
  try_except
    (safe_path <- _safe_path path (py ".") ;;
     ex <- os_path_exists safe_path ;;
     if negb ex then
       ret (failure (py "Path not found: " ++ format_value path))
     else
       stat <- os_stat safe_path ;;
       isd <- os_path_isdir safe_path ;;
       let info :=
         [ py "Path: " ++ format_value path;
           py "Type: " ++ (if isd then py "Directory" else py "File");
           py "Size: " ++ str_of_N (st_size stat) ++ py " bytes";
           py "Last modified: " ++ st_mtime stat ] in
       isf <- os_path_isfile safe_path ;;
       info <- (if isf then
                  try_except
                    (lines <- count_file_lines safe_path ;;
                     ret (info ++ [py "Lines: " ++ str_of_nat lines]))
                    (fun e =>
                       if decide (exn_cls e = UnicodeDecodeError)
                       then ret (info ++ [py "Type: Binary file"])
                       else raise e)
                else ret info) ;;
       ret (success (py "File Information:" ++ [LF] ++ py "---" ++ [LF]
                     ++ join [LF] info) "mcp_file_info"))
    (fun e => ret (failure (py "Error getting file info: " ++ exn_str e))).

(** [execute_mcp_tool(tool_name, arguments)]. *)
Definition execute_mcp_tool (tool_name : pystr) (arguments : pydict) : io pydict :=
  try_except
    (let operation := replace tool_name (py "mcp_") [] in
     if pystr_eqb operation (py "read_file") then
       file_path <- getitem arguments "file_path" ;;
       _read_file_direct file_path
     else if pystr_eqb operation (py "write_file") then
       file_path <- getitem arguments "file_path" ;;
       content <- getitem arguments "content" ;;
       _write_file_direct file_path content
     else if pystr_eqb operation (py "list_directory") then
       let directory_path := get_default arguments "directory_path" (JStr (py ".")) in
       _list_directory_direct directory_path
     else if pystr_eqb operation (py "search_files") then
       search_term <- getitem arguments "search_term" ;;
       let directory_path := get_default arguments "directory_path" (JStr (py ".")) in
       let file_extension := get_default arguments "file_extension" (JStr []) in
       _search_files_direct search_term directory_path file_extension
     else if pystr_eqb operation (py "file_info") then
       path <- getitem arguments "path" ;;
       _file_info_direct path
     else
       ret (failure (py "Unknown MCP operation: " ++ operation)))
    (fun e => ret (failure (py "Error executing " ++ tool_name ++ py ": "
                            ++ exn_str e))).

End WindowsMCPClient.
End WindowsMCPClient.

(* ===================================================================== *)
(** * [file_system_mcp_server.py]: class [FileSystemMCPServer] *)
(* ===================================================================== *)

Module FileSystemMCPServer.
Section FileSystemMCPServer.
Context `{Platform}.

(** The two markers of the listing as the source file spells them. *)
Definition FOLDER : pystr := [0xF0; 0x178; 0x201C].
Definition PAGE : pystr := [0xF0; 0x178; 0x201C; 0x201E].

(** The state of a server object: [self.base_directory], resolved once. *)
Record server := Server { base_directory : abspath }.

(** [__init__(base_directory)]. *)
Definition init (base : pystr) : io server :=
  b <- path_resolve (parse_path base) ;; ret (Server b).

(** A handler answers with a list of [types.TextContent(type="text", text=...)]. *)
Definition text_content (text : pystr) : list pystr := [text].

Definition ACCESS_DENIED : pystr := py "Access denied: Path outside base directory".

Variable self : server.

(** [_safe_path(path)]. *)
Definition _safe_path (path : json) : io abspath :=
  target_path <- as_path path ;;
  let target_path :=
    if negb (pp_abs target_path)
    then path_join (PyPath true (base_directory self)) target_path
    else target_path in
  resolved_path <- path_resolve target_path ;;
  if is_relative_to resolved_path (base_directory self)
  then ret resolved_path
  else raise (Exn PermissionError ACCESS_DENIED).

(** [_read_file(file_path)]. *)
Definition _read_file (file_path : json) : io (list pystr) :=
  try_except
    (safe_path <- _safe_path file_path ;;
     ex <- path_exists safe_path ;;
     if negb ex then
       ret (text_content (py "Error: File not found: " ++ format_value file_path))
     else
       isf <- path_is_file safe_path ;;
       if negb isf then
         ret (text_content (py "Error: Path is not a file: " ++ format_value file_path))
       else
         content <- read_text safe_path ;;
         ret (text_content (py "File: " ++ format_value file_path ++ [LF]
                            ++ py "---" ++ [LF] ++ content)))
    (fun e =>
       if decide (exn_cls e = UnicodeDecodeError) then
         ret (text_content
                (py "Error: Unable to read file (binary or encoding issue): "
                 ++ format_value file_path))
       else ret (text_content (py "Error reading file: " ++ exn_str e))).

(** [_write_file(file_path, content)]. *)
Definition _write_file (file_path content : json) : io (list pystr) :=
  try_except
    (safe_path <- _safe_path file_path ;;
     path_mkdir (removelast safe_path) ;;;
     write_text safe_path content ;;;
     ret (text_content (py "Successfully wrote " ++ len_value content
                        ++ py " characters to: " ++ format_value file_path)))
    (fun e => ret (text_content (py "Error writing file: " ++ exn_str e))).

(** One line of a directory listing. *)
Definition list_item (item : abspath) : io pystr :=
  isd <- path_is_dir item ;;
  let item_type := if isd then FOLDER else PAGE in
  isf <- path_is_file item ;;
  size <- (if isf
           then n <- os_path_getsize item ;;
                ret (py " (" ++ str_of_N n ++ py " bytes)")
           else ret []) ;;
  ret (item_type ++ py " " ++ List.last item [] ++ size).

(** [_list_directory(directory_path)]. *)
Definition _list_directory (directory_path : json) : io (list pystr) :=
  try_except
    (safe_path <- _safe_path directory_path ;;
     ex <- path_exists safe_path ;;
     if negb ex then
       ret (text_content (py "Error: Directory not found: "
                          ++ format_value directory_path))
     else
       isd <- path_is_dir safe_path ;;
       if negb isd then
         ret (text_content (py "Error: Path is not a directory: "
                            ++ format_value directory_path))
       else
         names <- os_listdir safe_path ;;
         items <- for_each (map (fun n => safe_path ++ [n]) (sorted names))
                    (fun item items => line <- list_item item ;;
                                       ret (items ++ [line])) [] ;;
         let content := py "Directory: " ++ format_value directory_path ++ [LF]
                        ++ py "---" ++ [LF] ++ join [LF] items in
         let content := match items with
                        | [] => content ++ py "(empty directory)"
                        | _ => content
                        end in
         ret (text_content content))
    (fun e => ret (text_content (py "Error listing directory: " ++ exn_str e))).

(** The body of the loop of [_search_files] for one path. *)
Definition search_one (safe_path : abspath) (search_term_lower : pystr)
    (file_extension : json) (file_path : abspath)
    (matches : list pystr) : io (list pystr) :=
  isf <- path_is_file file_path ;;
  if negb isf then ret matches
  else
    skip <- (if truthy file_extension
             then e <- endswith_value (List.last file_path []) file_extension ;;
                  ret (negb e)
             else ret false) ;;
    if skip then ret matches
    else
      try_except
        (content <- read_text file_path ;;
         ret (matches ++ file_block PAGE search_term_lower
                           (relpath file_path safe_path) content))
        (fun e =>
           if decide (exn_cls e = UnicodeDecodeError) then ret matches
           else if decide (exn_cls e = PermissionError) then ret matches
           else raise e).

(** [_search_files(search_term, directory_path, file_extension)]. *)
Definition _search_files (search_term directory_path file_extension : json)
  : io (list pystr) :=
  try_except
    (safe_path <- _safe_path directory_path ;;
     ex <- path_exists safe_path ;;
     isd <- (if ex then path_is_dir safe_path else ret false) ;;
     if negb ex || negb isd then
       ret (text_content (py "Error: Invalid directory: "
                          ++ format_value directory_path))
     else
       search_term_lower <- lower_of search_term ;;
       paths <- path_rglob safe_path ;;
       matches <- for_each paths
                    (search_one safe_path search_term_lower file_extension) [] ;;
       ret (text_content (search_report search_term directory_path matches)))
    (fun e => ret (text_content (py "Error searching files: " ++ exn_str e))).

(** [s[-3:]]. *)
Definition last3 (s : pystr) : pystr := drop (length s - 3) s.

(** [_file_info(path)]. *)
Definition _file_info (path : json) : io (list pystr) :=
  try_except
    (safe_path <- _safe_path path ;;
     ex <- path_exists safe_path ;;
     if negb ex then
       ret (text_content (py "Error: Path not found: " ++ format_value path))
     else
       stat <- os_stat safe_path ;;
       isd <- path_is_dir safe_path ;;
       let info :=
         [ py "Path: " ++ format_value path;
           py "Type: " ++ (if isd then py "Directory" else py "File");
           py "Size: " ++ str_of_N (st_size stat) ++ py " bytes";
           py "Last modified: " ++ st_mtime stat;
           py "Permissions: " ++ last3 (st_mode_oct stat) ] in
       isf <- path_is_file safe_path ;;
       info <- (if isf then
                  try_except
                    (lines <- count_file_lines safe_path ;;
                     ret (info ++ [py "Lines: " ++ str_of_nat lines]))
                    (fun e =>
                       if decide (exn_cls e = UnicodeDecodeError)
                       then ret (info ++ [py "Type: Binary file"])
                       else raise e)
                else ret info) ;;
       ret (text_content (py "File Information:" ++ [LF] ++ py "---" ++ [LF]
                          ++ join [LF] info)))
    (fun e => ret (text_content (py "Error getting file info: " ++ exn_str e))).

(** [handle_call_tool(name, arguments)]. *)
Definition handle_call_tool (name : pystr) (arguments : pydict) : io (list pystr) :=
  try_except
    (if pystr_eqb name (py "read_file") then
       file_path <- getitem arguments "file_path" ;;
       _read_file file_path
     else if pystr_eqb name (py "write_file") then
       file_path <- getitem arguments "file_path" ;;
       content <- getitem arguments "content" ;;
       _write_file file_path content
     else if pystr_eqb name (py "list_directory") then
       let directory_path := get_default arguments "directory_path" (JStr (py ".")) in
       _list_directory directory_path
     else if pystr_eqb name (py "search_files") then
       search_term <- getitem arguments "search_term" ;;
       let directory_path := get_default arguments "directory_path" (JStr (py ".")) in
       let file_extension := get_default arguments "file_extension" (JStr []) in
       _search_files search_term directory_path file_extension
     else if pystr_eqb name (py "file_info") then
       path <- getitem arguments "path" ;;
       _file_info path
     else
       raise (Exn ValueError (py "Unknown tool: " ++ name)))
    (fun e => ret (text_content (py "Error executing " ++ name ++ py ": "
                                 ++ exn_str e))).

End FileSystemMCPServer.
End FileSystemMCPServer.

(* ===================================================================== *)
(** * Tool catalogs *)
(* ===================================================================== *)

(** JSON-Schema fragments of the parameter descriptions. *)
Definition prop (type name description : string) (extra : list (pystr * json))
  : pystr * json :=
  (py name,
   JObj ([(py "type", JStr (py type)); (py "description", JStr (py description))]
         ++ extra)).

Definition schema (properties : list (pystr * json)) (required : option (list string))
  : json :=
  JObj ([(py "type", JStr (py "object")); (py "properties", JObj properties)]
        ++ match required with
           | Some names => [(py "required", JArr (map (fun n => JStr (py n)) names))]
           | None => []
           end).

Definition default_str (s : string) : list (pystr * json) := [(py "default", JStr (py s))].
Definition default_num (z : Z) : list (pystr * json) := [(py "default", JNum z)].

(** The five tools of the file-system server: name, description, schema
    ([handle_list_tools] of [FileSystemMCPServer]). *)
Definition filesystem_tools : list (string * string * json) :=
  [ ("read_file", "Read the contents of a file",
     schema [prop "string" "file_path" "Path to the file to read" []]
            (Some ["file_path"]));
    ("write_file", "Write content to a file (creates or overwrites)",
     schema [prop "string" "file_path" "Path to the file to write" [];
             prop "string" "content" "Content to write to the file" []]
            (Some ["file_path"; "content"]));
    ("list_directory", "List contents of a directory",
     schema [prop "string" "directory_path" "Path to the directory to list"
                  (default_str ".")]
            None);
    ("search_files", "Search for text within files in a directory",
     schema [prop "string" "search_term" "Text to search for" [];
             prop "string" "directory_path" "Directory to search in" (default_str ".");
             prop "string" "file_extension"
                  "File extension to filter by (e.g., '.py', '.txt')" (default_str "")]
            (Some ["search_term"]));
    ("file_info", "Get information about a file or directory",
     schema [prop "string" "path" "Path to the file or directory" []]
            (Some ["path"])) ]%string.

(** [handle_list_tools()] of the server. *)
Definition handle_list_tools : list tool_desc :=
  map (fun t => ToolDesc (py (fst (fst t))) (py (snd (fst t))) (snd t)) filesystem_tools.

(** [WindowsMCPClient.get_mcp_tools()]: the same five tools, the names
    prefixed with [mcp_] and the descriptions with [[MCP] ]. *)
Definition windows_get_mcp_tools : list tool_desc :=
  map (fun t => ToolDesc (py "mcp_" ++ py (fst (fst t)))
                         (py "[MCP] " ++ py (snd (fst t))) (snd t))
      filesystem_tools.

(* ===================================================================== *)
(** * [agent_tools.py]: class [AgentTools] *)
(* ===================================================================== *)

Module AgentTools.
Section AgentTools.
Context `{Platform}.

(** The state of an [AgentTools] object; [rag_source] is the external
    [VectorizeWrapper]. *)
Record t := Make { has_rag : bool }.

(** [__init__()]: [has_rag] records whether [VectorizeWrapper()] could be
    constructed. *)
Definition init : t := Make rag_configured.

Definition search_documents_tool : tool_desc :=
  ToolDesc (py "search_documents")
    (py "Search through uploaded documents to find relevant information.")
    (schema [prop "string" "query" "The search query to find relevant documents" [];
             prop "integer" "num_results" "Number of documents to retrieve"
                  (default_num 5)]
            (Some ["query"%string])).

Definition search_web_tool : tool_desc :=
  ToolDesc (py "search_web")
    (py "Search the internet for current information and news.")
    (schema [prop "string" "query" "The search query for web search" [];
             prop "integer" "max_results" "Maximum number of search results"
                  (default_num 5)]
            (Some ["query"%string])).

(** [get_available_tools()]. *)
Definition get_available_tools (self : t) : list tool_desc :=
  (if has_rag self then [search_documents_tool] else []) ++ [search_web_tool].

(** Calling a method [f(self, first, second=default)] with unpacked keyword
    arguments [kwargs]:
    the values bound to the two parameters.  A keyword that names no
    parameter, and a missing [first], raise [TypeError] before the body of
    [f] is entered. *)
Definition bind_kwargs (f first second : string) (default : json) (kwargs : pydict)
  : io (json * json) :=
  if bool_decide (map_Forall (fun k _ => k = py first \/ k = py second) kwargs) then
    match kwargs !! py first with
    | Some a => ret (a, get_default kwargs second default)
    | None => lib_raise TypeError (py f)
    end
  else lib_raise TypeError (py f).

(** [search_documents(query, num_results=5)]: without a RAG source a
    failure; otherwise the outcome of the [try] block around the
    retrieval. *)
Definition search_documents (self : t) (query num_results : json) : io pydict :=
  if negb (has_rag self) then
    ret {[ py "success" := JBool false;
           py "error" := JStr (py "RAG source not available");
           py "results" := JArr [] ]}
  else
    log <- gets w_log ;;
    ret (documents_outcome log query num_results).

(** [search_web(query, max_results=5)]: the outcome of its [try] block. *)
Definition search_web (self : t) (query max_results : json) : io pydict :=
  log <- gets w_log ;;
  ret (web_outcome log query max_results).

(** [execute_tool(tool_name, **kwargs)]. *)
Definition execute_tool (self : t) (tool_name : pystr) (kwargs : pydict) : io pydict :=
  if pystr_eqb tool_name (py "search_documents") then
    a <- bind_kwargs "search_documents" "query" "num_results" (JNum 5) kwargs ;;
    search_documents self (fst a) (snd a)
  else if pystr_eqb tool_name (py "search_web") then
    a <- bind_kwargs "search_web" "query" "max_results" (JNum 5) kwargs ;;
    search_web self (fst a) (snd a)
  else
    ret {[ py "success" := JBool false;
           py "error" := JStr (py "Unknown tool: " ++ tool_name);
           py "results" := JArr [] ]}.

End AgentTools.
End AgentTools.

(* ===================================================================== *)
(** * [mcp_client.py]: classes [MCPClient], [MCPIntegratedTools],
      [MCPToolsWrapper] *)
(* ===================================================================== *)

Module MCPClient.
Section MCPClient.
Context `{Platform}.

(** An entry of [self.available_tools]: the descriptor shown to the model
    with the keys ["mcp_server"] and ["original_name"]. *)
Record tool_info := ToolInfo {
  ti_desc : tool_desc;
  ti_server : pystr;
  ti_original_name : pystr
}.

(** The state of an [MCPClient] object: two dictionaries, in the order of
    insertion.  An entry of [self.connected_servers] stands for the handles
    (client session and process) of one server. *)
Record t := Make {
  connected_servers : list (pystr * unit);
  available_tools : list (pystr * tool_info)
}.

(** [__init__()]. *)
Definition init : t := Make [] [].

Definition failure (error : pystr) : pydict :=
  {[ py "success" := JBool false; py "error" := JStr error; py "result" := JStr [] ]}.

(** [self.available_tools[f"mcp_{tool.name}"] = {...}] for one listed tool. *)
Definition register (tools : list (pystr * tool_info)) (tool : tool_desc)
  : list (pystr * tool_info) :=
  let tool_name := py "mcp_" ++ td_name tool in
  set_entry tool_name
    (ToolInfo (ToolDesc tool_name (py "[MCP] " ++ td_description tool)
                        (td_parameters tool))
              (py "filesystem") (td_name tool))
    tools.

(** [connect_to_filesystem_server(base_directory)]: the updated object and
    whether the connection succeeded. *)
Definition connect_to_filesystem_server (self : t) (base_directory : pystr)
  : io (t * bool) :=
  try_except
    (log <- gets w_log ;;
     tools <- lift_res (remote_connect log base_directory) ;;
     ret (Make (set_entry (py "filesystem") tt (connected_servers self))
               (fold_left register tools (available_tools self)),
          true))
    (fun e =>
       emit (EvCli BuiltinPrint (py "Error connecting to filesystem MCP server: "
                          ++ exn_str e)) ;;;
       ret (self, false)).

(** [get_mcp_tools()]. *)
Definition get_mcp_tools (self : t) : list tool_desc :=
  map (fun kv => ti_desc (snd kv)) (available_tools self).

(** The text collected from the content fragments of an answer:
    [text_content += content.text + "\n"] for each fragment with a [text]. *)
Fixpoint collect_text (fragments : list (option pystr)) : pystr :=
  match fragments with
  | [] => []
  | Some text :: rest => text ++ [LF] ++ collect_text rest
  | None :: rest => collect_text rest
  end.

(** [execute_mcp_tool(tool_name, arguments)]. *)
Definition execute_mcp_tool (self : t) (tool_name : pystr) (arguments : pydict)
  : io pydict :=
  try_except
    (match assoc tool_name (available_tools self) with
     | None => ret (failure (py "Unknown MCP tool: " ++ tool_name))
     | Some tool_info =>
         let server_name := ti_server tool_info in
         let original_tool_name := ti_original_name tool_info in
         match assoc server_name (connected_servers self) with
         | None => ret (failure (py "MCP server " ++ server_name
                                 ++ py " not connected"))
         | Some _ =>
             emit (EvRemoteCall original_tool_name arguments) ;;;
             log <- gets w_log ;;
             result <- lift_res (remote_call_tool log original_tool_name arguments) ;;
             let text_content := collect_text result in
             ret {[ py "success" := JBool true;
                    py "result" := JStr (strip text_content);
                    py "tool_name" := JStr tool_name ]}
         end
     end)
    (fun e => ret (failure (py "Error executing MCP tool " ++ tool_name ++ py ": "
                            ++ exn_str e))).

(** [is_mcp_tool(tool_name)]. *)
Definition is_mcp_tool (self : t) (tool_name : pystr) : bool :=
  startswith tool_name (py "mcp_")
  && bool_decide (is_Some (assoc tool_name (available_tools self))).

(** [cleanup()]: every server process is terminated and awaited, then both
    dictionaries are cleared. *)
Definition cleanup (self : t) : io t :=
  for_each (map fst (connected_servers self))
           (fun server_name (_ : unit) => emit (EvTerminate server_name)) tt ;;;
  ret (Make [] []).

End MCPClient.
End MCPClient.

Module MCPIntegratedTools.
Section MCPIntegratedTools.
Context `{Platform}.

Record t := Make {
  regular_tools : AgentTools.t;
  mcp_client : MCPClient.t;
  mcp_connected : bool
}.

(** [__init__()]. *)
Definition init : t := Make AgentTools.init MCPClient.init false.

(** [initialize_mcp(base_directory)]. *)
Definition initialize_mcp (self : t) (base_directory : pystr) : io (t * bool) :=
  try_except
    (r <- MCPClient.connect_to_filesystem_server (mcp_client self) base_directory ;;
     ret (Make (regular_tools self) (fst r) (snd r), snd r))
    (fun e =>
       emit (EvCli BuiltinPrint (py "Failed to initialize MCP: " ++ exn_str e)) ;;;
       ret (self, false)).

(** [get_available_tools()]. *)
Definition get_available_tools (self : t) : list tool_desc :=
  AgentTools.get_available_tools (regular_tools self)
  ++ (if mcp_connected self then MCPClient.get_mcp_tools (mcp_client self) else []).

(** [execute_tool(tool_name, **kwargs)]. *)
Definition execute_tool (self : t) (tool_name : pystr) (kwargs : pydict) : io pydict :=
  if mcp_connected self && MCPClient.is_mcp_tool (mcp_client self) tool_name
  then MCPClient.execute_mcp_tool (mcp_client self) tool_name kwargs
  else AgentTools.execute_tool (regular_tools self) tool_name kwargs.

(** [cleanup()]. *)
Definition cleanup (self : t) : io t :=
  if mcp_connected self
  then c <- MCPClient.cleanup (mcp_client self) ;;
       ret (Make (regular_tools self) c (mcp_connected self))
  else ret self.

End MCPIntegratedTools.
End MCPIntegratedTools.

Module MCPToolsWrapper.
Section MCPToolsWrapper.
Context `{Platform}.

(** An [asyncio] event loop object. *)
Record event_loop := EventLoop { is_closed : bool }.

Definition EVENT_LOOP_CLOSED : exn := Exn RuntimeError (py "Event loop is closed").

(** [loop.run_until_complete(coroutine)]: a closed loop refuses with
    [RuntimeError('Event loop is closed')] before the coroutine is
    started. *)
Definition run_until_complete {A} (loop : event_loop) (coroutine : io A) : io A :=
  if is_closed loop then raise EVENT_LOOP_CLOSED else coroutine.

Record t := Make {
  mcp_tools : option MCPIntegratedTools.t;
  _loop : option event_loop
}.

(** [__init__()]. *)
Definition init : t := Make None None.

(** [initialize(base_directory)]. *)
Definition initialize (self : t) (base_directory : pystr) : io (t * bool) :=
  emit EvLoopNew ;;;
  let loop := EventLoop false in
  let tools := MCPIntegratedTools.init in
  try_except
    (r <- run_until_complete loop
            (MCPIntegratedTools.initialize_mcp tools base_directory) ;;
     ret (Make (Some (fst r)) (Some loop), snd r))
    (fun e =>
       emit (EvCli BuiltinPrint (py "Failed to initialize MCP wrapper: " ++ exn_str e)) ;;;
       ret (Make (Some tools) (Some loop), false)).

(** [get_available_tools()]. *)
Definition get_available_tools (self : t) : list tool_desc :=
  match mcp_tools self with
  | None => []
  | Some tools => MCPIntegratedTools.get_available_tools tools
  end.

(** [execute_tool(tool_name, **kwargs)]. *)
Definition execute_tool (self : t) (tool_name : pystr) (kwargs : pydict) : io pydict :=
  match mcp_tools self, _loop self with
  | Some tools, Some loop =>
      try_except
        (run_until_complete loop (MCPIntegratedTools.execute_tool tools tool_name kwargs))
        (fun e => ret {[ py "success" := JBool false;
                         py "error" := JStr (py "Error executing tool: " ++ exn_str e) ]})
  | _, _ => ret {[ py "success" := JBool false;
                   py "error" := JStr (py "MCP not initialized") ]}
  end.

(** [cleanup()]:
    [if self.mcp_tools and self._loop:
         self._loop.run_until_complete(self.mcp_tools.cleanup())
     if self._loop: self._loop.close()]. *)
Definition cleanup (self : t) : io t :=
  self <- match mcp_tools self, _loop self with
          | Some tools, Some loop =>
              tools' <- run_until_complete loop (MCPIntegratedTools.cleanup tools) ;;
              ret (Make (Some tools') (_loop self))
          | _, _ => ret self
          end ;;
  match _loop self with
  | Some loop => emit EvLoopClose ;;; ret (Make (mcp_tools self) (Some (EventLoop true)))
  | None => ret self
  end.

End MCPToolsWrapper.
End MCPToolsWrapper.

(* ===================================================================== *)
(** * [mcp_client_windows_fix.py]: classes [WindowsMCPIntegratedTools],
      [WindowsMCPToolsWrapper] *)
(* ===================================================================== *)

Module WindowsMCPIntegratedTools.
Section WindowsMCPIntegratedTools.
Context `{Platform}.

(** [mcp_client] has no state of its own and [mcp_enabled] is always
    [True]. *)
Record t := Make { regular_tools : AgentTools.t }.

Definition init : t := Make AgentTools.init.

(** [get_available_tools()]. *)
Definition get_available_tools (self : t) : list tool_desc :=
  AgentTools.get_available_tools (regular_tools self) ++ windows_get_mcp_tools.

(** [execute_tool(tool_name, **kwargs)]. *)
Definition execute_tool (self : t) (tool_name : pystr) (kwargs : pydict) : io pydict :=
  if startswith tool_name (py "mcp_")
  then WindowsMCPClient.execute_mcp_tool tool_name kwargs
  else AgentTools.execute_tool (regular_tools self) tool_name kwargs.

End WindowsMCPIntegratedTools.
End WindowsMCPIntegratedTools.

Module WindowsMCPToolsWrapper.
Section WindowsMCPToolsWrapper.
Context `{Platform}.

Record t := Make { mcp_tools : WindowsMCPIntegratedTools.t }.

Definition init : t := Make WindowsMCPIntegratedTools.init.

(** [initialize(base_directory)]: always successful. *)
Definition initialize (self : t) (base_directory : pystr) : io (t * bool) :=
  ret (self, true).

Definition get_available_tools (self : t) : list tool_desc :=
  WindowsMCPIntegratedTools.get_available_tools (mcp_tools self).

Definition execute_tool (self : t) (tool_name : pystr) (kwargs : pydict) : io pydict :=
  WindowsMCPIntegratedTools.execute_tool (mcp_tools self) tool_name kwargs.

(** [cleanup()]: [pass]. *)
Definition cleanup (self : t) : io t := ret self.

End WindowsMCPToolsWrapper.
End WindowsMCPToolsWrapper.

(* ===================================================================== *)
(** * [enhanced_function_calling_agent.py]:
      class [EnhancedFunctionCallingAgent] *)
(* ===================================================================== *)

Module Agent.
Section Agent.
Context `{Platform}.

(** [MCPToolsWrapper] is [WindowsMCPToolsWrapper] when
    [platform.system() == "Windows"] and [mcp_client.MCPToolsWrapper]
    otherwise. *)
Inductive wrapper :=
| OnWindows (tools : WindowsMCPToolsWrapper.t)
| Elsewhere (tools : MCPToolsWrapper.t).

Record t := Make {
  mcp_tools : wrapper;
  mcp_enabled : bool
}.

(** [__init__(cli)]. *)
Definition init (windows : bool) : t :=
  Make (if windows then OnWindows WindowsMCPToolsWrapper.init
        else Elsewhere MCPToolsWrapper.init)
       false.

Definition wrapper_initialize (wr : wrapper) (base_directory : pystr)
  : io (wrapper * bool) :=
  match wr with
  | OnWindows tools =>
      r <- WindowsMCPToolsWrapper.initialize tools base_directory ;;
      ret (OnWindows (fst r), snd r)
  | Elsewhere tools =>
      r <- MCPToolsWrapper.initialize tools base_directory ;;
      ret (Elsewhere (fst r), snd r)
  end.

Definition wrapper_get_available_tools (wr : wrapper) : list tool_desc :=
  match wr with
  | OnWindows tools => WindowsMCPToolsWrapper.get_available_tools tools
  | Elsewhere tools => MCPToolsWrapper.get_available_tools tools
  end.

Definition wrapper_execute_tool (wr : wrapper) (tool_name : pystr) (kwargs : pydict)
  : io pydict :=
  match wr with
  | OnWindows tools => WindowsMCPToolsWrapper.execute_tool tools tool_name kwargs
  | Elsewhere tools => MCPToolsWrapper.execute_tool tools tool_name kwargs
  end.

Definition wrapper_cleanup (wr : wrapper) : io wrapper :=
  match wr with
  | OnWindows tools => r <- WindowsMCPToolsWrapper.cleanup tools ;; ret (OnWindows r)
  | Elsewhere tools => r <- MCPToolsWrapper.cleanup tools ;; ret (Elsewhere r)
  end.

(** [get_available_tools()]. *)
Definition get_available_tools (self : t) : list tool_desc :=
  if mcp_enabled self
  then wrapper_get_available_tools (mcp_tools self)
  else AgentTools.get_available_tools AgentTools.init.

(** The [except Exception as e] clause of [initialize_mcp], entered with
    the object as the [try] block left it. *)
Definition initialize_mcp_failed (self : t) (e : exn) : io (t * bool) :=
  console PrintWarning ([0x26A0; 0xFE0F] ++ py " MCP initialization failed: "
                        ++ exn_str e
                        ++ py ". Continuing with basic tools only.") ;;;
  ret (self, false).

(** [initialize_mcp(base_directory)].  The [try] block is written in two
    parts, before and after [self.mcp_tools.initialize] has changed the
    object, and in the second part [self.mcp_enabled = True] comes first:
    what the block has assigned stays assigned when a later statement
    raises. *)
Definition initialize_mcp (self : t) (base_directory : pystr) : io (t * bool) :=
  started <-
    try_except
      (console PrintInfo ([0x1F527] ++ py " Initializing MCP File System Server...") ;;;
       r <- wrapper_initialize (mcp_tools self) base_directory ;;
       ret (inl r))
      (fun e => r <- initialize_mcp_failed self e ;; ret (inr r)) ;;
  match started with
  | inr r => ret r
  | inl r =>
      if snd r then
        let self := Make (fst r) true in
        try_except
          (console PrintSuccess ([0x2705] ++ py " MCP File System Server connected!") ;;;
           let names := List.filter (fun n => contains n (py "mcp_"))
                                    (map td_name (get_available_tools self)) in
           match names with
           | [] => ret tt
           | _ => console PrintInfo ([0x1F4C1] ++ py " Available MCP tools: "
                                     ++ join (py ", ") names)
           end ;;;
           ret (self, true))
          (initialize_mcp_failed self)
      else
        let self := Make (fst r) (mcp_enabled self) in
        try_except
          (console PrintWarning
             ([0x26A0; 0xFE0F]
              ++ py " Failed to connect to MCP server. Continuing with basic tools only.") ;;;
           ret (self, false))
          (initialize_mcp_failed self)
  end.

(** Unpacking [**function_args]: the value has to be a mapping; of a
    repeated key [json.loads] keeps the last value. *)
Definition kwargs_of (v : json) : io pydict :=
  match v with
  | JObj fields => ret (list_to_map (rev fields))
  | _ => lib_raise TypeError (py "execute_tool")
  end.

(** [execute_tool(tool_name, **kwargs)]; a keyword called [self] or
    [tool_name] collides with a parameter. *)
Definition execute_tool (self : t) (tool_name : pystr) (kwargs : pydict) : io pydict :=
  if bool_decide (is_Some (kwargs !! py "self"))
     || bool_decide (is_Some (kwargs !! py "tool_name"))
  then lib_raise TypeError (py "execute_tool")
  else if mcp_enabled self
  then wrapper_execute_tool (mcp_tools self) tool_name kwargs
  else AgentTools.execute_tool AgentTools.init tool_name kwargs.

(** The two system messages. *)
Definition SYSTEM_MESSAGE_MCP : pystr :=
  join [LF]
    [ py "You are a helpful AI assistant with access to multiple tools:";
      [];
      py "1. search_documents: Search through uploaded documents (RAG)";
      py "2. search_web: Search the internet for current information";
      py "3. mcp_read_file: Read the contents of files";
      py "4. mcp_write_file: Write content to files (creates or overwrites)";
      py "5. mcp_list_directory: List contents of directories";
      py "6. mcp_search_files: Search for text within files in directories";
      py "7. mcp_file_info: Get information about files or directories";
      [];
      py "Use tools when appropriate to provide better answers. You can read, write, and manage files to help with various tasks." ].

Definition SYSTEM_MESSAGE_BASIC : pystr :=
  join [LF]
    [ py "You are a helpful AI assistant with access to tools:";
      [];
      py "1. search_documents: Search through uploaded documents";
      py "2. search_web: Search the internet for current information";
      [];
      py "Use tools when appropriate to provide better answers." ].

Definition system_message (self : t) : pystr :=
  if mcp_enabled self then SYSTEM_MESSAGE_MCP else SYSTEM_MESSAGE_BASIC.

Definition APOLOGY : pystr := py "Sorry, I encountered an error.".

(** [completion(model=..., messages=..., ...)] and
    [response.choices[0].message]. *)
Definition call_completion (rq : request) : io (pystr * list tool_call) :=
  emit (EvCompletion rq) ;;;
  log <- gets w_log ;;
  lift_res (completion log rq).

(** [len(v)]. *)
Definition len_of (v : json) : io N :=
  match v with
  | JStr s => ret (len s)
  | JArr items => ret (N.of_nat (length items))
  | JObj fields => ret (N.of_nat (size (list_to_map (rev fields) : pydict)))
  | _ => lib_raise TypeError (py "len")
  end.

(** [_display_tool_results(tool_name, tool_result)]. *)
Definition _display_tool_results (tool_name : pystr) (tool_result : pydict) : io unit :=
  if truthy (get_default tool_result "success" JNull) then
    if startswith tool_name (py "mcp_") then
      if pystr_eqb tool_name (py "mcp_list_directory") then
        console PrintSuccess ([0x1F4C1] ++ py " Directory contents retrieved")
      else if pystr_eqb tool_name (py "mcp_read_file") then
        console PrintSuccess ([0x1F4C4] ++ py " File read successfully")
      else if pystr_eqb tool_name (py "mcp_write_file") then
        console PrintSuccess ([0x270F; 0xFE0F] ++ py " File written successfully")
      else if pystr_eqb tool_name (py "mcp_search_files") then
        console PrintSuccess ([0x1F50D] ++ py " File search completed")
      else if pystr_eqb tool_name (py "mcp_file_info") then
        console PrintSuccess ([0x2139; 0xFE0F] ++ py " File information retrieved")
      else
        console PrintSuccess ([0x1F527] ++ py " MCP tool " ++ tool_name ++ py " executed")
    else
      let results := get_default tool_result "results" (JArr []) in
      if pystr_eqb tool_name (py "search_documents") then
        n <- len_of results ;;
        console PrintSuccess ([0x1F4DA] ++ py " Found " ++ str_of_N n ++ py " documents")
      else if pystr_eqb tool_name (py "search_web") then
        n <- len_of results ;;
        console PrintSuccess ([0x1F310] ++ py " Found " ++ str_of_N n ++ py " web results")
      else ret tt
  else
    let error := get_default tool_result "error" (JStr (py "Unknown error")) in
    console PrintWarning ([0x274C] ++ py " Tool " ++ tool_name ++ py " failed: "
                          ++ format_value error).

(** The body of the loop over [tool_calls]. *)
Definition run_tool_call (self : t) (tool_call : tool_call) (messages : list message)
  : io (list message) :=
  let function_name := tc_name tool_call in
  function_args <- lift_res (json_loads (tc_arguments tool_call)) ;;
  console PrintInfo (py "Using tool: " ++ function_name) ;;;
  console LoadingAnimation (py "Executing " ++ function_name) ;;;
  kwargs <- kwargs_of function_args ;;
  emit (EvToolDispatch function_name kwargs) ;;;
  tool_result <- execute_tool self function_name kwargs ;;
  _display_tool_results function_name tool_result ;;;
  content <- lift_res (json_dumps tool_result) ;;
  ret (messages ++ [MsgTool (tc_id tool_call) function_name content]).

(** The [try] block of [chat_with_tools]. *)
Definition chat_body (self : t) (user_message : pystr) : io pystr :=
  console PrintQuestion user_message ;;;
  let messages := [MsgSystem (system_message self); MsgUser user_message] in
  console LoadingAnimation (py "Thinking") ;;;
  let available_tools := get_available_tools self in
  response_message <- call_completion (Request messages (Some available_tools)) ;;
  let tool_calls := snd response_message in
  final_answer <-
    match tool_calls with
    | _ :: _ =>
        let messages :=
          messages ++ [MsgAssistant (fst response_message) tool_calls] in
        messages <- for_each tool_calls (run_tool_call self) messages ;;
        console LoadingAnimation (py "Generating final response") ;;;
        final_response <- call_completion (Request messages None) ;;
        ret (fst final_response)
    | [] => ret (fst response_message)
    end ;;
  console PrintAnswer final_answer ;;;
  ret final_answer.

(** [chat_with_tools(user_message)]. *)
Definition chat_with_tools (self : t) (user_message : pystr) : io pystr :=
  try_except
    (chat_body self user_message)
    (fun e =>
       console PrintError (py "Error: " ++ exn_str e) ;;;
       ret APOLOGY).

(** [cleanup()]. *)
Definition cleanup (self : t) : io t :=
  if mcp_enabled self
  then wr <- wrapper_cleanup (mcp_tools self) ;; ret (Make wr (mcp_enabled self))
  else ret self.

End Agent.
End Agent.

(* ===================================================================== *)
(** * Reading the specification's words *)
(* ===================================================================== *)

(** The tool names a system prompt enumerates: the names of its numbered
    lines [<number>. <name>: <description>]. *)
Definition is_digit (c : N) : bool := (48 <=? c) && (c <=? 57).

Fixpoint drop_digits (s : pystr) : pystr :=
  match s with
  | c :: s' => if is_digit c then drop_digits s' else s
  | [] => []
  end.

Definition enumerated_name (line : pystr) : option pystr :=
  match line with
  | c :: _ =>
      if is_digit c then
        match drop_digits line with
        | 46 :: 32 :: rest =>
            match split_on 58 rest with
            | name :: _ :: _ => Some name
            | _ => None
            end
        | _ => None
        end
      else None
  | [] => None
  end.

Definition prompt_tool_names (prompt : pystr) : list pystr :=
  omap enumerated_name (split_on LF prompt).

(** A tool result has the shape the MCP entry points promise: a boolean
    ["success"]; with it false, a non-empty ["error"] string and an empty
    ["result"]; with it true, a ["result"] string. *)
Definition well_shaped (d : pydict) : Prop :=
  (d !! py "success" = Some (JBool false)
   /\ (exists error, d !! py "error" = Some (JStr error) /\ error <> [])
   /\ d !! py "result" = Some (JStr []))
  \/ (d !! py "success" = Some (JBool true)
      /\ exists result, d !! py "result" = Some (JStr result)).

(** The events that are part of the path check: resolving a path. *)
Definition is_resolve (e : event) : bool :=
  match e with
  | EvResolve _ => true
  | _ => false
  end.

(* ===================================================================== *)
(** * A concrete platform and world for the examples *)
(* ===================================================================== *)

Definition ascii_lower (c : N) : N :=
  if (65 <=? c) && (c <=? 90) then c + 32 else c.

(** ** [Path.resolve()] of Python 3.11 on a loop of links *)

(** [os.path.realpath] keeps the path it has reached as a string: relative
    while the path it was given and the targets of the links it met are
    relative, with the steps above the working directory as leading [".."].
    A [pypath] stands for that string. *)

(** One [".."]: [os.path.split] drops the last name, a leading [".."] gets
    company, and the root stays. *)
Definition spelled_up (sp : pypath) : pypath :=
  match pp_parts sp with
  | [] => if pp_abs sp then sp else PyPath false [py ".."]
  | _ :: _ =>
      if pystr_eqb (List.last (pp_parts sp) []) (py "..")
      then PyPath (pp_abs sp) (pp_parts sp ++ [py ".."])
      else PyPath (pp_abs sp) (removelast (pp_parts sp))
  end.

(** [os.path.normpath] of an absolute path: [".."] drops a name, at the root
    it drops nothing. *)
Definition normpath (parts : list pystr) : abspath :=
  fold_left (fun reached name =>
               if pystr_eqb name (py "..") then removelast reached
               else reached ++ [name])
            parts [].

(** [os.path.abspath] of the string. *)
Definition place_of (cwd : abspath) (sp : pypath) : abspath :=
  normpath ((if pp_abs sp then [] else cwd) ++ pp_parts sp).

(** How [_joinrealpath] ends: at a path, at a link that is being resolved
    (with what was left to walk joined to it), with an exception of
    [os.lstat], or with the stack used up. *)
Inductive spelled_walk :=
| Came (sp : pypath)
| Looped (raw : pypath)
| Refusal (c : exn_class) (name : pystr)
| Exhausted.

(** [posixpath._joinrealpath], not strict.  [busy] holds the links that are
    being resolved, as the strings [seen] has them under. *)
Fixpoint joinrealpath (fuel : nat) (t : node) (cwd : abspath) (busy : list pypath)
  : pypath -> list pystr -> spelled_walk :=
  match fuel with
  | O => fun _ _ => Exhausted
  | S f =>
      fix go (cur : pypath) (rest : list pystr) {struct rest} : spelled_walk :=
        match rest with
        | [] => Came cur
        | name :: rest' =>
            if pystr_eqb name (py "..") then go (spelled_up cur) rest'
            else
              let newpath := PyPath (pp_abs cur) (pp_parts cur ++ [name]) in
              match str_refused name with
              | Some c => Refusal c name
              | None =>
                  match link_at t (place_of cwd newpath) with
                  | Some target =>
                      if bool_decide (newpath ∈ busy)
                      then Looped (PyPath (pp_abs cur) (pp_parts newpath ++ rest'))
                      else
                        let tp := parse_path target in
                        match joinrealpath f t cwd (newpath :: busy)
                                (if pp_abs tp then PyPath true [] else cur)
                                (pp_parts tp) with
                        | Came cur' => go cur' rest'
                        | Looped raw =>
                            Looped (PyPath (pp_abs raw) (pp_parts raw ++ rest'))
                        | Refusal c bad => Refusal c bad
                        | Exhausted => Exhausted
                        end
                  | None => go newpath rest'
                  end
              end
        end
  end.

(** The texts of the exceptions of the interpreter, as far as the examples
    show them: [ValueError] is raised for a NUL in a path only. *)
Definition reference_text (c : exn_class) (about : pystr) : pystr :=
  match c with
  | ValueError => py "embedded null byte"
  | _ => about
  end.

(** [Path.resolve()] of Python 3.11, with the limits of Linux and a stack
    with room for 900 calls: on a loop, [os.path.realpath] returns the path
    it has put together, and [pathlib] calls [stat] on it, raises
    [RuntimeError] when that says [ELOOP], lets pass what [stat] raises for
    a path string it refuses, and ignores every other error. *)
Definition python311_resolve (root : node) (cwd : abspath) (p : pypath) : res abspath :=
  match joinrealpath 900 root cwd [] (PyPath (pp_abs p) []) (pp_parts p) with
  | Came sp => Ok (place_of cwd sp)
  | Refusal c name => Raise (Exn c (reference_text c name))
  | Exhausted => Raise (Exn RecursionError (py "maximum recursion depth exceeded"))
  | Looped raw =>
      let final := place_of cwd raw in
      match locate_with 255 4096 40 root final with
      | inl (Refused c) => Raise (Exn c (reference_text c (path_str final)))
      | inl ELOOP => Raise (Exn RuntimeError (py "Symlink loop from " ++ path_str final))
      | _ => Ok final
      end
  end.

(** A POSIX platform (Linux limits, Python 3.11, a console that prints
    everything) whose services are idle: [str.lower] on ASCII, the model
    answers without tool calls, the remote server lists the five tools of
    [FileSystemMCPServer]. *)
Definition posix_platform : Platform := {|
  crlf := false;
  str_lower := map ascii_lower;
  lib_text := reference_text;
  py_str := fun _ => py "?";
  stat_mtime := fun _ _ => py "0.0";
  stat_mode_oct := fun _ _ => py "0o100644";
  stat_dir_size := fun _ _ => 4096;
  completion := fun _ _ => Ok (py "Hello.", []);
  json_loads := fun _ => Ok (JObj []);
  json_dumps := fun _ => Ok (py "{}");
  rag_configured := true;
  documents_outcome := fun _ _ _ => ∅;
  web_outcome := fun _ _ _ => ∅;
  remote_connect := fun _ _ => Ok handle_list_tools;
  remote_call_tool := fun _ _ _ => Ok [];
  name_max := 255;
  path_max := 4096;
  link_max := 40;
  nesting_room := 900;
  resolve_gave_up := python311_resolve;
  mkdir_room := 900;
  pathlib_strict := true;
  cli_raises := fun _ _ _ => None
|}.

(** The scenario of the specification: the working directory [/sandbox],
    with a sub-directory; a file outside. *)
Definition sandbox_world : world :=
  World (Dir [ (py "sandbox", Dir [(py "sub", Dir [])]);
               (py "outside.txt", File (py "secret")) ])
        [py "sandbox"] [].

(** ** Statements about [io] computations *)

(** Every value [m] returns satisfies [P] (a raised exception is not a
    returned value). *)
Definition returns {A} (P : A -> Prop) (m : io A) : Prop :=
  forall w a w', m w = (Ok a, w') -> P a.

(** [m] returns in every world, with a value that satisfies [P]. *)
Definition total {A} (P : A -> Prop) (m : io A) : Prop :=
  forall w, exists a w', m w = (Ok a, w') /\ P a.

(** The world after [emit]ting some events. *)
Definition logged (w : world) (events : list event) : world :=
  World (w_root w) (w_cwd w) (w_log w ++ events).

Section LoopVocabulary.
Context `{Platform}.

(** The first request of a run: the system message chosen by
    [mcp_enabled], the user message, and the whole catalog. *)
Definition first_request (self : Agent.t) (user_message : pystr) : request :=
  Request [MsgSystem (Agent.system_message self); MsgUser user_message]
          (Some (Agent.get_available_tools self)).

(** The events of a run up to and including the first completion call. *)
Definition first_call_events (self : Agent.t) (user_message : pystr) : list event :=
  [ EvCli PrintQuestion user_message;
    EvCli LoadingAnimation (py "Thinking");
    EvCompletion (first_request self user_message) ].

(** The text [chat_with_tools] hands to [cli.print_error] for a caught
    exception. *)
Definition error_text (e : exn) : pystr := py "Error: " ++ exn_str e.

(** The log of a run once the question is printed, once the first loading
    animation is shown, and once the answer of a run without tool call is
    printed. *)
Definition at_question (w : world) (user_message : pystr) : list event :=
  w_log w ++ [EvCli PrintQuestion user_message].

Definition at_thinking (w : world) (user_message : pystr) : list event :=
  w_log w ++ [EvCli PrintQuestion user_message; EvCli LoadingAnimation (py "Thinking")].

Definition at_answer (self : Agent.t) (w : world) (user_message content : pystr)
  : list event :=
  w_log w ++ first_call_events self user_message ++ [EvCli PrintAnswer content].

(** An answer comes from the completion service: it is the content of a
    response the service gave. *)
Definition from_completion (answer : pystr) : Prop :=
  exists log rq tool_calls, completion log rq = Ok (answer, tool_calls).

End LoopVocabulary.

(** ** The catalog and the system prompt *)

Section CatalogVocabulary.
Context `{Platform}.

(** The [has_rag] of the [AgentTools] object the catalog of a run is
    built from: the one held by the wrapper when MCP is enabled, a fresh
    one otherwise. *)
Definition rag_available (self : Agent.t) : bool :=
  if Agent.mcp_enabled self then
    match Agent.mcp_tools self with
    | Agent.OnWindows wr =>
        AgentTools.has_rag
          (WindowsMCPIntegratedTools.regular_tools (WindowsMCPToolsWrapper.mcp_tools wr))
    | Agent.Elsewhere wr =>
        match MCPToolsWrapper.mcp_tools wr with
        | Some tools => AgentTools.has_rag (MCPIntegratedTools.regular_tools tools)
        | None => false
        end
    end
  else AgentTools.has_rag AgentTools.init.

(** With MCP enabled over the out-of-process wrapper, the wrapper is
    connected and the server it is connected to listed the five tools of
    [FileSystemMCPServer]. *)
Definition serves_filesystem_tools (self : Agent.t) : Prop :=
  Agent.mcp_enabled self = true ->
  match Agent.mcp_tools self with
  | Agent.OnWindows _ => True
  | Agent.Elsewhere wr =>
      exists tools,
        MCPToolsWrapper.mcp_tools wr = Some tools
        /\ MCPIntegratedTools.mcp_connected tools = true
        /\ MCPClient.available_tools (MCPIntegratedTools.mcp_client tools)
           = fold_left MCPClient.register handle_list_tools []
  end.

(** The out-of-process wrapper, connected to a server that listed the five
    tools of [FileSystemMCPServer]. *)
Definition connected_wrapper (wr : Agent.wrapper) : Prop :=
  exists tools loop,
    wr = Agent.Elsewhere (MCPToolsWrapper.Make (Some tools) loop)
    /\ MCPIntegratedTools.mcp_connected tools = true
    /\ MCPClient.available_tools (MCPIntegratedTools.mcp_client tools)
       = fold_left MCPClient.register handle_list_tools [].

End CatalogVocabulary.

(** The idle platform without the environment of the RAG source. *)
Definition no_rag_platform : Platform := {|
  crlf := false;
  str_lower := map ascii_lower;
  lib_text := fun _ about => about;
  py_str := fun _ => py "?";
  stat_mtime := fun _ _ => py "0.0";
  stat_mode_oct := fun _ _ => py "0o100644";
  stat_dir_size := fun _ _ => 4096;
  completion := fun _ _ => Ok (py "Hello.", []);
  json_loads := fun _ => Ok (JObj []);
  json_dumps := fun _ => Ok (py "{}");
  rag_configured := false;
  documents_outcome := fun _ _ _ => ∅;
  web_outcome := fun _ _ _ => ∅;
  remote_connect := fun _ _ => Ok handle_list_tools;
  remote_call_tool := fun _ _ _ => Ok [];
  name_max := 255;
  path_max := 4096;
  link_max := 40;
  nesting_room := 900;
  resolve_gave_up := python311_resolve;
  mkdir_room := 900;
  pathlib_strict := true;
  cli_raises := fun _ _ _ => None
|}.

(** What a console raises when it cannot encode what it is given. *)
Definition CANNOT_ENCODE : exn :=
  Exn UnicodeEncodeError (py "'ascii' codec can't encode character").

(** A console that encodes ASCII only ([PYTHONIOENCODING=ascii]): every
    method of [CLIInterface] puts a mark outside ASCII in front of its text
    (the loading animation draws with Braille patterns), so each of them
    raises. *)
Definition ascii_console (log : list event) (call : cli_call) (text : pystr)
  : option exn :=
  match call with
  | BuiltinPrint => if forallb (fun c => c <? 128) text then None else Some CANNOT_ENCODE
  | _ => Some CANNOT_ENCODE
  end.

(** The idle platform with such a console. *)
Definition ascii_console_platform : Platform := {|
  crlf := false;
  str_lower := map ascii_lower;
  lib_text := fun _ about => about;
  py_str := fun _ => py "?";
  stat_mtime := fun _ _ => py "0.0";
  stat_mode_oct := fun _ _ => py "0o100644";
  stat_dir_size := fun _ _ => 4096;
  completion := fun _ _ => Ok (py "Hello.", []);
  json_loads := fun _ => Ok (JObj []);
  json_dumps := fun _ => Ok (py "{}");
  rag_configured := true;
  documents_outcome := fun _ _ _ => ∅;
  web_outcome := fun _ _ _ => ∅;
  remote_connect := fun _ _ => Ok handle_list_tools;
  remote_call_tool := fun _ _ _ => Ok [];
  name_max := 255;
  path_max := 4096;
  link_max := 40;
  nesting_room := 900;
  resolve_gave_up := python311_resolve;
  mkdir_room := 900;
  pathlib_strict := true;
  cli_raises := ascii_console
|}.

(** A console that encodes UTF-8: it prints every string but one with a
    surrogate in it. *)
Definition SURROGATES_NOT_ALLOWED : exn :=
  Exn UnicodeEncodeError (py "'utf-8' codec can't encode character: surrogates not allowed").

Definition utf8_console (log : list event) (call : cli_call) (text : pystr)
  : option exn :=
  if forallb is_scalar text then None else Some SURROGATES_NOT_ALLOWED.

(** The idle platform with such a console and a model whose answer is the
    one surrogate U+D800 (in JSON, the escape for it between quotes). *)
Definition surrogate_answer_platform : Platform := {|
  crlf := false;
  str_lower := map ascii_lower;
  lib_text := fun _ about => about;
  py_str := fun _ => py "?";
  stat_mtime := fun _ _ => py "0.0";
  stat_mode_oct := fun _ _ => py "0o100644";
  stat_dir_size := fun _ _ => 4096;
  completion := fun _ _ => Ok ([0xD800], []);
  json_loads := fun _ => Ok (JObj []);
  json_dumps := fun _ => Ok (py "{}");
  rag_configured := true;
  documents_outcome := fun _ _ _ => ∅;
  web_outcome := fun _ _ _ => ∅;
  remote_connect := fun _ _ => Ok handle_list_tools;
  remote_call_tool := fun _ _ _ => Ok [];
  name_max := 255;
  path_max := 4096;
  link_max := 40;
  nesting_room := 900;
  resolve_gave_up := python311_resolve;
  mkdir_room := 900;
  pathlib_strict := true;
  cli_raises := utf8_console
|}.

(** ** The five file operations *)

Inductive file_operation :=
| DoRead
| DoWrite (content : json)
| DoList
| DoSearch (search_term file_extension : json)
| DoInfo.

(** The text the outermost [except Exception as e] of each operation puts in
    front of [str(e)]. *)
Definition error_label (op : file_operation) : pystr :=
  match op with
  | DoRead => py "Error reading file: "
  | DoWrite _ => py "Error writing file: "
  | DoList => py "Error listing directory: "
  | DoSearch _ _ => py "Error searching files: "
  | DoInfo => py "Error getting file info: "
  end.

Section Operations.
Context `{Platform}.

(** An operation of the in-process client on a path. *)
Definition client_op (op : file_operation) (path : json) : io pydict :=
  match op with
  | DoRead => WindowsMCPClient._read_file_direct path
  | DoWrite content => WindowsMCPClient._write_file_direct path content
  | DoList => WindowsMCPClient._list_directory_direct path
  | DoSearch search_term file_extension =>
      WindowsMCPClient._search_files_direct search_term path file_extension
  | DoInfo => WindowsMCPClient._file_info_direct path
  end.

(** An operation of the server on a path. *)
Definition server_op (self : FileSystemMCPServer.server) (op : file_operation)
    (path : json) : io (list pystr) :=
  match op with
  | DoRead => FileSystemMCPServer._read_file self path
  | DoWrite content => FileSystemMCPServer._write_file self path content
  | DoList => FileSystemMCPServer._list_directory self path
  | DoSearch search_term file_extension =>
      FileSystemMCPServer._search_files self search_term path file_extension
  | DoInfo => FileSystemMCPServer._file_info self path
  end.

(** The path the client resolves for the path string [p]: [p] itself when
    absolute, else [p] below its base directory ["."]. *)
Definition client_target (p : pystr) : pypath :=
  if pp_abs (parse_path p) then parse_path p
  else path_join (parse_path (py ".")) (parse_path p).

(** The path the server resolves for [p]. *)
Definition server_target (self : FileSystemMCPServer.server) (p : pystr) : pypath :=
  if pp_abs (parse_path p) then parse_path p
  else path_join (PyPath true (FileSystemMCPServer.base_directory self)) (parse_path p).

End Operations.

(** ** Locations in the tree *)

Section Accepted.
Context `{Platform}.

(** The interpreter and the kernel take the path: every character has an
    encoding in the file system and none is NUL, no name is longer than
    [NAME_MAX] bytes, and the whole path is shorter than [PATH_MAX]. *)
Definition accepted (p : abspath) : bool :=
  bool_decide (path_refused p = None)
  && forallb (fun name => fs_len name <=? name_max) p
  && (path_bytes p <? path_max).

End Accepted.

(** No component of [rest], followed from [cur], is [".."] or a symbolic
    link: [cur ++ rest] is what [os.path.realpath] returns for itself. *)
Fixpoint canonical_from (t : node) (cur rest : abspath) : bool :=
  match rest with
  | [] => true
  | name :: rest' =>
      negb (pystr_eqb name (py ".."))
      && match link_at t (cur ++ [name]) with None => true | Some _ => false end
      && canonical_from t (cur ++ [name]) rest'
  end.

Definition canonical (t : node) (p : abspath) : bool := canonical_from t [] p.











(** ** Search, in the words of the specification *)

(** What the search records for one matching file: its path relative to the
    search root, up to the first three matching lines with their numbers,
    and the number of further matching lines when there are more than
    three. *)
Record file_match := FileMatch {
  fm_path : pystr;
  fm_lines : list (nat * pystr);
  fm_more : option nat
}.

(** Two worlds with the same directory tree and working directory. *)
Definition same_fs (w w' : world) : Prop :=
  w_root w' = w_root w /\ w_cwd w' = w_cwd w.

Section SearchVocabulary.
Context `{Platform}.

(** [needle] occurs in [hay], letter case ignored. *)
Definition occurs_ignoring_case (needle hay : pystr) : bool :=
  contains (str_lower hay) (str_lower needle).

(** The lines of a text that contain the term, numbered from 1. *)
Definition matching_lines_of (term content : pystr) : list (nat * pystr) :=
  List.filter (fun il => occurs_ignoring_case term (snd il))
              (enumerate_from 1 (split_on LF content)).

(** The record for one file, if its content contains the term. *)
Definition find_in_file (term rel content : pystr) : option file_match :=
  if occurs_ignoring_case term content then
    let hits := matching_lines_of term content in
    Some (FileMatch rel (firstn 3 hits)
                    (if (3 <? length hits)%nat then Some (length hits - 3)%nat else None))
  else None.

(** How a record is printed. *)
Definition render_match (marker : pystr) (m : file_match) : list pystr :=
  [marker ++ py " " ++ fm_path m ++ py ":"]
  ++ map render_line (fm_lines m)
  ++ match fm_more m with
     | Some k => [py "  ... and " ++ str_of_nat k ++ py " more matches"]
     | None => []
     end
  ++ [[]].

(** The file name passes the extension filter: no filter, or the name
    ends with it. *)
Definition passes_filter (name ext : pystr) : bool :=
  pystr_eqb ext [] || endswith name ext.

(** What the search adds for one path below the search root: the printed
    record of a regular file that passes the filter, decodes as text and
    contains the term; nothing otherwise (a file that does not decode is
    skipped). *)
Definition scan_path (w : world) (marker term ext : pystr) (top file_path : abspath)
  : list pystr :=
  match stat_node w file_path with
  | inr (File bs) =>
      if passes_filter (List.last file_path []) ext then
        match utf8_decode bs with
        | Some s =>
            match find_in_file term (relpath file_path top) (newlines_in s) with
            | Some m => render_match marker m
            | None => []
            end
        | None => []
        end
      else []
  | _ => []
  end.

(** Every entry of every directory below [top], parents first
    ([top.rglob("*")]). *)
Definition entries_below (t : node) (top : abspath) : list abspath :=
  flat_map (fun d => map (fun e => fst d ++ [fst e]) (snd d)) (walk_tree t top).

(** The entries [os.walk] reports as files: those that do not lead to a
    directory. *)
Definition files_below (w : world) (t : node) (top : abspath) : list abspath :=
  flat_map (fun d => map (fun e => fst d ++ [fst e])
                         (List.filter (fun e => negb (entry_is_dir w (fst d) e)) (snd d)))
           (walk_tree t top).

(** [pathlib] answers when asked what the path leads to: [os.stat]
    succeeds, or fails in a way [Path.is_file] takes for [False]. *)
Definition askable (w : world) (p : abspath) : bool :=
  match stat_node w p with
  | inr _ => true
  | inl e => negb (pathlib_strict && negb (ignored e))
  end.

(** The path leads to a regular file. *)
Definition leads_to_file (w : world) (p : abspath) : bool :=
  match stat_node w p with
  | inr (File _) => true
  | _ => false
  end.

End SearchVocabulary.

(** The sandbox of the scenario after [notes.txt] was written, next to a file
    that is not text and a sub-directory with a second text file. *)
Definition search_world : world :=
  World (Dir [ (py "sandbox",
                Dir [ (py "notes.txt", File (py "hello"));
                      (py "blob.bin", File [0xFF; 0xFE]);
                      (py "sub", Dir [ (py "more.txt",
                                        File (py "x" ++ [LF] ++ py "Hello" ++ [LF]
                                              ++ py "hELLo" ++ [LF] ++ py "shell" ++ [LF]
                                              ++ py "hell")) ]) ]);
               (py "outside.txt", File (py "hello")) ])
        [py "sandbox"] [].

(** A platform whose model asks for [search_web] without arguments. *)
Definition bare_tool_call_platform : Platform := {|
  crlf := false;
  str_lower := map ascii_lower;
  lib_text := fun _ about => about;
  py_str := fun _ => py "?";
  stat_mtime := fun _ _ => py "0.0";
  stat_mode_oct := fun _ _ => py "0o100644";
  stat_dir_size := fun _ _ => 4096;
  completion := fun _ rq =>
    match rq_tools rq with
    | Some _ => Ok ([], [ToolCall (py "call_1") (py "search_web") (py "{}")])
    | None => Ok (py "Done.", [])
    end;
  json_loads := fun _ => Ok (JObj []);
  json_dumps := fun _ => Ok (py "{}");
  rag_configured := true;
  documents_outcome := fun _ _ _ => ∅;
  web_outcome := fun _ _ _ => ∅;
  remote_connect := fun _ _ => Ok handle_list_tools;
  remote_call_tool := fun _ _ _ => Ok [];
  name_max := 255;
  path_max := 4096;
  link_max := 40;
  nesting_room := 900;
  resolve_gave_up := python311_resolve;
  mkdir_room := 900;
  pathlib_strict := true;
  cli_raises := fun _ _ _ => None
|}.

(** The sandbox with a symbolic link [a] to itself. *)
Definition loop_world : world :=
  World (Dir [ (py "sandbox", Dir [ (py "a", Symlink (py "a"));
                                    (py "notes.txt", File (py "hello")) ]);
               (py "outside.txt", File (py "secret")) ])
        [py "sandbox"] [].

(** The sandbox with a text file and a symbolic link to nothing. *)
Definition dangling_link_world : world :=
  World (Dir [ (py "sandbox",
                Dir [ (py "notes.txt", File (py "hello"));
                      (py "gone", Symlink (py "nowhere")) ]) ])
        [py "sandbox"] [].

(* ===================================================================== *)
(** * Reasoning about [io] computations *)
(* ===================================================================== *)

Lemma returns_ret {A} (P : A -> Prop) a : P a -> returns P (ret a).
Proof. intros HP w b w' E. inversion E; subst. exact HP. Qed.

Lemma returns_raise {A} (P : A -> Prop) e : returns P (raise e).
Proof. intros w b w' E. discriminate E. Qed.

Lemma returns_bind {A B} (P : B -> Prop) (m : io A) (k : A -> io B) :
  (forall a, returns P (k a)) -> returns P (bind m k).
Proof.
  intros Hk w b w' E. unfold bind in E.
  destruct (m w) as [[a|e] w1]; [ exact (Hk a _ _ _ E) | discriminate E ].
Qed.

Lemma returns_try_except {A} (P : A -> Prop) (m : io A) h :
  returns P m -> (forall e, returns P (h e)) -> returns P (try_except m h).
Proof.
  intros Hm Hh w b w' E. unfold try_except in E.
  destruct (m w) as [[a|e] w1] eqn:Em.
  - inversion E; subst. exact (Hm _ _ _ Em).
  - exact (Hh e _ _ _ E).
Qed.

Lemma total_ret {A} (P : A -> Prop) a : P a -> total P (ret a).
Proof. intros HP w. exists a, w. split; [ reflexivity | exact HP ]. Qed.

Lemma total_try_except {A} (P : A -> Prop) (m : io A) h :
  returns P m -> (forall e, total P (h e)) -> total P (try_except m h).
Proof.
  intros Hm Hh w. unfold try_except.
  destruct (m w) as [[a|e] w1] eqn:Em.
  - exists a, w1. split; [ reflexivity | exact (Hm _ _ _ Em) ].
  - exact (Hh e w1).
Qed.

Lemma total_returns {A} (P : A -> Prop) (m : io A) : total P m -> returns P m.
Proof.
  intros Ht w a w' E. destruct (Ht w) as (b & w1 & E1 & HP).
  rewrite E in E1. inversion E1; subst. exact HP.
Qed.

(** Decompose a goal [returns P m] along the syntax of [m]. *)
Ltac returns_step :=
  lazymatch goal with
  | |- returns _ (ret _) => apply returns_ret
  | |- returns _ (raise _) => apply returns_raise
  | |- returns _ (lib_raise _ _) => apply returns_raise
  | |- returns _ (fs_raise _ _) => apply returns_raise
  | |- returns _ (bind _ _) => apply returns_bind; intros ?
  | |- returns _ (try_except _ _) => apply returns_try_except; [ | intros ? ]
  | |- returns _ (if ?b then _ else _) => destruct b
  | |- returns _ (match ?x with _ => _ end) => destruct x
  end.

(** ** The tool results of the MCP entry points *)

Lemma py_app_nonempty (c : ascii) (s : string) (t : pystr) :
  py (String c s) ++ t <> [].
Proof. discriminate. Qed.

Section Shapes.
Context `{Platform}.

Lemma failure_well_shaped error :
  error <> [] -> well_shaped (WindowsMCPClient.failure error).
Proof.
  intros Hne. left. unfold WindowsMCPClient.failure.
  split; [ | split ].
  - by simplify_map_eq.
  - exists error. split; [ by simplify_map_eq | exact Hne ].
  - by simplify_map_eq.
Qed.

Lemma success_well_shaped result tool :
  well_shaped (WindowsMCPClient.success result tool).
Proof.
  right. unfold WindowsMCPClient.success. split.
  - by simplify_map_eq.
  - exists result. by simplify_map_eq.
Qed.

End Shapes.

Section EntryPoints.
Context `{Platform}.

Local Ltac shape :=
  lazymatch goal with
  | |- well_shaped (WindowsMCPClient.success _ _) => apply success_well_shaped
  | |- well_shaped (WindowsMCPClient.failure _) =>
      apply failure_well_shaped; apply py_app_nonempty
  end.

Local Ltac handler :=
  apply total_try_except;
  [ repeat returns_step; shape
  | intros e; repeat lazymatch goal with
                     | |- total _ (if ?b then _ else _) => destruct b
                     | |- total _ (ret _) => apply total_ret; shape
                     end ].

Lemma read_file_direct_shape file_path :
  total well_shaped (WindowsMCPClient._read_file_direct file_path).
Proof. unfold WindowsMCPClient._read_file_direct. handler. Qed.

Lemma write_file_direct_shape file_path content :
  total well_shaped (WindowsMCPClient._write_file_direct file_path content).
Proof. unfold WindowsMCPClient._write_file_direct. handler. Qed.

Lemma list_directory_direct_shape directory_path :
  total well_shaped (WindowsMCPClient._list_directory_direct directory_path).
Proof. unfold WindowsMCPClient._list_directory_direct. handler. Qed.

Lemma search_files_direct_shape search_term directory_path file_extension :
  total well_shaped
    (WindowsMCPClient._search_files_direct search_term directory_path file_extension).
Proof. unfold WindowsMCPClient._search_files_direct. handler. Qed.

Lemma file_info_direct_shape path :
  total well_shaped (WindowsMCPClient._file_info_direct path).
Proof. unfold WindowsMCPClient._file_info_direct. handler. Qed.

Lemma windows_execute_mcp_tool_shape tool_name arguments :
  total well_shaped (WindowsMCPClient.execute_mcp_tool tool_name arguments).
Proof.
  unfold WindowsMCPClient.execute_mcp_tool.
  apply total_try_except.
  - cbv zeta.
    repeat lazymatch goal with
           | |- returns _ (if ?b then _ else _) => destruct b
           | |- returns _ (bind _ _) => apply returns_bind; intros ?
           end;
      lazymatch goal with
      | |- returns _ (WindowsMCPClient._read_file_direct _) =>
          apply total_returns, read_file_direct_shape
      | |- returns _ (WindowsMCPClient._write_file_direct _ _) =>
          apply total_returns, write_file_direct_shape
      | |- returns _ (WindowsMCPClient._list_directory_direct _) =>
          apply total_returns, list_directory_direct_shape
      | |- returns _ (WindowsMCPClient._search_files_direct _ _ _) =>
          apply total_returns, search_files_direct_shape
      | |- returns _ (WindowsMCPClient._file_info_direct _) =>
          apply total_returns, file_info_direct_shape
      | |- returns _ (ret _) => apply returns_ret; shape
      end.
  - intros e. apply total_ret. shape.
Qed.

Lemma mcp_failure_well_shaped error :
  error <> [] -> well_shaped (MCPClient.failure error).
Proof.
  intros Hne. left. unfold MCPClient.failure.
  split; [ | split ].
  - by simplify_map_eq.
  - exists error. split; [ by simplify_map_eq | exact Hne ].
  - by simplify_map_eq.
Qed.

Lemma posix_execute_mcp_tool_shape self tool_name arguments :
  total well_shaped (MCPClient.execute_mcp_tool self tool_name arguments).
Proof.
  unfold MCPClient.execute_mcp_tool.
  apply total_try_except.
  - repeat returns_step.
    + right. split; [ by simplify_map_eq | eexists; by simplify_map_eq ].
    + apply mcp_failure_well_shaped, py_app_nonempty.
    + apply mcp_failure_well_shaped, py_app_nonempty.
  - intros e. apply total_ret. apply mcp_failure_well_shaped, py_app_nonempty.
Qed.

End EntryPoints.

(** C10.  Every value returned by the two MCP tool-execution entry points,
    [WindowsMCPClient.execute_mcp_tool] and [MCPClient.execute_mcp_tool], on
    every branch including the exception handlers, is a dictionary with a
    boolean ["success"]; when it is false the dictionary also has a non-empty
    ["error"] string and ["result"] equal to the empty string, and when it is
    true it has a ["result"] string.  Both entry points return in every
    world, for every tool name and every argument dictionary. *)
Theorem mcp_entry_points_return_well_shaped_results `{Platform} :
  (forall tool_name arguments w,
     exists d w', WindowsMCPClient.execute_mcp_tool tool_name arguments w = (Ok d, w')
                  /\ well_shaped d)
  /\ (forall self tool_name arguments w,
        exists d w', MCPClient.execute_mcp_tool self tool_name arguments w = (Ok d, w')
                     /\ well_shaped d).
Proof.
  split.
  - intros tool_name arguments w.
    exact (windows_execute_mcp_tool_shape tool_name arguments w).
  - intros self tool_name arguments w.
    exact (posix_execute_mcp_tool_shape self tool_name arguments w).
Qed.

(* ===================================================================== *)
(** * Tool dispatch *)
(* ===================================================================== *)

Section Dispatch.
Context `{Platform}.

(** A name that is not registered gets a failed result with the error
    ["Unknown tool: <name>"], for every argument dictionary. *)
Lemma execute_tool_unknown self tool_name kwargs w :
  tool_name <> py "search_documents" -> tool_name <> py "search_web" ->
  AgentTools.execute_tool self tool_name kwargs w
  = (Ok {[ py "success" := JBool false;
           py "error" := JStr (py "Unknown tool: " ++ tool_name);
           py "results" := JArr [] ]}, w).
Proof.
  intros H1 H2. unfold AgentTools.execute_tool, pystr_eqb.
  rewrite !bool_decide_eq_false_2 by assumption. reflexivity.
Qed.

(** With a keyword for every parameter the two handlers return. *)
Lemma execute_tool_search_web_returns self query max_results w :
  exists d,
    AgentTools.execute_tool self (py "search_web")
      {[ py "query" := query; py "max_results" := max_results ]} w = (Ok d, w).
Proof.
  eexists. unfold AgentTools.execute_tool, pystr_eqb.
  rewrite bool_decide_eq_false_2 by discriminate.
  rewrite bool_decide_eq_true_2 by reflexivity.
  unfold AgentTools.bind_kwargs, bind.
  rewrite bool_decide_eq_true_2.
  - rewrite lookup_insert_eq. reflexivity.
  - intros k v Hk. apply lookup_insert_Some in Hk as [[<- _]|[_ Hk]]; [ by left | ].
    apply lookup_singleton_Some in Hk as [<- _]. by right.
Qed.

End Dispatch.

(** C3 (the code departs from the claim).  [AgentTools.execute_tool] has no
    [try] around the call of its handlers: when the model sends no arguments
    for [search_web], binding the keyword arguments raises [TypeError] and
    the exception leaves the dispatch instead of becoming a failed result.
    [WindowsMCPClient.execute_mcp_tool] and [MCPClient.execute_mcp_tool]
    wrap the same step in [try ... except Exception]. *)
Theorem agent_tools_dispatch_raises_on_missing_argument `{Platform} self w :
  AgentTools.execute_tool self (py "search_web") ∅ w
  = (Raise (Exn TypeError (lib_text TypeError (py "search_web"))), w).
Proof.
  unfold AgentTools.execute_tool, pystr_eqb.
  rewrite bool_decide_eq_false_2 by discriminate.
  rewrite bool_decide_eq_true_2 by reflexivity.
  unfold AgentTools.bind_kwargs, bind.
  rewrite bool_decide_eq_true_2 by apply map_Forall_empty.
  rewrite lookup_empty. reflexivity.
Qed.

(* ===================================================================== *)
(** * Cleanup of the tools wrapper *)
(* ===================================================================== *)

Section Cleanup.
Context `{Platform}.

Lemma for_each_emit_returns (names : list pystr) w :
  exists w', for_each names (fun n (_ : unit) => emit (EvTerminate n)) tt w = (Ok tt, w')
             /\ w_root w' = w_root w.
Proof.
  revert w. induction names as [|n names IH]; intros w.
  - exists w. split; reflexivity.
  - cbn [for_each]. unfold bind at 1. cbn.
    destruct (IH (World (w_root w) (w_cwd w) (w_log w ++ [EvTerminate n])))
      as (w' & -> & Hroot).
    exists w'. split; [ reflexivity | exact Hroot ].
Qed.

Lemma integrated_cleanup_returns tools w :
  exists tools' w', MCPIntegratedTools.cleanup tools w = (Ok tools', w').
Proof.
  unfold MCPIntegratedTools.cleanup, MCPClient.cleanup.
  destruct (MCPIntegratedTools.mcp_connected tools).
  - unfold bind.
    destruct (for_each_emit_returns
                (map fst (MCPClient.connected_servers (MCPIntegratedTools.mcp_client tools))) w)
      as (w' & -> & _).
    cbn. eauto.
  - cbn. eauto.
Qed.

(** On an object that was never initialised, [cleanup] does nothing. *)
Lemma cleanup_never_connected w :
  MCPToolsWrapper.cleanup MCPToolsWrapper.init w = (Ok MCPToolsWrapper.init, w).
Proof. reflexivity. Qed.

(** [initialize] always leaves an open event loop and a tools object. *)
Lemma initialize_sets_loop self base w :
  exists tools ok w',
    MCPToolsWrapper.initialize self base w
    = (Ok (MCPToolsWrapper.Make (Some tools) (Some (MCPToolsWrapper.EventLoop false)), ok),
       w').
Proof.
  unfold MCPToolsWrapper.initialize, MCPToolsWrapper.run_until_complete.
  cbn [MCPToolsWrapper.is_closed].
  unfold bind at 1. cbn [emit].
  unfold try_except at 1. unfold bind at 1.
  match goal with
  | |- context [MCPIntegratedTools.initialize_mcp ?t ?b ?w0] =>
      destruct (MCPIntegratedTools.initialize_mcp t b w0) as [[[t1 ok]|e] w1]
  end.
  - cbn. eauto.
  - cbn. eauto.
Qed.

(** After a first [cleanup] the loop is closed. *)
Lemma cleanup_closes_loop tools loop w :
  MCPToolsWrapper.is_closed loop = false ->
  exists tools' w',
    MCPToolsWrapper.cleanup (MCPToolsWrapper.Make (Some tools) (Some loop)) w
    = (Ok (MCPToolsWrapper.Make (Some tools') (Some (MCPToolsWrapper.EventLoop true))), w').
Proof.
  intros Hopen. unfold MCPToolsWrapper.cleanup, MCPToolsWrapper.run_until_complete.
  cbn [MCPToolsWrapper.mcp_tools MCPToolsWrapper._loop]. rewrite Hopen.
  unfold bind at 1. unfold bind at 1.
  destruct (integrated_cleanup_returns tools w) as (tools' & w' & ->).
  cbn. eauto.
Qed.

(** With the loop closed, [cleanup] raises. *)
Lemma cleanup_on_closed_loop tools w :
  MCPToolsWrapper.cleanup
    (MCPToolsWrapper.Make (Some tools) (Some (MCPToolsWrapper.EventLoop true))) w
  = (Raise MCPToolsWrapper.EVENT_LOOP_CLOSED, w).
Proof. reflexivity. Qed.

End Cleanup.

(** C9 (the code departs from the claim).  After [initialize], whatever its
    outcome, a first [cleanup] of [MCPToolsWrapper] succeeds and closes the
    event loop, but keeps [self._loop] and [self.mcp_tools]; a second
    [cleanup] therefore calls [run_until_complete] on the closed loop and
    raises [RuntimeError('Event loop is closed')]. *)
Theorem second_cleanup_raises `{Platform} base w :
  exists wr1 ok w1 wr2 w2,
    MCPToolsWrapper.initialize MCPToolsWrapper.init base w = (Ok (wr1, ok), w1)
    /\ MCPToolsWrapper.cleanup wr1 w1 = (Ok wr2, w2)
    /\ MCPToolsWrapper.cleanup wr2 w2 = (Raise MCPToolsWrapper.EVENT_LOOP_CLOSED, w2).
Proof.
  destruct (initialize_sets_loop MCPToolsWrapper.init base w) as (tools & ok & w1 & E1).
  destruct (cleanup_closes_loop tools (MCPToolsWrapper.EventLoop false) w1 eq_refl)
    as (tools' & w2 & E2).
  eexists _, ok, w1, _, w2. split; [ exact E1 | ]. split; [ exact E2 | ].
  apply cleanup_on_closed_loop.
Qed.

(* ===================================================================== *)
(** * The invocation loop *)
(* ===================================================================== *)

Lemma returns_bind_with {A B} (Q : A -> Prop) (P : B -> Prop) (m : io A) (k : A -> io B) :
  returns Q m -> (forall a, Q a -> returns P (k a)) -> returns P (bind m k).
Proof.
  intros Hm Hk w b w' E. unfold bind in E.
  destruct (m w) as [[a|e] w1] eqn:Em; [ | discriminate E ].
  exact (Hk a (Hm _ _ _ Em) _ _ _ E).
Qed.

Lemma logged_logged w es es' : logged (logged w es) es' = logged w (es ++ es').
Proof. unfold logged. cbn. by rewrite <- app_assoc. Qed.

Section Loop.
Context `{Platform}.

(** A call of the console is logged, then it returns or raises. *)
Lemma console_spec call text w :
  console call text w
  = (match cli_raises (w_log w ++ [EvCli call text]) call text with
     | Some e => Raise e
     | None => Ok tt
     end,
     logged w [EvCli call text]).
Proof.
  unfold console, bind, emit, gets, logged. cbn [w_log w_root w_cwd].
  destruct (cli_raises _ call text); reflexivity.
Qed.

Lemma call_completion_spec rq w :
  Agent.call_completion rq w
  = (completion (w_log w ++ [EvCompletion rq]) rq, logged w [EvCompletion rq]).
Proof. reflexivity. Qed.

Lemma call_completion_returns rq :
  returns (fun r => from_completion (fst r)) (Agent.call_completion rq).
Proof.
  intros w [content tool_calls] w' E. rewrite call_completion_spec in E.
  inversion E as [[E1 E2]]. exists (w_log w ++ [EvCompletion rq]), rq, tool_calls.
  exact E1.
Qed.

Lemma chat_body_returns self user_message :
  returns from_completion (Agent.chat_body self user_message).
Proof.
  unfold Agent.chat_body.
  apply returns_bind; intros _. cbv zeta.
  apply returns_bind; intros _.
  apply returns_bind_with with (Q := fun r => from_completion (fst r));
    [ apply call_completion_returns | intros response Hresponse ].
  apply returns_bind_with with (Q := from_completion).
  - destruct (snd response).
    + apply returns_ret. exact Hresponse.
    + apply returns_bind; intros messages.
      apply returns_bind; intros _.
      apply returns_bind_with with (Q := fun r => from_completion (fst r));
        [ apply call_completion_returns | intros final Hfinal ].
      apply returns_ret. exact Hfinal.
  - intros answer Hanswer. apply returns_bind; intros _.
    apply returns_ret. exact Hanswer.
Qed.

(** The run of [chat_with_tools] is the run of its [try] block; a raised
    exception goes to [cli.print_error], and the apology is returned if
    that call returns. *)
Lemma chat_with_tools_spec self user_message w :
  match Agent.chat_body self user_message w with
  | (Ok answer, w') => Agent.chat_with_tools self user_message w = (Ok answer, w')
  | (Raise e, w') =>
      Agent.chat_with_tools self user_message w
      = (match cli_raises (w_log w' ++ [EvCli PrintError (error_text e)])
                          PrintError (error_text e) with
         | Some e' => Raise e'
         | None => Ok Agent.APOLOGY
         end,
         logged w' [EvCli PrintError (error_text e)])
  end.
Proof.
  unfold Agent.chat_with_tools, try_except, error_text.
  destruct (Agent.chat_body self user_message w) as [[answer|e] w']; [ reflexivity | ].
  unfold bind. rewrite console_spec.
  destruct (cli_raises _ PrintError _); reflexivity.
Qed.

(** What [chat_with_tools] returns is the apology or the content of a
    response of the completion service; an exception of its [try] block
    is never returned as the answer. *)
Lemma returned_answer_is_apology_or_completion self user_message :
  returns (fun answer => answer = Agent.APOLOGY \/ from_completion answer)
          (Agent.chat_with_tools self user_message).
Proof.
  intros w answer w' E.
  pose proof (chat_with_tools_spec self user_message w) as Hspec.
  destruct (Agent.chat_body self user_message w) as [[answer0|e] w1] eqn:Ebody.
  - rewrite Hspec in E. inversion E; subst. right.
    exact (chat_body_returns self user_message _ _ _ Ebody).
  - rewrite Hspec in E.
    destruct (cli_raises _ PrintError _); inversion E; subst. by left.
Qed.

(** When the console takes the error text, an exception of the [try] block
    becomes the apology. *)
Lemma caught_exception_becomes_the_apology self user_message w e w1 :
  Agent.chat_body self user_message w = (Raise e, w1) ->
  cli_raises (w_log w1 ++ [EvCli PrintError (error_text e)]) PrintError (error_text e)
  = None ->
  Agent.chat_with_tools self user_message w
  = (Ok Agent.APOLOGY, logged w1 [EvCli PrintError (error_text e)]).
Proof.
  intros Ebody Hprint.
  pose proof (chat_with_tools_spec self user_message w) as Hspec.
  rewrite Ebody, Hprint in Hspec. exact Hspec.
Qed.

(** The run of the [try] block when the console refuses the question. *)
Lemma chat_body_question_refused self user_message w e :
  cli_raises (at_question w user_message) PrintQuestion user_message = Some e ->
  Agent.chat_body self user_message w
  = (Raise e, logged w [EvCli PrintQuestion user_message]).
Proof.
  intros Hq. unfold Agent.chat_body. unfold bind at 1.
  rewrite console_spec. unfold at_question in Hq. rewrite Hq. reflexivity.
Qed.

(** The run of the [try] block up to the first response, on a console
    that takes the question and the loading animation. *)
Lemma chat_body_first_call self user_message w :
  cli_raises (at_question w user_message) PrintQuestion user_message = None ->
  cli_raises (at_thinking w user_message) LoadingAnimation (py "Thinking") = None ->
  Agent.chat_body self user_message w
  = match completion (w_log w ++ first_call_events self user_message)
                     (first_request self user_message) with
    | Raise e => (Raise e, logged w (first_call_events self user_message))
    | Ok response =>
        bind
          (match snd response with
           | _ :: _ =>
               messages <- for_each (snd response) (Agent.run_tool_call self)
                             ([MsgSystem (Agent.system_message self); MsgUser user_message]
                              ++ [MsgAssistant (fst response) (snd response)]) ;;
               console LoadingAnimation (py "Generating final response") ;;;
               final_response <- Agent.call_completion (Request messages None) ;;
               ret (fst final_response)
           | [] => ret (fst response)
           end)
          (fun final_answer =>
             console PrintAnswer final_answer ;;; ret final_answer)
          (logged w (first_call_events self user_message))
    end.
Proof.
  intros Hq Ht. unfold at_question in Hq. unfold at_thinking in Ht.
  unfold Agent.chat_body. cbv zeta.
  unfold bind at 1. rewrite console_spec, Hq.
  unfold bind at 1. rewrite console_spec. cbn [logged w_log].
  rewrite <- app_assoc. cbn [app]. rewrite Ht.
  unfold bind at 1. rewrite call_completion_spec. cbn [logged w_log w_root w_cwd].
  unfold first_call_events, first_request, logged. cbn [w_root w_cwd w_log].
  rewrite <- !app_assoc. cbn [app].
  destruct (completion _ _) as [response|e]; reflexivity.
Qed.

(** The run of the [try] block when the first response carries no tool
    call. *)
Lemma chat_body_without_tool_call self user_message w content :
  cli_raises (at_question w user_message) PrintQuestion user_message = None ->
  cli_raises (at_thinking w user_message) LoadingAnimation (py "Thinking") = None ->
  completion (w_log w ++ first_call_events self user_message)
             (first_request self user_message) = Ok (content, []) ->
  Agent.chat_body self user_message w
  = (match cli_raises (at_answer self w user_message content) PrintAnswer content with
     | Some e => Raise e
     | None => Ok content
     end,
     logged w (first_call_events self user_message ++ [EvCli PrintAnswer content])).
Proof.
  intros Hq Ht Hfirst. rewrite (chat_body_first_call _ _ _ Hq Ht), Hfirst.
  cbn [snd fst]. unfold bind at 1. cbn [ret]. unfold bind at 1.
  rewrite console_spec, logged_logged. unfold at_answer.
  cbn [logged w_log]. rewrite <- app_assoc.
  destruct (cli_raises _ PrintAnswer content); reflexivity.
Qed.

End Loop.

(** C2 (the code departs from the claim).  The [except Exception] clause of
    [chat_with_tools] hands the text of the caught exception to
    [cli.print_error] before it returns the apology, and nothing guards that
    call: when it raises, its exception leaves [chat_with_tools] and no
    answer is returned.  So it is on every console that raised in the [try]
    block for what it was given to print, the question first of all. *)
Theorem print_error_failure_leaves_chat_with_tools `{Platform} self user_message w
    e w1 e' :
  Agent.chat_body self user_message w = (Raise e, w1) ->
  cli_raises (w_log w1 ++ [EvCli PrintError (error_text e)]) PrintError (error_text e)
  = Some e' ->
  Agent.chat_with_tools self user_message w
  = (Raise e', logged w1 [EvCli PrintError (error_text e)]).
Proof.
  intros Ebody Hprint.
  pose proof (chat_with_tools_spec self user_message w) as Hspec.
  rewrite Ebody, Hprint in Hspec. exact Hspec.
Qed.

(** An instance: on a console that encodes ASCII only, printing the question
    raises [UnicodeEncodeError] in the [try] block, printing the error text
    raises it again, and [chat_with_tools] ends with that exception for
    every message. *)
Lemma print_error_failure_leaves_chat_with_tools_witness :
  @Agent.chat_with_tools ascii_console_platform (@Agent.init ascii_console_platform false)
     (py "hi") sandbox_world
  = (Raise CANNOT_ENCODE,
     logged sandbox_world
       [EvCli PrintQuestion (py "hi");
        EvCli PrintError (py "Error: 'ascii' codec can't encode character")]).
Proof.
  exact (@print_error_failure_leaves_chat_with_tools ascii_console_platform
           (@Agent.init ascii_console_platform false) (py "hi") sandbox_world
           CANNOT_ENCODE (logged sandbox_world [EvCli PrintQuestion (py "hi")])
           CANNOT_ENCODE eq_refl eq_refl).
Defined.

(** On that console no message gets an answer. *)
Lemma ascii_console_never_answers self user_message w :
  @Agent.chat_with_tools ascii_console_platform self user_message w
  = (Raise CANNOT_ENCODE,
     logged w [EvCli PrintQuestion user_message;
               EvCli PrintError (py "Error: 'ascii' codec can't encode character")]).
Proof.
  pose proof (@chat_with_tools_spec ascii_console_platform self user_message w) as Hspec.
  rewrite (@chat_body_question_refused ascii_console_platform self user_message w
             CANNOT_ENCODE eq_refl) in Hspec.
  rewrite Hspec, logged_logged. reflexivity.
Qed.

(** C4, as the code has it.  When the console takes the question and the
    loading animation and the first completion response carries no tool
    call, the run consists of the question, the loading animation, that one
    completion call and the printing of the answer, followed by the printing
    of an error text if printing the answer raised: no tool is dispatched, no
    second completion call is made, and the directory tree is untouched.
    The content of the first response is the answer returned when printing
    it returns. *)
Theorem no_tool_call_short_circuit `{Platform} self user_message w content :
  cli_raises (at_question w user_message) PrintQuestion user_message = None ->
  cli_raises (at_thinking w user_message) LoadingAnimation (py "Thinking") = None ->
  completion (w_log w ++ first_call_events self user_message)
             (first_request self user_message) = Ok (content, []) ->
  (exists outcome w' tail,
     Agent.chat_with_tools self user_message w = (outcome, w')
     /\ w_root w' = w_root w
     /\ w_log w' = at_answer self w user_message content ++ tail
     /\ (tail = [] \/ exists e, tail = [EvCli PrintError (error_text e)]))
  /\ (cli_raises (at_answer self w user_message content) PrintAnswer content = None ->
      Agent.chat_with_tools self user_message w
      = (Ok content,
         logged w (first_call_events self user_message ++ [EvCli PrintAnswer content]))).
Proof.
  intros Hq Ht Hfirst.
  pose proof (chat_with_tools_spec self user_message w) as Hspec.
  rewrite (chat_body_without_tool_call _ _ _ _ Hq Ht Hfirst) in Hspec.
  split.
  - destruct (cli_raises (at_answer self w user_message content) PrintAnswer content)
      as [e|] eqn:Hanswer.
    + eexists _, _, [EvCli PrintError (error_text e)].
      split; [ exact Hspec | ]. split; [ reflexivity | ]. split.
      * reflexivity.
      * right. by exists e.
    + eexists _, _, []. split; [ exact Hspec | ]. split; [ reflexivity | ]. split.
      * unfold at_answer. cbn [logged w_log]. by rewrite app_nil_r.
      * by left.
  - intros Hanswer. rewrite Hanswer in Hspec. exact Hspec.
Qed.

(** An instance: on the idle platform the model answers ["Hello."] without
    calling a tool. *)
Lemma no_tool_call_short_circuit_witness :
  @Agent.chat_with_tools posix_platform (@Agent.init posix_platform false)
     (py "hi") sandbox_world
  = (Ok (py "Hello."),
     logged sandbox_world
       (@first_call_events posix_platform (@Agent.init posix_platform false) (py "hi")
        ++ [EvCli PrintAnswer (py "Hello.")])).
Proof.
  exact (proj2 (@no_tool_call_short_circuit posix_platform (@Agent.init posix_platform false)
                  (py "hi") sandbox_world (py "Hello.") eq_refl eq_refl eq_refl)
               eq_refl).
Defined.

(** C4 as stated fails: the first response carries no tool call and its
    content is the one surrogate U+D800; the console, which encodes UTF-8,
    raises on it in [cli.print_answer], inside the [try] block, and the
    answer returned is the apology, not the content. *)
Lemma unprintable_answer_is_replaced_by_the_apology :
  @completion surrogate_answer_platform
     (w_log sandbox_world
      ++ @first_call_events surrogate_answer_platform
           (@Agent.init surrogate_answer_platform false) (py "hi"))
     (@first_request surrogate_answer_platform
        (@Agent.init surrogate_answer_platform false) (py "hi"))
  = Ok ([0xD800], [])
  /\ @Agent.chat_with_tools surrogate_answer_platform
       (@Agent.init surrogate_answer_platform false) (py "hi") sandbox_world
     = (Ok (py "Sorry, I encountered an error."),
        logged sandbox_world
          (@first_call_events surrogate_answer_platform
             (@Agent.init surrogate_answer_platform false) (py "hi")
           ++ [EvCli PrintAnswer [0xD800];
               EvCli PrintError
                 (py "Error: 'utf-8' codec can't encode character: surrogates not allowed")]))
  /\ py "Sorry, I encountered an error." <> [0xD800].
Proof.
  split; [ reflexivity | ]. split; [ vm_compute; reflexivity | discriminate ].
Qed.

(* ===================================================================== *)
(** * The system prompt and the catalog *)
(* ===================================================================== *)

Section Catalog.
Context `{Platform}.

Lemma prompt_names_mcp :
  prompt_tool_names Agent.SYSTEM_MESSAGE_MCP
  = [ py "search_documents"; py "search_web"; py "mcp_read_file"; py "mcp_write_file";
      py "mcp_list_directory"; py "mcp_search_files"; py "mcp_file_info" ].
Proof. vm_compute. reflexivity. Qed.

Lemma prompt_names_basic :
  prompt_tool_names Agent.SYSTEM_MESSAGE_BASIC = [ py "search_documents"; py "search_web" ].
Proof. vm_compute. reflexivity. Qed.

Lemma windows_mcp_names :
  map td_name windows_get_mcp_tools
  = [ py "mcp_read_file"; py "mcp_write_file"; py "mcp_list_directory";
      py "mcp_search_files"; py "mcp_file_info" ].
Proof. vm_compute. reflexivity. Qed.

(** Registering the tools the server lists yields the descriptors of the
    in-process client, in the same order. *)
Lemma registered_filesystem_tools :
  map (fun kv => MCPClient.ti_desc (snd kv))
      (fold_left MCPClient.register handle_list_tools [])
  = windows_get_mcp_tools.
Proof. vm_compute. reflexivity. Qed.

Lemma agent_tools_names tools :
  map td_name (AgentTools.get_available_tools tools)
  = (if AgentTools.has_rag tools then [py "search_documents"] else [])
    ++ [py "search_web"].
Proof. unfold AgentTools.get_available_tools. by destruct (AgentTools.has_rag tools). Qed.

Lemma wrapper_initialize_connects base :
  (forall log, remote_connect log base = Ok handle_list_tools) ->
  returns (fun r => snd r = true /\ connected_wrapper (fst r))
          (Agent.wrapper_initialize (Agent.Elsewhere MCPToolsWrapper.init) base).
Proof.
  intros Hremote w r w' E.
  unfold Agent.wrapper_initialize,
    MCPToolsWrapper.initialize, MCPToolsWrapper.run_until_complete,
    MCPIntegratedTools.initialize_mcp, MCPClient.connect_to_filesystem_server,
    try_except, bind, lift_res, gets, emit, ret in E.
  cbn in E. rewrite Hremote in E. cbn in E. inversion E; subst; clear E.
  split; [ reflexivity | ]. eexists _, _. split; [ reflexivity | ].
  split; reflexivity.
Qed.

Lemma connected_wrapper_serves wr enabled :
  connected_wrapper wr -> serves_filesystem_tools (Agent.Make wr enabled).
Proof.
  intros (tools & loop & -> & Hconnected & Htools) _. cbn.
  exists tools. split; [ reflexivity | ]. split; assumption.
Qed.

(** The state [initialize_mcp] leaves behind when the server of this
    repository answers the handshake, whatever the console does. *)
Lemma initialize_mcp_serves_filesystem_tools base :
  (forall log, remote_connect log base = Ok handle_list_tools) ->
  returns (fun r => serves_filesystem_tools (fst r)
                    /\ (snd r = true -> Agent.mcp_enabled (fst r) = true))
          (Agent.initialize_mcp (Agent.init false) base).
Proof.
  intros Hremote. unfold Agent.initialize_mcp.
  assert (forall self e,
            serves_filesystem_tools self ->
            returns (fun r => serves_filesystem_tools (fst r)
                              /\ (snd r = true -> Agent.mcp_enabled (fst r) = true))
                    (Agent.initialize_mcp_failed self e)) as Hfailed.
  { intros self e Hself. unfold Agent.initialize_mcp_failed.
    apply returns_bind; intros _. apply returns_ret. cbn. split; [ exact Hself | done ]. }
  apply returns_bind_with
    with (Q := fun started =>
                 match started with
                 | inl r => snd r = true /\ connected_wrapper (fst r)
                 | inr r => serves_filesystem_tools (fst r)
                            /\ (snd r = true -> Agent.mcp_enabled (fst r) = true)
                 end).
  - apply returns_try_except.
    + apply returns_bind; intros _.
      apply returns_bind_with
        with (Q := fun r => snd r = true /\ connected_wrapper (fst r)).
      * exact (wrapper_initialize_connects base Hremote).
      * intros r Hr. apply returns_ret. exact Hr.
    + intros e.
      apply returns_bind_with
        with (Q := fun r => serves_filesystem_tools (fst r)
                            /\ (snd r = true -> Agent.mcp_enabled (fst r) = true)).
      * apply Hfailed. intros Henabled. discriminate Henabled.
      * intros r Hr. apply returns_ret. exact Hr.
  - intros [r|r] Hstarted; [ | apply returns_ret; exact Hstarted ].
    destruct Hstarted as [Hok Hconnected]. rewrite Hok.
    apply returns_try_except.
    + apply returns_bind; intros _. apply returns_bind; intros _.
      apply returns_ret. cbn. split; [ | done ].
      exact (connected_wrapper_serves _ _ Hconnected).
    + intros e. apply Hfailed. exact (connected_wrapper_serves _ _ Hconnected).
Qed.

(** On a console that takes everything the connection is reported. *)
Lemma initialize_mcp_connects base :
  (forall log, remote_connect log base = Ok handle_list_tools) ->
  (forall log call text, cli_raises log call text = None) ->
  returns (fun r => snd r = true /\ Agent.mcp_enabled (fst r) = true)
          (Agent.initialize_mcp (Agent.init false) base).
Proof.
  intros Hremote Hquiet w r w' E.
  unfold Agent.initialize_mcp in E. unfold bind at 1 in E. unfold try_except at 1 in E.
  unfold bind at 1 in E. rewrite console_spec, Hquiet in E. unfold bind at 1 in E.
  destruct (Agent.wrapper_initialize _ base _) as [[r0|e0] w0] eqn:Ewr.
  - pose proof (wrapper_initialize_connects base Hremote _ _ _ Ewr) as [Hok _].
    cbn [ret] in E. rewrite Hok in E.
    unfold try_except, bind in E. rewrite console_spec, Hquiet in E.
    destruct (List.filter _ _) in E.
    + cbn in E. inversion E; subst. split; reflexivity.
    + rewrite console_spec, Hquiet in E. cbn in E. inversion E; subst.
      split; reflexivity.
  - unfold Agent.initialize_mcp_failed, bind in E.
    rewrite console_spec, Hquiet in E. cbn in E.
    exfalso. clear E.
    unfold Agent.wrapper_initialize, Agent.init, Agent.mcp_tools,
      MCPToolsWrapper.initialize, MCPToolsWrapper.run_until_complete,
      MCPIntegratedTools.initialize_mcp, MCPClient.connect_to_filesystem_server,
      try_except, bind, lift_res, gets, emit, ret in Ewr.
    cbn in Ewr. rewrite Hremote in Ewr. cbn in Ewr. discriminate Ewr.
Qed.

End Catalog.

(** C5, as the code has it.  The system prompt is one of two fixed texts,
    chosen by [mcp_enabled]; it is not derived from the catalog.  With MCP
    disabled, or enabled over the in-process wrapper, or enabled over the
    out-of-process wrapper connected to the file-system server of this
    repository, the names the prompt enumerates are the names of the catalog
    of that moment, in the same order, when the RAG source is available; when
    it is not, the prompt enumerates [search_documents] in addition.  So every
    name of the catalog appears in the prompt. *)
Theorem system_prompt_names_the_catalog `{Platform} (self : Agent.t) :
  serves_filesystem_tools self ->
  prompt_tool_names (Agent.system_message self)
  = (if rag_available self then [] else [py "search_documents"])
    ++ map td_name (Agent.get_available_tools self).
Proof.
  intros Hserves.
  unfold Agent.system_message, Agent.get_available_tools, rag_available,
    serves_filesystem_tools in *.
  destruct (Agent.mcp_enabled self).
  - rewrite prompt_names_mcp. specialize (Hserves eq_refl).
    destruct (Agent.mcp_tools self) as [wr|wr]; cbn [Agent.wrapper_get_available_tools].
    + unfold WindowsMCPToolsWrapper.get_available_tools,
        WindowsMCPIntegratedTools.get_available_tools.
      rewrite map_app, agent_tools_names, windows_mcp_names.
      by destruct (AgentTools.has_rag _).
    + destruct Hserves as (tools & Etools & Econnected & Eavailable).
      unfold MCPToolsWrapper.get_available_tools. rewrite Etools.
      unfold MCPIntegratedTools.get_available_tools, MCPClient.get_mcp_tools.
      rewrite Econnected, Eavailable, registered_filesystem_tools.
      rewrite map_app, agent_tools_names, windows_mcp_names.
      by destruct (AgentTools.has_rag _).
  - rewrite prompt_names_basic, agent_tools_names.
    by destruct (AgentTools.has_rag _).
Qed.

(** An instance: the agent on Windows after [initialize_mcp], RAG source
    available. *)
Lemma system_prompt_names_the_catalog_witness :
  prompt_tool_names
    (Agent.system_message
       (Agent.Make (Agent.OnWindows (@WindowsMCPToolsWrapper.init posix_platform)) true))
  = map td_name
      (@Agent.get_available_tools posix_platform
         (Agent.Make (Agent.OnWindows (@WindowsMCPToolsWrapper.init posix_platform)) true)).
Proof.
  apply (@system_prompt_names_the_catalog posix_platform
           (Agent.Make (Agent.OnWindows (@WindowsMCPToolsWrapper.init posix_platform)) true)).
  intros _. exact I.
Defined.

(** C5 as stated fails: without the RAG source (and without MCP) the catalog
    offers [search_web] only, while the system prompt also names
    [search_documents]. *)
Lemma system_prompt_names_absent_tool :
  let self := @Agent.init no_rag_platform false in
  ~ (forall name,
       In name (prompt_tool_names (Agent.system_message self))
       <-> In name (map td_name (@Agent.get_available_tools no_rag_platform self))).
Proof.
  intros self Hsame.
  assert (In (py "search_documents")
             (map td_name (@Agent.get_available_tools no_rag_platform self))) as Hin.
  { apply (proj1 (Hsame (py "search_documents"))). vm_compute. left. reflexivity. }
  vm_compute in Hin. destruct Hin as [Hin|[]]. discriminate Hin.
Qed.

(* ===================================================================== *)
(** * The sandbox *)
(* ===================================================================== *)

Section Sandbox.
Context `{Platform}.

Lemma resolve_outcome_logged w events p :
  resolve_outcome (logged w events) p = resolve_outcome w p.
Proof. reflexivity. Qed.

Lemma path_resolve_spec p w :
  path_resolve p w = (resolve_outcome w p, logged w [EvResolve p]).
Proof.
  unfold path_resolve, bind, emit, gets, lift_res.
  change (resolve_outcome (World (w_root w) (w_cwd w) (w_log w ++ [EvResolve p])) p)
    with (resolve_outcome w p).
  destruct (resolve_outcome w p); reflexivity.
Qed.

(** The base directory of the client is the working directory of the
    process: every handler leaves [base_directory] at its default ["."],
    which resolves to [os.getcwd()]. *)
Lemma resolve_dot w : resolve_outcome w (parse_path (py ".")) = Ok (w_cwd w).
Proof. reflexivity. Qed.

Lemma client_target_spec p :
  (if negb (pp_abs (parse_path p))
   then path_join (parse_path (py ".")) (parse_path p)
   else parse_path p) = client_target p.
Proof. unfold client_target. destruct (pp_abs (parse_path p)); reflexivity. Qed.

Lemma server_target_spec self p :
  (if negb (pp_abs (parse_path p))
   then path_join (PyPath true (FileSystemMCPServer.base_directory self)) (parse_path p)
   else parse_path p) = server_target self p.
Proof. unfold server_target. destruct (pp_abs (parse_path p)); reflexivity. Qed.

(** The path check of the client, as far as the two resolutions go. *)
Lemma client_safe_path_spec p w :
  WindowsMCPClient._safe_path (JStr p) (py ".") w
  = match resolve_outcome w (client_target p) with
    | Ok target =>
        (if is_relative_to target (w_cwd w) then Ok target
         else Raise (Exn PermissionError WindowsMCPClient.ACCESS_DENIED),
         logged w [EvResolve (client_target p); EvResolve (parse_path (py "."))])
    | Raise e => (Raise e, logged w [EvResolve (client_target p)])
    end.
Proof.
  unfold WindowsMCPClient._safe_path, as_path. unfold bind at 1. cbn [ret].
  rewrite client_target_spec.
  unfold bind at 1. rewrite path_resolve_spec.
  destruct (resolve_outcome w (client_target p)) as [target|e]; [ | reflexivity ].
  unfold bind at 1. rewrite path_resolve_spec, resolve_outcome_logged, resolve_dot.
  rewrite logged_logged. cbn [w_cwd logged app].
  destruct (is_relative_to target (w_cwd w)); reflexivity.
Qed.

(** The path check of the server. *)
Lemma server_safe_path_spec self p w :
  FileSystemMCPServer._safe_path self (JStr p) w
  = (match resolve_outcome w (server_target self p) with
     | Ok target =>
         if is_relative_to target (FileSystemMCPServer.base_directory self)
         then Ok target
         else Raise (Exn PermissionError FileSystemMCPServer.ACCESS_DENIED)
     | Raise e => Raise e
     end,
     logged w [EvResolve (server_target self p)]).
Proof.
  unfold FileSystemMCPServer._safe_path, as_path. unfold bind at 1. cbn [ret].
  rewrite server_target_spec.
  unfold bind at 1. rewrite path_resolve_spec.
  destruct (resolve_outcome w (server_target self p)) as [target|e]; [ | reflexivity ].
  destruct (is_relative_to target _); reflexivity.
Qed.



(** A handler whose first step raises ends in its outermost [except]
    clause. *)
Lemma try_except_first_raises {A B} (m : io A) (k : A -> io B) h e w w' :
  m w = (Raise e, w') ->
  try_except (bind m k) h w = h e w'.
Proof. intros E. unfold try_except, bind. rewrite E. reflexivity. Qed.

(** An exception of the path check that is no [UnicodeDecodeError] ends
    every operation with its text behind the label of the operation. *)
Lemma client_op_check_raises op p w e w' :
  WindowsMCPClient._safe_path (JStr p) (py ".") w = (Raise e, w') ->
  exn_cls e <> UnicodeDecodeError ->
  client_op op (JStr p) w
  = (Ok (WindowsMCPClient.failure (error_label op ++ exn_str e)), w').
Proof.
  intros Hcheck Hcls.
  destruct op; cbn [client_op error_label];
    [ unfold WindowsMCPClient._read_file_direct
    | unfold WindowsMCPClient._write_file_direct
    | unfold WindowsMCPClient._list_directory_direct
    | unfold WindowsMCPClient._search_files_direct
    | unfold WindowsMCPClient._file_info_direct ];
    rewrite (try_except_first_raises _ _ _ _ _ _ Hcheck);
    try reflexivity.
  destruct (decide (exn_cls e = UnicodeDecodeError)); [ contradiction | reflexivity ].
Qed.


(** A path that [Path.resolve()] refuses gets the text of that refusal; as
    with a denial, the resolution is all that happens. *)
Lemma unresolved_path_is_refused_before_io op p w e :
  resolve_outcome w (client_target p) = Raise e ->
  exn_cls e <> UnicodeDecodeError ->
  client_op op (JStr p) w
  = (Ok (WindowsMCPClient.failure (error_label op ++ exn_str e)),
     logged w [EvResolve (client_target p)]).
Proof.
  intros Htarget Hcls. apply client_op_check_raises; [ | exact Hcls ].
  by rewrite client_safe_path_spec, Htarget.
Qed.

End Sandbox.



(** The same path behind a loop of links: [a] is a link to itself, and
    [Path.resolve()] answers [/outside.txt] for [a/../../outside.txt]; the
    read is denied. *)
Lemma escape_behind_a_link_loop_is_denied :
  @resolve_outcome posix_platform loop_world
     (@client_target (py "a/../../outside.txt")) = Ok [py "outside.txt"]
  /\ @client_op posix_platform DoRead (JStr (py "a/../../outside.txt")) loop_world
     = (Ok (WindowsMCPClient.failure
              (py "Error reading file: Access denied: Path outside base directory")),
        logged loop_world
          [EvResolve (PyPath false [py "a"; py ".."; py ".."; py "outside.txt"]);
           EvResolve (PyPath false [])]).
Proof. split; vm_compute; reflexivity. Qed.

(** A path with a NUL in its last name is refused by [os.lstat] while it is
    resolved: the failure carries the text of that [ValueError], and nothing
    but the resolution has happened. *)
Lemma path_with_nul_is_refused :
  @client_op posix_platform DoRead (JStr (py "../outside.txt" ++ [0])) sandbox_world
  = (Ok (WindowsMCPClient.failure (py "Error reading file: embedded null byte")),
     logged sandbox_world
       [EvResolve (PyPath false [py ".."; py "outside.txt" ++ [0]])]).
Proof. vm_compute. reflexivity. Qed.

(* ===================================================================== *)
(** * Text files: UTF-8 and newlines *)
(* ===================================================================== *)

Section Codec.
Local Open Scope N_scope.

(** A number as its last six bits and the rest; the facts are handed to
    [lia] with quotient and remainder abstracted. *)
Lemma split64 (c : N) : c = 64 * (c / 64) + c mod 64 /\ c mod 64 < 64.
Proof. split; [ apply N.div_mod' | apply N.mod_lt; discriminate ]. Qed.

Local Ltac digits c :=
  let Hc := fresh "Hc" in let Hr := fresh "Hr" in
  destruct (split64 c) as [Hc Hr];
  let q := fresh "q" in let r := fresh "r" in
  set (q := c / 64) in *; set (r := c mod 64) in *; clearbody q r.

Local Ltac bools :=
  unfold is_scalar, is_surrogate, is_cont in *;
  repeat match goal with
         | H : _ && _ = true |- _ => apply andb_true_iff in H; destruct H
         | H : negb _ = true |- _ => apply negb_true_iff in H
         | H : _ && _ = false |- _ => apply andb_false_iff in H
         | H : (_ <=? _) = true |- _ => apply N.leb_le in H
         | H : (_ <=? _) = false |- _ => apply N.leb_gt in H
         | H : (_ <? _) = true |- _ => apply N.ltb_lt in H
         | H : (_ <? _) = false |- _ => apply N.ltb_ge in H
         end.

Local Ltac decide_test :=
  match goal with
  | |- context [?a <? ?b] =>
      first [ rewrite (proj2 (N.ltb_lt a b)) by lia
            | rewrite (proj2 (N.ltb_ge a b)) by lia ]
  | |- context [?a <=? ?b] =>
      first [ rewrite (proj2 (N.leb_le a b)) by lia
            | rewrite (proj2 (N.leb_gt a b)) by lia ]
  end.

(** Decoding reads back one encoded scalar value. *)
Lemma utf8_decode_encode_cp c bs :
  is_scalar c = true ->
  utf8_decode (utf8_encode_cp c ++ bs) = cons c <$> utf8_decode bs.
Proof.
  intros Hc. unfold utf8_encode_cp.
  destruct (c <? 0x80) eqn:E1; [ | destruct (c <? 0x800) eqn:E2;
                                   [ | destruct (c <? 0x10000) eqn:E3 ] ];
    bools.
  - cbn [app utf8_decode]. rewrite (proj2 (N.ltb_lt c 0x80)) by lia. reflexivity.
  - cbn [app utf8_decode]. unfold is_cont. digits c.
    repeat decide_test. cbn [andb].
    replace ((192 + q - 192) * 64 + (128 + r - 128)) with c by lia. reflexivity.
  - cbn [app utf8_decode]. unfold is_cont, is_surrogate.
    replace (c / 4096) with (c / 64 / 64) by (rewrite N.Div0.div_div; reflexivity).
    digits c. digits q.
    replace ((224 + q0 - 224) * 4096 + (128 + r0 - 128) * 64 + (128 + r - 128))
      with c by lia.
    repeat decide_test. cbn [andb negb].
    destruct H0 as [H0|H0]; bools.
    + rewrite (proj2 (N.leb_gt 0xD800 c)) by lia. reflexivity.
    + rewrite (proj2 (N.leb_gt c 0xDFFF)) by lia. rewrite andb_false_r. reflexivity.
  - cbn [app utf8_decode]. unfold is_cont.
    replace (c / 262144) with (c / 64 / 64 / 64)
      by (rewrite !N.Div0.div_div; reflexivity).
    replace (c / 4096) with (c / 64 / 64) by (rewrite N.Div0.div_div; reflexivity).
    digits c. digits q. digits q0.
    replace ((240 + q1 - 240) * 262144 + (128 + r1 - 128) * 4096
             + (128 + r0 - 128) * 64 + (128 + r - 128)) with c by lia.
    repeat decide_test. cbn [andb]. reflexivity.
Qed.

(** Decoding what was encoded gives the string back. *)
Lemma utf8_decode_encode s bs :
  utf8_encode s = Some bs -> utf8_decode bs = Some s.
Proof.
  revert bs. induction s as [|c s IH]; intros bs E; cbn [utf8_encode] in E.
  - inversion E. reflexivity.
  - destruct (is_scalar c) eqn:Hc; [ | discriminate E ].
    destruct (utf8_encode s) as [bs'|]; [ | discriminate E ].
    inversion E; subst. rewrite utf8_decode_encode_cp by exact Hc.
    rewrite (IH bs' eq_refl). reflexivity.
Qed.



(** Without a carriage return in it, a text survives being written and
    read in text mode, whatever the line separator. *)
Lemma newlines_in_out crlf s :
  forallb (fun c => negb (c =? CR)) s = true ->
  newlines_in (newlines_out crlf s) = s.
Proof.
  induction s as [|c s IH]; intros Hs; cbn [newlines_out forallb] in *; [ done | ].
  apply andb_true_iff in Hs as [Hc Hs]. apply negb_true_iff in Hc.
  destruct (c =? LF) eqn:Elf; cbn [andb].
  - apply N.eqb_eq in Elf. subst c. destruct crlf.
    + cbn. rewrite IH by exact Hs. reflexivity.
    + cbn. rewrite IH by exact Hs. reflexivity.
  - cbn [newlines_in]. rewrite Hc, IH by exact Hs. reflexivity.
Qed.

(** The bytes of a text without carriage returns decode to the text. *)
Lemma read_back_text crlf s bs :
  utf8_encode (newlines_out crlf s) = Some bs ->
  forallb (fun c => negb (c =? CR)) s = true ->
  newlines_in <$> utf8_decode bs = Some s.
Proof.
  intros E Hs. rewrite (utf8_decode_encode _ _ E). cbn.
  rewrite newlines_in_out by exact Hs. reflexivity.
Qed.

End Codec.

(* ===================================================================== *)
(** * The directory tree *)
(* ===================================================================== *)

Section Tree.

Lemma pystr_eqb_refl x : pystr_eqb x x = true.
Proof. unfold pystr_eqb. by rewrite bool_decide_eq_true_2. Qed.


Lemma pystr_eqb_neq x y : pystr_eqb x y = false -> x <> y.
Proof. unfold pystr_eqb. intros E. by apply bool_decide_eq_false_1 in E. Qed.






Lemma link_at_nil t :
  link_at t [] = match t with Symlink target => Some target | _ => None end.
Proof. unfold link_at. cbn. destruct t; reflexivity. Qed.




Lemma find_node_app t a b :
  find_node t (a ++ b)
  = match find_node t a with
    | inr n => find_node n b
    | inl e => inl e
    end.
Proof.
  revert t. induction a as [|x a IH]; intros t; [ reflexivity | ].
  cbn [app find_node]. destruct t as [d|es|target]; try reflexivity.
  destruct (assoc x es) as [c|]; [ apply IH | reflexivity ].
Qed.

















End Tree.

(* ===================================================================== *)
(** * Path resolution *)
(* ===================================================================== *)

Section Resolution.

Lemma realpath_from_nil f t cur : realpath_from (S f) t cur [] = Reached cur.
Proof. reflexivity. Qed.

Lemma realpath_from_cons f t cur name rest :
  realpath_from (S f) t cur (name :: rest)
  = if pystr_eqb name (py "..") then realpath_from (S f) t (removelast cur) rest
    else match str_refused name with
         | Some c => Raised c name
         | None =>
             match link_at t (cur ++ [name]) with
             | Some target =>
                 match realpath_from f t
                         (if pp_abs (parse_path target) then [] else cur)
                         (pp_parts (parse_path target)) with
                 | Reached cur' => realpath_from (S f) t cur' rest
                 | GaveUp => GaveUp
                 | Raised c bad => Raised c bad
                 end
             | None => realpath_from (S f) t (cur ++ [name]) rest
             end
         end.
Proof. reflexivity. Qed.



Lemma canonical_from_app t cur a b :
  canonical_from t cur (a ++ b)
  = canonical_from t cur a && canonical_from t (cur ++ a) b.
Proof.
  revert cur. induction a as [|x a IH]; intros cur.
  - cbn. by rewrite app_nil_r.
  - cbn [app canonical_from]. rewrite IH, <- app_assoc, <- !andb_assoc. reflexivity.
Qed.

Lemma canonical_snoc t cur name :
  canonical t cur = true ->
  pystr_eqb name (py "..") = false ->
  link_at t (cur ++ [name]) = None ->
  canonical t (cur ++ [name]) = true.
Proof.
  unfold canonical. intros Hcur Hname Hlink.
  rewrite canonical_from_app, Hcur. cbn. by rewrite Hname, Hlink.
Qed.

Lemma canonical_removelast t cur :
  canonical t cur = true -> canonical t (removelast cur) = true.
Proof.
  unfold canonical. intros Hcur.
  destruct (decide (cur = [])) as [->|Hne]; [ reflexivity | ].
  rewrite (app_removelast_last [] Hne), canonical_from_app in Hcur.
  by apply andb_true_iff in Hcur as [Hcur _].
Qed.


(** A canonical path whose names [os.lstat] takes resolves to itself. *)
Lemma realpath_canonical_from f t cur rest :
  canonical_from t cur rest = true ->
  Forall (fun name => str_refused name = None) rest ->
  realpath_from (S f) t cur rest = Reached (cur ++ rest).
Proof.
  revert cur. induction rest as [|name rest IH]; intros cur Hcan Hnames.
  - by rewrite realpath_from_nil, app_nil_r.
  - cbn [canonical_from] in Hcan.
    apply andb_true_iff in Hcan as [Hcan Hrest].
    apply andb_true_iff in Hcan as [Hname Hlink].
    apply negb_true_iff in Hname.
    apply Forall_cons in Hnames as [Hhead Hnames].
    rewrite realpath_from_cons, Hname, Hhead.
    destruct (link_at t (cur ++ [name])); [ discriminate Hlink | ].
    rewrite (IH _ Hrest Hnames), <- app_assoc. reflexivity.
Qed.

(** What resolution reaches is canonical. *)
Lemma realpath_from_canonical t :
  forall fuel cur rest r,
    canonical t cur = true ->
    realpath_from fuel t cur rest = Reached r ->
    canonical t r = true.
Proof.
  induction fuel as [|f IHf]; [ discriminate | ].
  intros cur rest. revert cur. induction rest as [|name rest IH]; intros cur r Hcur E.
  - rewrite realpath_from_nil in E. by inversion E; subst.
  - rewrite realpath_from_cons in E.
    destruct (pystr_eqb name (py "..")) eqn:Hname.
    { exact (IH _ _ (canonical_removelast _ _ Hcur) E). }
    destruct (str_refused name); [ discriminate E | ].
    destruct (link_at t (cur ++ [name])) as [target|] eqn:Hlink.
    + destruct (realpath_from f t _ _) as [cur'| |] eqn:Etarget; try discriminate E.
      refine (IH cur' r _ E).
      refine (IHf _ _ _ _ Etarget).
      destruct (pp_abs (parse_path target)); [ reflexivity | exact Hcur ].
    + exact (IH _ _ (canonical_snoc _ _ _ Hcur Hname Hlink) E).
Qed.

End Resolution.

Section FileNames.







End FileNames.

Section Kernel.
Context `{Platform}.

Lemma realpath_logged w events p : realpath (logged w events) p = realpath w p.
Proof. reflexivity. Qed.

(** The path a resolution reaches is canonical, provided the working
    directory is. *)
Lemma realpath_is_canonical w p rp :
  canonical (w_root w) (w_cwd w) = true ->
  realpath w p = Reached rp ->
  canonical (w_root w) rp = true.
Proof.
  intros Hcwd E. unfold realpath in E.
  refine (realpath_from_canonical _ _ _ _ _ _ E).
  destruct (pp_abs p); [ reflexivity | exact Hcwd ].
Qed.

Lemma realpath_abs_is_canonical w p rp :
  pp_abs p = true ->
  realpath w p = Reached rp ->
  canonical (w_root w) rp = true.
Proof.
  intros Habs E. unfold realpath in E. rewrite Habs in E.
  exact (realpath_from_canonical (w_root w) _ [] _ rp eq_refl E).
Qed.


(** What [Path.resolve()] answers when the walk reaches a path. *)
Lemma resolve_outcome_reached w p rp :
  realpath w p = Reached rp -> resolve_outcome w p = Ok rp.
Proof. intros E. unfold resolve_outcome. by rewrite E. Qed.

(** ** Accepted paths *)

Lemma accepted_spec p :
  accepted p = true ->
  path_refused p = None
  /\ Forall (fun name => fs_len name <= name_max) p
  /\ path_bytes p < path_max.
Proof.
  unfold accepted. intros Hp.
  apply andb_true_iff in Hp as [Hp Hbytes]. apply andb_true_iff in Hp as [Hrefused Hnames].
  apply bool_decide_eq_true_1 in Hrefused. apply N.ltb_lt in Hbytes.
  split; [ exact Hrefused | ]. split; [ | exact Hbytes ].
  clear Hrefused Hbytes. induction p as [|name p IH]; [ constructor | ].
  cbn [forallb] in Hnames. apply andb_true_iff in Hnames as [Hname Hnames].
  constructor; [ by apply N.leb_le | exact (IH Hnames) ].
Qed.



(** ** The walk of the kernel along a canonical path *)

Lemma locate_from_nil f t cur : locate_from name_max (S f) t cur [] = inr cur.
Proof. reflexivity. Qed.

Lemma locate_from_cons f t cur name rest :
  locate_from name_max (S f) t cur (name :: rest)
  = match find_node t cur with
    | inr (Dir _) =>
        if pystr_eqb name (py "..") then locate_from name_max (S f) t (removelast cur) rest
        else if name_max <? fs_len name then inl ENAMETOOLONG
        else match link_at t (cur ++ [name]) with
             | Some target =>
                 if pystr_eqb target [] then inl ENOENT
                 else locate_from name_max f t (if pp_abs (parse_path target) then [] else cur)
                                  (pp_parts (parse_path target) ++ rest)
             | None => locate_from name_max (S f) t (cur ++ [name]) rest
             end
    | inr _ => inl ENOTDIR
    | inl e => inl e
    end.
Proof. reflexivity. Qed.

(** Along a canonical path the kernel finds what [find_node] finds. *)
Lemma locate_from_canonical f t cur rest :
  canonical_from t cur rest = true ->
  Forall (fun name => fs_len name <= name_max) rest ->
  match locate_from name_max (S f) t cur rest with
  | inr place => find_node t place
  | inl e => inl e
  end = find_node t (cur ++ rest).
Proof.
  revert cur. induction rest as [|name rest IH]; intros cur Hcan Hnames.
  - by rewrite locate_from_nil, app_nil_r.
  - cbn [canonical_from] in Hcan.
    apply andb_true_iff in Hcan as [Hcan Hrest].
    apply andb_true_iff in Hcan as [Hname Hlink].
    apply negb_true_iff in Hname.
    apply Forall_cons in Hnames as [Hhead Hnames].
    rewrite locate_from_cons, find_node_app.
    destruct (find_node t cur) as [e|[d|es|target]] eqn:Hcur; try reflexivity.
    rewrite Hname. apply N.ltb_ge in Hhead. rewrite Hhead.
    destruct (link_at t (cur ++ [name])); [ discriminate Hlink | ].
    rewrite (IH _ Hrest Hnames), <- app_assoc, find_node_app, Hcur. reflexivity.
Qed.


(** On an accepted canonical path, following links finds what is
    there. *)
Lemma stat_node_canonical w p :
  canonical (w_root w) p = true ->
  accepted p = true ->
  stat_node w p = find_node (w_root w) p.
Proof.
  intros Hcan Hp. apply accepted_spec in Hp as (Hrefused & Hnames & Hbytes).
  unfold stat_node, locate, locate_with. rewrite Hrefused.
  apply N.leb_gt in Hbytes. rewrite Hbytes.
  exact (locate_from_canonical link_max (w_root w) [] p Hcan Hnames).
Qed.


Lemma stat_node_logged w events p : stat_node (logged w events) p = stat_node w p.
Proof. reflexivity. Qed.

End Kernel.

(* ===================================================================== *)
(** * Writing and reading a file *)
(* ===================================================================== *)

Section WriteRead.
Context `{Platform}.



(** ** Making directories *)



Lemma path_test_now_spec test p w n :
  canonical (w_root w) p = true -> accepted p = true ->
  find_node (w_root w) p = inr n ->
  path_test_now test p w = (Ok (test n), w).
Proof.
  intros Hcan Hp Hfind. unfold path_test_now, bind, gets.
  by rewrite stat_node_canonical, Hfind.
Qed.











(** ** Writing *)



(** ** Reading *)

Lemma os_path_exists_spec p w :
  canonical (w_root w) p = true -> accepted p = true ->
  os_path_exists p w
  = (Ok (match find_node (w_root w) p with inr _ => true | inl _ => false end),
     logged w [EvFs OpExists p]).
Proof.
  intros Hcan Hp. unfold os_path_exists, bind, emit, gets, logged.
  change (stat_node (World (w_root w) (w_cwd w) (w_log w ++ [EvFs OpExists p])) p)
    with (stat_node w p).
  by rewrite stat_node_canonical.
Qed.


Lemma path_exists_found p w n :
  canonical (w_root w) p = true -> accepted p = true ->
  find_node (w_root w) p = inr n ->
  path_exists p w = (Ok true, logged w [EvFs OpExists p]).
Proof.
  intros Hcan Hp Hfind. unfold path_exists. unfold bind at 1. cbn [emit].
  exact (path_test_now_spec (fun _ => true) p (logged w [EvFs OpExists p]) n
           Hcan Hp Hfind).
Qed.


Lemma path_is_dir_found p w n :
  canonical (w_root w) p = true -> accepted p = true ->
  find_node (w_root w) p = inr n ->
  path_is_dir p w = (Ok (is_dir_node n), logged w [EvFs OpIsDir p]).
Proof.
  intros Hcan Hp Hfind. unfold path_is_dir. unfold bind at 1. cbn [emit].
  exact (path_test_now_spec is_dir_node p (logged w [EvFs OpIsDir p]) n
           Hcan Hp Hfind).
Qed.




(** The path check of the client, when the path reached stays inside. *)
Lemma client_safe_path_allowed p w target :
  realpath w (client_target p) = Reached target ->
  is_relative_to target (w_cwd w) = true ->
  WindowsMCPClient._safe_path (JStr p) (py ".") w
  = (Ok target,
     logged w [EvResolve (client_target p); EvResolve (parse_path (py "."))]).
Proof.
  intros Htarget Hinside.
  by rewrite client_safe_path_spec, (resolve_outcome_reached _ _ _ Htarget), Hinside.
Qed.

(** The path check of the server, when the path reached stays inside. *)
Lemma server_safe_path_allowed self p w target :
  realpath w (server_target self p) = Reached target ->
  is_relative_to target (FileSystemMCPServer.base_directory self) = true ->
  FileSystemMCPServer._safe_path self (JStr p) w
  = (Ok target, logged w [EvResolve (server_target self p)]).
Proof.
  intros Htarget Hinside.
  by rewrite server_safe_path_spec, (resolve_outcome_reached _ _ _ Htarget), Hinside.
Qed.

Lemma server_target_abs self p : pp_abs (server_target self p) = true.
Proof.
  unfold server_target. destruct (pp_abs (parse_path p)) eqn:E; [ exact E | ].
  unfold path_join. rewrite E. reflexivity.
Qed.

End WriteRead.

Section Handlers.
Context `{Platform}.





End Handlers.




(** Nor does every write inside the sandbox succeed: [sub] is a directory. *)
Lemma write_to_a_directory_fails :
  exists error w',
    @client_op posix_platform (DoWrite (JStr (py "hello"))) (JStr (py "sub")) sandbox_world
    = (Ok (WindowsMCPClient.failure (py "Error writing file: " ++ error)), w').
Proof. eexists _, _. vm_compute. reflexivity. Qed.

(** Nor does the operating system take every name: one of 256 bytes is
    longer than [NAME_MAX]; the parent directory is there, opening the file
    fails, and the tree stays as it was. *)
Lemma write_to_an_overlong_name_fails :
  exists error w',
    @client_op posix_platform (DoWrite (JStr (py "hello"))) (JStr (repeat 97 256))
      sandbox_world
    = (Ok (WindowsMCPClient.failure (py "Error writing file: " ++ error)), w')
    /\ w_root w' = w_root sandbox_world.
Proof. eexists _, _. split; [ vm_compute; reflexivity | reflexivity ]. Qed.

(** A name with a NUL in it is refused while the path is resolved: nothing
    is made or opened. *)
Lemma write_to_a_name_with_nul_fails :
  @client_op posix_platform (DoWrite (JStr (py "hello"))) (JStr (py "notes" ++ [0]))
    sandbox_world
  = (Ok (WindowsMCPClient.failure (py "Error writing file: embedded null byte")),
     logged sandbox_world [EvResolve (PyPath false [py "notes" ++ [0]])]).
Proof. vm_compute. reflexivity. Qed.




(** Nor does the round trip hold at every safe path: [sub] lies inside the
    sandbox, but it is a directory; the write fails, and so does the read. *)
Lemma round_trip_fails_on_a_directory :
  exists error w1 w2,
    @client_op posix_platform (DoWrite (JStr (py "hello"))) (JStr (py "sub")) sandbox_world
    = (Ok (WindowsMCPClient.failure (py "Error writing file: " ++ error)), w1)
    /\ @client_op posix_platform DoRead (JStr (py "sub")) w1
       = (Ok (WindowsMCPClient.failure (py "Path is not a file: " ++ py "sub")), w2).
Proof.
  eexists _, _, _. split; [ vm_compute; reflexivity | vm_compute; reflexivity ].
Qed.

(** And a string with an unpaired surrogate cannot be written at all; the
    file is left empty. *)
Lemma surrogate_is_not_written :
  exists error w1,
    @client_op posix_platform (DoWrite (JStr [0xD800])) (JStr (py "notes.txt"))
      sandbox_world
    = (Ok (WindowsMCPClient.failure (py "Error writing file: " ++ error)), w1)
    /\ find_node (w_root w1) [py "sandbox"; py "notes.txt"] = inr (File []).
Proof.
  eexists _, _. split; [ vm_compute; reflexivity | reflexivity ].
Qed.

(* ===================================================================== *)
(** * Search *)
(* ===================================================================== *)

Section SearchFiles.
Context `{Platform}.

(** The block the handlers append is the printed record of the
    specification. *)
Lemma file_block_spec marker term rel content :
  file_block marker (str_lower term) rel content
  = match find_in_file term rel content with
    | Some m => render_match marker m
    | None => []
    end.
Proof.
  unfold file_block, find_in_file, occurs_ignoring_case.
  destruct (contains (str_lower content) (str_lower term)); [ | reflexivity ].
  unfold render_match, matching_lines_of, matching_numbered, occurs_ignoring_case.
  cbn [fm_path fm_lines fm_more].
  rewrite length_map, firstn_map.
  destruct (3 <? length _)%nat; reflexivity.
Qed.

(** At most three lines are recorded, and they are matching lines. *)
Lemma find_in_file_lines term rel content m :
  find_in_file term rel content = Some m ->
  fm_path m = rel
  /\ (length (fm_lines m) <= 3)%nat
  /\ fm_lines m = firstn 3 (matching_lines_of term content)
  /\ (forall k, fm_more m = Some k <->
                (3 < length (matching_lines_of term content)
                 /\ k = length (matching_lines_of term content) - 3)%nat).
Proof.
  unfold find_in_file. destruct (occurs_ignoring_case term content); [ | discriminate ].
  intros E. inversion E; subst; clear E. cbn [fm_path fm_lines fm_more].
  split; [ reflexivity | ]. split; [ rewrite length_firstn; lia | ].
  split; [ reflexivity | ].
  intros k. destruct (3 <? length _)%nat eqn:E3.
  - apply Nat.ltb_lt in E3. split.
    + intros Ek. inversion Ek; subst. split; [ exact E3 | reflexivity ].
    + intros [_ ->]. reflexivity.
  - apply Nat.ltb_ge in E3. split; [ discriminate | lia ].
Qed.

Lemma enumerate_from_lookup {A} (xs : list A) start i x :
  In (i, x) (enumerate_from start xs)
  <-> (start <= i)%nat /\ xs !! (i - start)%nat = Some x.
Proof.
  revert start. induction xs as [|y xs IH]; intros start; cbn [enumerate_from In].
  - split; [ intros [] | intros [_ E]; discriminate E ].
  - rewrite IH. split.
    + intros [E|[Hle Hx]].
      * inversion E; subst. split; [ lia | ]. by rewrite Nat.sub_diag.
      * split; [ lia | ]. replace (i - start)%nat with (S (i - S start)) by lia.
        exact Hx.
    + intros [Hle Hx]. destruct (decide (i = start)) as [->|Hne].
      * left. rewrite Nat.sub_diag in Hx. cbn in Hx. by inversion Hx.
      * right. split; [ lia | ].
        replace (i - start)%nat with (S (i - S start)) in Hx by lia. exact Hx.
Qed.

(** The recorded line numbers are the positions, counted from 1, of the
    lines that contain the term with letter case ignored. *)
Lemma matching_lines_of_spec term content i line :
  In (i, line) (matching_lines_of term content)
  <-> (1 <= i)%nat
      /\ split_on LF content !! (i - 1)%nat = Some line
      /\ occurs_ignoring_case term line = true.
Proof.
  unfold matching_lines_of. rewrite filter_In, enumerate_from_lookup. cbn [snd].
  tauto.
Qed.

Lemma stat_node_same_fs w w' p : same_fs w w' -> stat_node w' p = stat_node w p.
Proof.
  intros [Hroot Hcwd]. unfold stat_node, locate. by rewrite Hroot.
Qed.

Lemma scan_path_same_fs w w' marker term ext top fp :
  same_fs w w' -> scan_path w' marker term ext top fp = scan_path w marker term ext top fp.
Proof. intros Hsame. unfold scan_path. by rewrite (stat_node_same_fs w w'). Qed.

Lemma same_fs_refl w : same_fs w w.
Proof. split; reflexivity. Qed.

Lemma same_fs_logged w w' events : same_fs w w' -> same_fs w (logged w' events).
Proof. intros Hsame. exact Hsame. Qed.

Lemma same_fs_trans w1 w2 w3 : same_fs w1 w2 -> same_fs w2 w3 -> same_fs w1 w3.
Proof. intros [H1 H2] [H3 H4]. split; congruence. Qed.

Lemma os_path_isfile_general p w :
  os_path_isfile p w = (Ok (leads_to_file w p), logged w [EvFs OpIsFile p]).
Proof. reflexivity. Qed.

Lemma read_text_general p w :
  read_text p w
  = (match stat_node w p with
     | inr (File d) =>
         match utf8_decode d with
         | Some s => Ok (newlines_in s)
         | None => Raise (Exn UnicodeDecodeError (lib_text UnicodeDecodeError (path_str p)))
         end
     | inr (Dir _) => Raise (Exn IsADirectoryError
                                 (lib_text IsADirectoryError (path_str p)))
     | inr (Symlink _) => Raise (Exn OSError (lib_text OSError (path_str p)))
     | inl e => Raise (Exn (fs_err_class e) (lib_text (fs_err_class e) (path_str p)))
     end,
     logged w [EvFs OpOpenRead p]).
Proof.
  unfold read_text, bind, emit, gets, logged.
  change (stat_node (World (w_root w) (w_cwd w) (w_log w ++ [EvFs OpOpenRead p])) p)
    with (stat_node w p).
  destruct (stat_node w p) as [e|[d|es|target]]; try reflexivity.
  destruct (utf8_decode d); reflexivity.
Qed.

(** The [try] block of the loop body: a file that decodes adds its block, a
    file that does not is skipped without an error. *)
Lemma scan_try marker term top fp acc w bs :
  stat_node w fp = inr (File bs) ->
  try_except
    (content <- read_text fp ;;
     ret (acc ++ file_block marker (str_lower term) (relpath fp top) content))
    (fun e =>
       if decide (exn_cls e = UnicodeDecodeError) then ret acc
       else if decide (exn_cls e = PermissionError) then ret acc
       else raise e) w
  = (Ok (acc ++ match utf8_decode bs with
                | Some s =>
                    match find_in_file term (relpath fp top) (newlines_in s) with
                    | Some m => render_match marker m
                    | None => []
                    end
                | None => []
                end),
     logged w [EvFs OpOpenRead fp]).
Proof.
  intros Hstat. unfold try_except, bind. rewrite read_text_general, Hstat.
  destruct (utf8_decode bs) as [s|].
  - unfold ret. by rewrite file_block_spec.
  - cbn [exn_cls]. destruct (decide _) as [_|Hne]; [ | done ].
    unfold ret. by rewrite app_nil_r.
Qed.

Lemma askable_same_fs w w' p : same_fs w w' -> askable w' p = askable w p.
Proof. intros Hsame. unfold askable. by rewrite (stat_node_same_fs w w'). Qed.

Lemma path_is_file_general p w :
  askable w p = true ->
  path_is_file p w = (Ok (leads_to_file w p), logged w [EvFs OpIsFile p]).
Proof.
  unfold askable, leads_to_file. intros Hask.
  unfold path_is_file, path_test_now, bind, emit, gets, logged.
  change (stat_node (World (w_root w) (w_cwd w) (w_log w ++ [EvFs OpIsFile p])) p)
    with (stat_node w p).
  destruct (stat_node w p) as [e|[d|es|target]]; try reflexivity.
  apply negb_true_iff in Hask. rewrite Hask. reflexivity.
Qed.

(** A loop whose body appends, for each element, what [scan] says. *)
Lemma for_each_scan {A} (body : A -> list pystr -> io (list pystr))
    (scan : world -> A -> list pystr) (good : world -> A -> Prop) :
  (forall x acc w, good w x ->
     exists w', body x acc w = (Ok (acc ++ scan w x), w') /\ same_fs w w') ->
  (forall w w' x, same_fs w w' -> scan w' x = scan w x) ->
  (forall w w' x, same_fs w w' -> good w x -> good w' x) ->
  forall xs acc w,
    Forall (good w) xs ->
    exists w', for_each xs body acc w = (Ok (acc ++ flat_map (scan w) xs), w')
               /\ same_fs w w'.
Proof.
  intros Hbody Hscan Hgood. induction xs as [|x xs IH]; intros acc w Hall.
  - exists w. cbn. rewrite app_nil_r. split; [ reflexivity | apply same_fs_refl ].
  - apply Forall_cons in Hall as [Hx Hall].
    cbn [for_each flat_map]. unfold bind at 1.
    destruct (Hbody x acc w Hx) as (w1 & -> & Hsame1).
    destruct (IH (acc ++ scan w x) w1) as (w2 & -> & Hsame2).
    { eapply Forall_impl; [ exact Hall | ]. intros y. apply Hgood. exact Hsame1. }
    exists w2. split; [ | exact (same_fs_trans _ _ _ Hsame1 Hsame2) ].
    rewrite <- app_assoc.
    rewrite (flat_map_ext (scan w1) (scan w)); [ reflexivity | ].
    intros y. apply Hscan. exact Hsame1.
Qed.

(** The loop body of the server's search, for a path [pathlib] answers
    for. *)
Lemma server_search_one top term ext fp acc w :
  askable w fp = true ->
  exists w',
    FileSystemMCPServer.search_one top (str_lower term) (JStr ext) fp acc w
    = (Ok (acc ++ scan_path w FileSystemMCPServer.PAGE term ext top fp), w')
    /\ same_fs w w'.
Proof.
  intros Hask.
  unfold FileSystemMCPServer.search_one, scan_path.
  unfold bind at 1. rewrite (path_is_file_general fp w Hask). unfold leads_to_file.
  destruct (stat_node w fp) as [e|[bs|es|target]] eqn:Hstat; cbn [negb];
    try (eexists; split; [ unfold ret; rewrite app_nil_r; reflexivity
                         | split; reflexivity ]).
  unfold passes_filter. cbn [truthy].
  destruct (pystr_eqb ext []) eqn:Eext; cbn [negb orb].
  - unfold bind at 1. cbn [ret].
    erewrite scan_try by exact Hstat.
    eexists. split; [ reflexivity | split; reflexivity ].
  - unfold bind at 1. unfold endswith_value. unfold bind at 1. cbn [ret].
    destruct (endswith (List.last fp []) ext); cbn [negb].
    + erewrite scan_try by exact Hstat.
      eexists. split; [ reflexivity | split; reflexivity ].
    + eexists. split; [ unfold ret; rewrite app_nil_r; reflexivity
                      | split; reflexivity ].
Qed.

(** The server's loop over all paths. *)
Lemma server_search_loop top term ext paths acc w :
  Forall (fun p => askable w p = true) paths ->
  exists w',
    for_each paths (FileSystemMCPServer.search_one top (str_lower term) (JStr ext)) acc w
    = (Ok (acc ++ flat_map (scan_path w FileSystemMCPServer.PAGE term ext top) paths), w')
    /\ same_fs w w'.
Proof.
  apply (for_each_scan
           (FileSystemMCPServer.search_one top (str_lower term) (JStr ext))
           (fun w0 p => scan_path w0 FileSystemMCPServer.PAGE term ext top p)
           (fun w0 p => askable w0 p = true)).
  - intros p acc0 w0 Hask. apply server_search_one. exact Hask.
  - intros w1 w2 p Hsame. apply scan_path_same_fs. exact Hsame.
  - intros w1 w2 p Hsame Hask. by rewrite (askable_same_fs w1 w2).
Qed.

End SearchFiles.

Section SearchLoops.
Context `{Platform}.

Lemma leads_to_file_same_fs w w' p :
  same_fs w w' -> leads_to_file w' p = leads_to_file w p.
Proof. intros Hsame. unfold leads_to_file. by rewrite (stat_node_same_fs w w'). Qed.

Lemma last_snoc (root : abspath) (file : pystr) : List.last (root ++ [file]) [] = file.
Proof. apply last_last. Qed.

(** The loop body of the client's search, for an entry that leads to a
    regular file. *)
Lemma client_search_one top term ext root file acc w :
  leads_to_file w (root ++ [file]) = true ->
  exists w',
    WindowsMCPClient.search_one top (str_lower term) (JStr ext) root file acc w
    = (Ok (acc ++ scan_path w WindowsMCPClient.PAGE term ext top (root ++ [file])), w')
    /\ same_fs w w'.
Proof.
  unfold leads_to_file. intros Hfile.
  destruct (stat_node w (root ++ [file])) as [e|[bs|es|target]] eqn:Hstat;
    try discriminate Hfile.
  unfold WindowsMCPClient.search_one, scan_path. rewrite Hstat, last_snoc.
  unfold passes_filter. cbn [truthy].
  destruct (pystr_eqb ext []) eqn:Eext; cbn [negb orb].
  - unfold bind at 1. cbn [ret].
    erewrite scan_try by exact Hstat.
    eexists. split; [ reflexivity | split; reflexivity ].
  - unfold bind at 1. unfold endswith_value. unfold bind at 1. cbn [ret].
    destruct (endswith file ext); cbn [negb].
    + erewrite scan_try by exact Hstat.
      eexists. split; [ reflexivity | split; reflexivity ].
    + eexists. split; [ unfold ret; rewrite app_nil_r; reflexivity
                      | split; reflexivity ].
Qed.

(** The entry of the client's loop that cannot be opened for another
    reason than its encoding ends the whole search. *)
Lemma client_search_one_raises top term root file acc w e :
  stat_node w (root ++ [file]) = inl e ->
  fs_err_class e <> UnicodeDecodeError ->
  fs_err_class e <> PermissionError ->
  WindowsMCPClient.search_one top (str_lower term) (JStr []) root file acc w
  = (Raise (Exn (fs_err_class e)
                (lib_text (fs_err_class e) (path_str (root ++ [file])))),
     logged w [EvFs OpOpenRead (root ++ [file])]).
Proof.
  intros Hstat Hdecode Hpermission. unfold WindowsMCPClient.search_one. cbn [truthy].
  rewrite pystr_eqb_refl. cbn [negb].
  unfold bind at 1. cbn [ret]. unfold try_except, bind.
  rewrite read_text_general, Hstat. cbn [exn_cls].
  rewrite !decide_False by assumption. reflexivity.
Qed.

Lemma os_path_isdir_spec p w :
  canonical (w_root w) p = true -> accepted p = true ->
  os_path_isdir p w
  = (Ok (match find_node (w_root w) p with inr (Dir _) => true | _ => false end),
     logged w [EvFs OpIsDir p]).
Proof.
  intros Hcan Hp. unfold os_path_isdir, bind, emit, gets, logged.
  change (stat_node (World (w_root w) (w_cwd w) (w_log w ++ [EvFs OpIsDir p])) p)
    with (stat_node w p).
  by rewrite stat_node_canonical.
Qed.

(** The steps of the search handler of the client after the path check, up
    to the loop, on a directory. *)
Lemma search_prelude {A B} (invalid : A) (walk : io B) (k : pystr -> B -> io A)
    term rp es w :
  canonical (w_root w) rp = true -> accepted rp = true ->
  find_node (w_root w) rp = inr (Dir es) ->
  (ex <- os_path_exists rp ;;
   isd <- (if ex then os_path_isdir rp else ret false) ;;
   if negb ex || negb isd then ret invalid
   else search_term_lower <- lower_of (JStr term) ;;
        found <- walk ;;
        k search_term_lower found) w
  = (found <- walk ;; k (str_lower term) found)
      (logged w [EvFs OpExists rp; EvFs OpIsDir rp]).
Proof.
  intros Hcan Hp Hfind.
  unfold bind at 1. rewrite os_path_exists_spec by assumption. rewrite Hfind.
  unfold bind at 1. rewrite os_path_isdir_spec by assumption.
  cbn [logged w_root]. rewrite Hfind. cbn [negb orb].
  unfold bind at 1. cbn [lower_of ret].
  unfold logged. cbn. by rewrite <- !app_assoc.
Qed.

(** The same for the server, which asks [pathlib]. *)
Lemma server_search_prelude {A B} (invalid : A) (walk : io B)
    (k : pystr -> B -> io A) term rp es w :
  canonical (w_root w) rp = true -> accepted rp = true ->
  find_node (w_root w) rp = inr (Dir es) ->
  (ex <- path_exists rp ;;
   isd <- (if ex then path_is_dir rp else ret false) ;;
   if negb ex || negb isd then ret invalid
   else search_term_lower <- lower_of (JStr term) ;;
        found <- walk ;;
        k search_term_lower found) w
  = (found <- walk ;; k (str_lower term) found)
      (logged w [EvFs OpExists rp; EvFs OpIsDir rp]).
Proof.
  intros Hcan Hp Hfind.
  unfold bind at 1. rewrite (path_exists_found rp w _ Hcan Hp Hfind).
  unfold bind at 1.
  rewrite (path_is_dir_found rp (logged w [EvFs OpExists rp]) (Dir es) Hcan Hp Hfind).
  cbn [is_dir_node negb orb].
  unfold bind at 1. cbn [lower_of ret].
  unfold logged. cbn. by rewrite <- !app_assoc.
Qed.

Lemma path_rglob_spec rp es w :
  canonical (w_root w) rp = true -> accepted rp = true ->
  find_node (w_root w) rp = inr (Dir es) ->
  path_rglob rp w = (Ok (entries_below (Dir es) rp), logged w [EvFs OpWalk rp]).
Proof.
  intros Hcan Hp Hfind. unfold path_rglob, bind, emit, gets, logged.
  change (stat_node (World (w_root w) (w_cwd w) (w_log w ++ [EvFs OpWalk rp])) rp)
    with (stat_node w rp).
  rewrite stat_node_canonical by assumption. rewrite Hfind.
  unfold entries_below, ret. do 2 f_equal.
  apply flat_map_ext. intros [here entries]. reflexivity.
Qed.

Lemma os_walk_spec rp es w :
  canonical (w_root w) rp = true -> accepted rp = true ->
  find_node (w_root w) rp = inr (Dir es) ->
  os_walk rp w
  = (Ok (map (fun d =>
                (fst d,
                 map fst (List.filter (entry_is_dir w (fst d)) (snd d)),
                 map fst (List.filter (fun e => negb (entry_is_dir w (fst d) e)) (snd d))))
             (walk_tree (Dir es) rp)),
     logged w [EvFs OpWalk rp]).
Proof.
  intros Hcan Hp Hfind. unfold os_walk, bind, emit, gets, logged.
  change (stat_node (World (w_root w) (w_cwd w) (w_log w ++ [EvFs OpWalk rp])) rp)
    with (stat_node w rp).
  rewrite stat_node_canonical by assumption. rewrite Hfind.
  unfold ret. do 2 f_equal. apply map_ext. intros [here entries]. reflexivity.
Qed.

End SearchLoops.

Section SearchHandlers.
Context `{Platform}.

Lemma server_search_ok self term dir ext w rp es :
  realpath w (server_target self dir) = Reached rp ->
  is_relative_to rp (FileSystemMCPServer.base_directory self) = true ->
  accepted rp = true ->
  find_node (w_root w) rp = inr (Dir es) ->
  Forall (fun p => askable w p = true) (entries_below (Dir es) rp) ->
  exists w',
    FileSystemMCPServer._search_files self (JStr term) (JStr dir) (JStr ext) w
    = (Ok [search_report (JStr term) (JStr dir)
             (flat_map (scan_path w FileSystemMCPServer.PAGE term ext rp)
                       (entries_below (Dir es) rp))], w')
    /\ same_fs w w'.
Proof.
  intros Htarget Hinside Hp Hfind Hask.
  pose proof (realpath_abs_is_canonical w _ rp (server_target_abs self dir) Htarget) as Hcan.
  unfold FileSystemMCPServer._search_files, try_except. unfold bind at 1.
  rewrite (server_safe_path_allowed self dir w rp Htarget Hinside).
  rewrite (server_search_prelude _ _ _ term rp es) by assumption.
  unfold bind at 1. rewrite (path_rglob_spec rp es) by assumption.
  unfold bind at 1.
  match goal with
  | |- context [for_each ?paths ?body ?acc ?w0] =>
      destruct (server_search_loop rp term ext paths acc w0) as (w' & -> & Hsame)
  end.
  { eapply Forall_impl; [ exact Hask | ]. intros q Hq. exact Hq. }
  exists w'. split; [ reflexivity | exact Hsame ].
Qed.

Lemma client_search_ok term dir ext w rp es :
  canonical (w_root w) (w_cwd w) = true ->
  realpath w (client_target dir) = Reached rp ->
  is_relative_to rp (w_cwd w) = true ->
  accepted rp = true ->
  find_node (w_root w) rp = inr (Dir es) ->
  Forall (fun p => leads_to_file w p = true) (files_below w (Dir es) rp) ->
  exists w',
    WindowsMCPClient._search_files_direct (JStr term) (JStr dir) (JStr ext) w
    = (Ok (WindowsMCPClient.success
             (search_report (JStr term) (JStr dir)
                (flat_map (scan_path w WindowsMCPClient.PAGE term ext rp)
                          (files_below w (Dir es) rp)))
             "mcp_search_files"), w')
    /\ same_fs w w'.
Proof.
  intros Hcwd Htarget Hinside Hp Hfind Hfiles.
  pose proof (realpath_is_canonical w _ rp Hcwd Htarget) as Hcan.
  unfold WindowsMCPClient._search_files_direct, try_except. unfold bind at 1.
  rewrite (client_safe_path_allowed dir w rp Htarget Hinside).
  rewrite (search_prelude _ _ _ term rp es) by assumption.
  unfold bind at 1. rewrite (os_walk_spec rp es) by assumption.
  unfold bind at 1.
  (* the two nested loops, as one scan per directory *)
  pose (scan_dir := fun (w0 : world) (d : abspath * list pystr * list pystr) =>
          flat_map (fun file => scan_path w0 WindowsMCPClient.PAGE term ext rp
                                  (fst (fst d) ++ [file])) (snd d)).
  pose (good_dir := fun (w0 : world) (d : abspath * list pystr * list pystr) =>
          Forall (fun file => leads_to_file w0 (fst (fst d) ++ [file]) = true) (snd d)).
  assert (forall d acc w0, good_dir w0 d ->
            exists w1,
              for_each (snd d)
                (WindowsMCPClient.search_one rp (str_lower term) (JStr ext) (fst (fst d)))
                acc w0
              = (Ok (acc ++ scan_dir w0 d), w1) /\ same_fs w0 w1) as Hinner.
  { intros d acc w0 Hgood.
    apply (for_each_scan
             (WindowsMCPClient.search_one rp (str_lower term) (JStr ext) (fst (fst d)))
             (fun w1 file => scan_path w1 WindowsMCPClient.PAGE term ext rp
                               (fst (fst d) ++ [file]))
             (fun w1 file => leads_to_file w1 (fst (fst d) ++ [file]) = true)).
    - intros file acc1 w1 Hfile. apply client_search_one. exact Hfile.
    - intros w1 w2 file Hsame. apply scan_path_same_fs. exact Hsame.
    - intros w1 w2 file Hsame Hfile. by rewrite (leads_to_file_same_fs w1 w2).
    - exact Hgood. }
  assert (forall w1 w2 d, same_fs w1 w2 -> scan_dir w2 d = scan_dir w1 d) as Hscan.
  { intros w1 w2 d Hsame. unfold scan_dir. apply flat_map_ext. intros file.
    apply scan_path_same_fs. exact Hsame. }
  assert (forall w1 w2 d, same_fs w1 w2 -> good_dir w1 d -> good_dir w2 d) as Hgood.
  { intros w1 w2 d Hsame Hall. unfold good_dir in *.
    eapply Forall_impl; [ exact Hall | ]. intros file Hfile.
    by rewrite (leads_to_file_same_fs w1 w2). }
  pose proof (for_each_scan _ scan_dir good_dir Hinner Hscan Hgood) as Hloop.
  match goal with
  | |- context [for_each ?ds _ ?a0 ?w0] =>
      destruct (Hloop ds a0 w0) as (w' & E & Hsame)
  end.
  - (* every reported file leads to a regular file *)
    unfold good_dir, files_below in *. clear -Hfiles.
    induction (walk_tree (Dir es) rp) as [|[here entries] dirs IH]; [ constructor | ].
    cbn [map flat_map fst snd] in *. apply Forall_app in Hfiles as [Hhere Hrest].
    constructor; [ | exact (IH Hrest) ].
    cbn [fst snd]. rewrite Forall_map in Hhere. rewrite Forall_map. exact Hhere.
  - exists w'. split; [ | exact Hsame ].
    match goal with
    | |- context [for_each ?ds ?bd ?a0 ?w0] =>
        replace (for_each ds bd a0 w0) with (Ok (a0 ++ flat_map (scan_dir w0) ds), w')
          by (symmetry; exact E)
    end.
    cbn [app]. unfold ret. do 4 f_equal.
    unfold scan_dir, files_below. clear.
    induction (walk_tree (Dir es) rp) as [|[here entries] dirs IH]; [ reflexivity | ].
    cbn [map flat_map fst snd]. rewrite flat_map_app, IH. f_equal.
    induction (List.filter _ entries) as [|e l IHl]; [ reflexivity | ].
    cbn [map flat_map fst]. by rewrite IHl.
Qed.

End SearchHandlers.

(** What holds of the search.  For every search term, directory inside the
    sandbox that the operating system accepts, and extension filter (all
    strings), the search of the server returns the report built from what
    [scan_path] yields for every entry below the directory, as long as
    [pathlib] answers for each of them, and the search of the in-process
    client the same for every entry [os.walk] lists as a file, as long as
    each of those leads to a regular file.  [scan_path]
    is the specification's description: a regular file whose name passes the
    filter and whose content decodes as text is searched for the term with
    letter case ignored; when the term occurs, the file's path relative to
    the search root is recorded with at most the first three matching lines
    and their numbers, and with the number of further matching lines when
    there are more than three; a file that does not decode adds nothing and
    raises nothing. *)
Theorem search_records_matches `{Platform} (term dir ext : pystr) (w : world) :
  (forall self rp es,
     realpath w (server_target self dir) = Reached rp ->
     is_relative_to rp (FileSystemMCPServer.base_directory self) = true ->
     accepted rp = true ->
     find_node (w_root w) rp = inr (Dir es) ->
     Forall (fun p => askable w p = true) (entries_below (Dir es) rp) ->
     exists w',
       server_op self (DoSearch (JStr term) (JStr ext)) (JStr dir) w
       = (Ok [search_report (JStr term) (JStr dir)
                (flat_map (scan_path w FileSystemMCPServer.PAGE term ext rp)
                          (entries_below (Dir es) rp))], w')
       /\ same_fs w w')
  /\ (forall rp es,
        canonical (w_root w) (w_cwd w) = true ->
        realpath w (client_target dir) = Reached rp ->
        is_relative_to rp (w_cwd w) = true ->
        accepted rp = true ->
        find_node (w_root w) rp = inr (Dir es) ->
        Forall (fun p => leads_to_file w p = true) (files_below w (Dir es) rp) ->
        exists w',
          client_op (DoSearch (JStr term) (JStr ext)) (JStr dir) w
          = (Ok (WindowsMCPClient.success
                   (search_report (JStr term) (JStr dir)
                      (flat_map (scan_path w WindowsMCPClient.PAGE term ext rp)
                                (files_below w (Dir es) rp)))
                   "mcp_search_files"), w')
          /\ same_fs w w')
  /\ (forall rel content m,
        find_in_file term rel content = Some m ->
        occurs_ignoring_case term content = true
        /\ fm_path m = rel
        /\ (length (fm_lines m) <= 3)%nat
        /\ fm_lines m = firstn 3 (matching_lines_of term content)
        /\ (forall k, fm_more m = Some k <->
                      (3 < length (matching_lines_of term content)
                       /\ k = length (matching_lines_of term content) - 3)%nat))
  /\ (forall content i line,
        In (i, line) (matching_lines_of term content)
        <-> (1 <= i)%nat
            /\ split_on LF content !! (i - 1)%nat = Some line
            /\ occurs_ignoring_case term line = true).
Proof.
  split; [ | split; [ | split ] ].
  - intros self rp es. apply server_search_ok.
  - intros rp es. apply client_search_ok.
  - intros rel content m E. split.
    + unfold find_in_file in E.
      destruct (occurs_ignoring_case term content); [ reflexivity | discriminate E ].
    + exact (find_in_file_lines term rel content m E).
  - intros content i line. apply matching_lines_of_spec.
Qed.

(** An instance, the scenario of the specification continued: the search for
    ["hell"] in [/sandbox] finds line 1 of [notes.txt], skips the file that is
    not text, and reports three of the four matching lines of
    [sub/more.txt]. *)
Lemma search_records_matches_witness :
  exists w',
    @client_op posix_platform (DoSearch (JStr (py "hell")) (JStr [])) (JStr (py "."))
      search_world
    = (Ok (WindowsMCPClient.success
             (join [LF]
                [ py "Search results for 'hell' in .:";
                  py "---";
                  WindowsMCPClient.PAGE ++ py " notes.txt:";
                  py "  Line 1: hello";
                  [];
                  WindowsMCPClient.PAGE ++ py " sub/more.txt:";
                  py "  Line 2: Hello";
                  py "  Line 3: hELLo";
                  py "  Line 4: shell";
                  py "  ... and 1 more matches";
                  [] ])
             "mcp_search_files"), w').
Proof.
  destruct (proj1 (proj2 (@search_records_matches posix_platform
                            (py "hell") (py ".") [] search_world))
              [py "sandbox"]
              [ (py "notes.txt", File (py "hello"));
                (py "blob.bin", File [0xFF; 0xFE]);
                (py "sub", Dir [ (py "more.txt",
                                  File (py "x" ++ [LF] ++ py "Hello" ++ [LF]
                                        ++ py "hELLo" ++ [LF] ++ py "shell" ++ [LF]
                                        ++ py "hell")) ]) ]
              eq_refl eq_refl eq_refl eq_refl eq_refl
              ltac:(repeat constructor))
    as (w' & E & _).
  exists w'. rewrite E. reflexivity.
Defined.

(** C8 (the code departs from the claim).  [notes.txt] contains the term, and
    next to it lies a symbolic link to nothing.  [os.walk] lists the link as
    a file, [open] raises [FileNotFoundError], which the inner
    [except (UnicodeDecodeError, PermissionError)] does not catch: the search
    of the in-process client ends with an error result and records nothing.
    The server tests [is_file()] first, passes over the link and records
    line 1 of [notes.txt]. *)
Theorem client_search_stops_at_dangling_link :
  (exists error w',
     @client_op posix_platform (DoSearch (JStr (py "hell")) (JStr [])) (JStr (py "."))
       dangling_link_world
     = (Ok (WindowsMCPClient.failure (py "Error searching files: " ++ error)), w'))
  /\ (exists w',
        @server_op posix_platform (FileSystemMCPServer.Server [py "sandbox"])
          (DoSearch (JStr (py "hell")) (JStr [])) (JStr (py ".")) dangling_link_world
        = (Ok [join [LF] [ py "Search results for 'hell' in .:";
                           py "---";
                           FileSystemMCPServer.PAGE ++ py " notes.txt:";
                           py "  Line 1: hello";
                           [] ]], w')).
Proof.
  split.
  - eexists _, _. vm_compute. reflexivity.
  - eexists. vm_compute. reflexivity.
Qed.
